(** * VerticaPy in-memory models: [verticapy/learn/memmodel.py]

    A shallow embedding of the dual-mode evaluators of [memmodel.py]
    (numeric prediction with numpy, and generation of SQL text) together
    with the [memModel] facade, followed by the properties established
    about them.

    Conventions of the embedding.
    - Python values are the dynamic type [pyval]; a raised exception is the
      [Raise] outcome of the error monad [res].
    - Python floats are idealised as real numbers.  A float operation whose
      numpy result is [inf] or [nan] stops the model with [NotFinite].
    - numpy arrays keep the Python type of each cell (dtype unification of
      mixed arrays is not modelled).
    - What Python takes from outside this file (text formatting of values,
      parsing of text as float, the recursion limit, and
      [verticapy.toolbox.check_types]) is the class [Runtime]. *)

From Stdlib Require Import Reals Lra Lia ZArith String List Bool.
From Stdlib Require Import DecimalString.
From stdpp Require Import base option list strings gmap pretty.

#[local] Open Scope string_scope.
#[local] Open Scope Z_scope.

(* ===================================================================== *)
(** * Part I: the embedding *)
(* ===================================================================== *)

(** ** Exceptions and the error monad *)

Inductive exn : Set :=
| IndexError | KeyError | TypeError | ValueError | AssertionError
| ParameterError | FunctionError | RecursionError | ZeroDivisionError
| AttributeError
| NotFinite. (* the float result is inf or nan: outside the model *)

Inductive res (A : Type) : Type :=
| Ok (a : A)
| Raise (e : exn).
Arguments Ok {A} a.
Arguments Raise {A} e.

#[global] Instance res_ret : MRet res := fun _ a => Ok a.
#[global] Instance res_bind : MBind res := fun _ _ f m =>
  match m with Ok a => f a | Raise e => Raise e end.

Definition raises {A} (m : res A) : Prop := ∃ e, m = Raise e.

Definition py_assert (b : bool) : res unit :=
  if b then Ok tt else Raise AssertionError.

Fixpoint traverse {A B} (f : A → res B) (l : list A) : res (list B) :=
  match l with
  | [] => Ok []
  | x :: t => y ← f x; ys ← traverse f t; Ok (y :: ys)
  end.

(** ** Python values *)

#[local] Unset Elimination Schemes.
Inductive pyval : Type :=
| PNone
| PBool (b : bool)
| PInt (z : Z)
| PFloat (r : R)
| PStr (s : string)
| PList (l : list pyval)                  (* Python list *)
| PArray (l : list pyval)                 (* numpy.ndarray, nested for 2-D *)
| PModel (model_type : string) (attributes : gmap string pyval)
         (represent : string).            (* a memModel object *)
#[local] Set Elimination Schemes.

Definition Rltb (a b : R) : bool := if Rlt_dec a b then true else false.
Definition Rleb (a b : R) : bool := if Rle_dec a b then true else false.
Definition Reqb (a b : R) : bool := if Req_dec_T a b then true else false.

(** [l[i]] on a Python sequence: negative indices count from the end. *)
Definition py_index {A} (l : list A) (i : Z) : res A :=
  let n := Z.of_nat (length l) in
  let j := if i <? 0 then i + n else i in
  if (0 <=? j) && (j <? n)
  then match l !! Z.to_nat j with Some a => Ok a | None => Raise IndexError end
  else Raise IndexError.

Definition items (v : pyval) : res (list pyval) :=
  match v with
  | PList l | PArray l => Ok l
  | _ => Raise TypeError
  end.

Definition as_index (i : pyval) : res Z :=
  match i with
  | PInt k => Ok k
  | PBool b => Ok (if b then 1 else 0)
  | _ => Raise TypeError
  end.

(** [v[i]] *)
Definition getitem (v i : pyval) : res pyval :=
  l ← items v; k ← as_index i; py_index l k.

Definition is_iterable (v : pyval) : bool :=
  match v with
  | PList _ | PArray _ | PStr _ => true
  | _ => false
  end.

Definition py_len (v : pyval) : res Z :=
  match v with
  | PList l | PArray l => Ok (Z.of_nat (length l))
  | PStr s => Ok (Z.of_nat (String.length s))
  | _ => Raise TypeError
  end.

(** A number as numpy sees it. *)
Definition as_num (v : pyval) : res R :=
  match v with
  | PInt z => Ok (IZR z)
  | PFloat r => Ok r
  | PBool b => Ok (if b then 1%R else 0%R)
  | _ => Raise TypeError
  end.

(** [a == b] on scalars and lists of them.  Two arrays or two models are
    not compared by the code; they are reported different. *)
Fixpoint py_eq (a b : pyval) : bool :=
  match a, b with
  | PNone, PNone => true
  | PStr s, PStr t => bool_decide (s = t)
  | PList la, PList lb =>
      (fix go (la lb : list pyval) : bool :=
         match la, lb with
         | [], [] => true
         | x :: xs, y :: ys => py_eq x y && go xs ys
         | _, _ => false
         end) la lb
  | PInt x, PInt y => x =? y
  | _, _ =>
      match as_num a, as_num b with
      | Ok x, Ok y => Reqb x y
      | _, _ => false
      end
  end.

(** ** What Python gets from outside [memmodel.py] *)

Inductive pytype : Set :=
| Tlist | Tndarray | Tint | Tfloat | Tbool | Tstr | Tdict.

(** One entry of the list handed to [check_types]: a parameter name, its
    value, and either the accepted types or the accepted values. *)
Inductive type_check : Type :=
| OfType (name : string) (v : pyval) (types : list pytype)
| OneOf (name : string) (v : pyval) (choices : list pyval)
| DictOfType (name : string) (d : gmap string pyval) (types : list pytype).

Class Runtime : Type := {
(** [str(v)] and ["{}".format(v)] *)
fmt : pyval → string;
(** [float(s)] on text; [None] when Python raises [ValueError] *)
parse_float : string → option R;
(** nested calls of a recursive function Python allows below the first *)
max_depth : nat;
(** [verticapy.toolbox.check_types]; [false] when it raises *)
check_types : list type_check → bool;
}.

Definition check `{Runtime} (l : list type_check) : res unit :=
  if check_types l then Ok tt else Raise ParameterError.

(** [float(v)] *)
Definition py_float `{Runtime} (v : pyval) : res R :=
  match v with
  | PStr s => match parse_float s with Some r => Ok r | None => Raise ValueError end
  | _ => as_num v
  end.

(** ** numpy helpers *)

(** Index of the first maximum. *)
Fixpoint argmax_from (best : R) (besti i : nat) (l : list R) : nat :=
  match l with
  | [] => besti
  | x :: t => if Rltb best x then argmax_from x i (S i) t
              else argmax_from best besti (S i) t
  end.

Definition argmax (l : list R) : res nat :=
  match l with
  | [] => Raise ValueError
  | x :: t => Ok (argmax_from x 0 1 t)
  end.

(** Index of the first minimum. *)
Fixpoint argmin_from (best : R) (besti i : nat) (l : list R) : nat :=
  match l with
  | [] => besti
  | x :: t => if Rltb x best then argmin_from x i (S i) t
              else argmin_from best besti (S i) t
  end.

Definition argmin (l : list R) : res nat :=
  match l with
  | [] => Raise ValueError
  | x :: t => Ok (argmin_from x 0 1 t)
  end.

(** [np.array(v)] of numbers, one axis.  A scalar is an array of one cell
    for the purposes of [np.argmax]. *)
Definition np_vector (v : pyval) : res (list R) :=
  match v with
  | PList l | PArray l => traverse as_num l
  | _ => x ← as_num v; Ok [x]
  end.

(** [np.argmax(v)] *)
Definition np_argmax (v : pyval) : res pyval :=
  xs ← np_vector v; i ← argmax xs; Ok (PInt (Z.of_nat i)).

(** The rows of a 2-D array: a non-empty sequence of sequences of one
    common length. *)
Definition np_rows (X : pyval) : res (list (list pyval)) :=
  rows ← items X;
  cells ← traverse items rows;
  match cells with
  | [] => Raise ValueError
  | r :: rs =>
      if forallb (λ r', Nat.eqb (length r') (length r)) rs
      then Ok cells else Raise ValueError
  end.

(** ** Binary trees: [predict_from_binary_tree] *)

Module BinaryTree.
Section predict_from_binary_tree.
Context `{Runtime}.
Variables (children_left children_right feature threshold value : pyval).
Variables (classes : pyval) (return_proba is_regressor : bool).

Definition has_classes : bool :=
  is_iterable classes &&
  match py_len classes with Ok n => 0 <? n | Raise _ => false end.

Fixpoint predict_tree (depth : nat) (node_id : pyval) (X : pyval)
  : res pyval :=
  l ← getitem children_left node_id;
  r ← getitem children_right node_id;
  if py_eq l r then
    if negb is_regressor && negb return_proba && is_iterable value then
      if has_classes then
        v ← getitem value node_id; k ← np_argmax v; getitem classes k
      else
        v ← getitem value node_id; np_argmax v
    else getitem value node_id
  else
    t ← getitem threshold node_id;
    f ← getitem feature node_id;
    x ← getitem X f;
    goes_left ←
      match t with
      | PStr s => Ok (bool_decide (fmt x = s))
      | _ => a ← py_float x; b ← py_float t; Ok (Rltb a b)
      end;
    match depth with
    | O => Raise RecursionError
    | S d => if goes_left : bool then predict_tree d l X
             else predict_tree d r X
    end.

Definition predict_tree_final (X : pyval) : res pyval :=
  predict_tree max_depth (PInt 0) X.

Definition predict_from_binary_tree (X : pyval) : res pyval :=
  _ ← check [OfType "X" X [Tlist; Tndarray];
             OfType "children_left" children_left [Tlist];
             OfType "children_right" children_right [Tlist];
             OfType "feature" feature [Tlist];
             OfType "threshold" threshold [Tlist];
             OfType "value" value [Tlist];
             OfType "classes" classes [Tlist; Tndarray];
             OfType "return_proba" (PBool return_proba) [Tbool];
             OfType "is_regressor" (PBool is_regressor) [Tbool]];
  rows ← np_rows X;
  out ← traverse (λ row, predict_tree_final (PArray row)) rows;
  Ok (PArray out).
End predict_from_binary_tree.
End BinaryTree.

(** ** Binary trees: [sql_from_binary_tree] *)

Module BinaryTreeSql.
Section sql_from_binary_tree.
Context `{Runtime}.
Variables (children_left children_right feature threshold value : pyval).
Variables (classes : pyval) (return_proba is_regressor : bool).

Definition op_of (t : pyval) : string :=
  match t with PStr _ => "=" | _ => "<" end.

(** ["(CASE WHEN {} {} '{}' THEN {} ELSE {} END)".format(x, op, t, a, b)] *)
Definition case_when (x : pyval) (op : string) (t a b : pyval) : string :=
  "(CASE WHEN " +:+ fmt x +:+ " " +:+ op +:+ " '" +:+ fmt t +:+
  "' THEN " +:+ fmt a +:+ " ELSE " +:+ fmt b +:+ " END)".

Fixpoint predict_tree (depth : nat) (node_id : pyval) (X : pyval)
  (prob_ID : Z) : res pyval :=
  l ← getitem children_left node_id;
  r ← getitem children_right node_id;
  if py_eq l r then
    if return_proba then
      v ← getitem value node_id; getitem v (PInt prob_ID)
    else if negb is_regressor && BinaryTree.has_classes classes then
      v ← getitem value node_id;
      k ← np_argmax v;
      result ← getitem classes k;
      match result with
      | PStr s => Ok (PStr ("'" +:+ s +:+ "'"))
      | _ => Ok result
      end
    else getitem value node_id
  else
    t ← getitem threshold node_id;
    let op := op_of t in
    f ← getitem feature node_id;
    x ← getitem X f;
    match depth with
    | O => Raise RecursionError
    | S d =>
        a ← predict_tree d l X prob_ID;
        b ← predict_tree d r X prob_ID;
        Ok (PStr (case_when x op t a b))
    end.

(** [len(l) if l != None else 0] *)
Definition len_or_0 (l : pyval) : res Z :=
  match l with PNone => Ok 0 | _ => py_len l end.

Definition sql_from_binary_tree (X : pyval) : res pyval :=
  _ ← check [OfType "X" X [Tlist; Tndarray];
             OfType "children_left" children_left [Tlist];
             OfType "children_right" children_right [Tlist];
             OfType "feature" feature [Tlist];
             OfType "threshold" threshold [Tlist];
             OfType "value" value [Tlist];
             OfType "classes" classes [Tlist; Tndarray];
             OfType "return_proba" (PBool return_proba) [Tbool];
             OfType "is_regressor" (PBool is_regressor) [Tbool]];
  if return_proba then
    vs ← items value;
    lens ← traverse len_or_0 vs;
    match lens with
    | [] => Raise ValueError
    | n0 :: ns =>
        let n := foldr Z.max n0 ns in
        out ← traverse (λ i, predict_tree max_depth (PInt 0) X (Z.of_nat i))
                       (seq 0 (Z.to_nat n));
        Ok (PList out)
    end
  else predict_tree max_depth (PInt 0) X 0.
End sql_from_binary_tree.
End BinaryTreeSql.

(** ** More numpy: arithmetic with broadcasting *)

(** [np.array(v)] with one axis. *)
Definition np_array1 (v : pyval) : res (list R) :=
  l ← items v; traverse as_num l.

(** [np.array(v)] with two axes. *)
Definition np_array2 (v : pyval) : res (list (list R)) :=
  rows ← np_rows v; traverse (traverse as_num) rows.

(** One row of [M op v] for a 2-D [M] and a 1-D [v]: the lengths agree, or
    the one of length 1 is stretched; otherwise numpy raises. *)
Definition broadcast_row (f : R → R → R) (row v : list R) : res (list R) :=
  if Nat.eqb (length row) (length v) then Ok (zip_with f row v)
  else match v, row with
       | [y], _ => Ok (map (λ x, f x y) row)
       | _, [x] => Ok (map (f x) v)
       | _, _ => Raise ValueError
       end.

Definition broadcast (f : R → R → R) (M : list (list R)) (v : list R)
  : res (list (list R)) :=
  traverse (λ row, broadcast_row f row v) M.

Definition Rsum (l : list R) : R := foldr Rplus 0%R l.

(** [x / y] on floats. *)
Definition np_div (x y : R) : res R :=
  if Reqb y 0 then Raise NotFinite else Ok (x / y)%R.

(** [x ** p] for a Python int [p]. *)
Definition np_ipow (x : R) (p : Z) : res R :=
  if Reqb x 0 && (p <? 0) then Raise NotFinite else Ok (powerRZ x p).

(** [s ** (1 / p)] for a Python int [p]: [1 / p] is the float quotient, an
    integer only for [p = 1] and [p = -1]; a negative base with any other
    exponent is [nan]. *)
Definition np_root (s : R) (p : Z) : res R :=
  if p =? 0 then Raise ZeroDivisionError
  else if p =? 1 then Ok s
  else if p =? -1 then np_div 1 s
  else if Rltb 0 s then Ok (Rpower s (1 / IZR p))
  else if Reqb s 0 then (if 0 <? p then Ok 0%R else Raise NotFinite)
  else Raise NotFinite.

(** [np.column_stack(L)] of equally long 1-D arrays: the transpose. *)
Definition column_stack (L : list (list R)) : res (list (list R)) :=
  match L with
  | [] => Raise ValueError
  | c :: _ =>
      Ok (map (λ i, omap (λ col, col !! i) L) (seq 0 (length c)))
  end.

Definition matrix_val (M : list (list R)) : pyval :=
  PArray (map (λ row, PArray (map PFloat row)) M).

(** [range(n)] *)
Definition py_range (n : Z) : list Z := map Z.of_nat (seq 0 (Z.to_nat n)).

(** [method in ("LogisticRegression", "LinearSVC",)] *)
Definition is_logistic (method : string) : bool :=
  bool_decide (method = "LogisticRegression") ||
  bool_decide (method = "LinearSVC").

Definition method_choices : list pyval :=
  [PStr "LinearRegression"; PStr "LinearSVR"; PStr "LogisticRegression";
   PStr "LinearSVC"].

(** ** Linear models: [predict_from_coef], [sql_from_coef] *)

Definition sigmoid (z : R) : R := (1 / (1 + exp (- z)))%R.

Definition predict_from_coef `{Runtime} (X coefficients intercept : pyval)
  (method : string) (return_proba : bool) : res pyval :=
  _ ← check [OfType "X" X [Tlist; Tndarray];
             OfType "coefficients" coefficients [Tlist; Tndarray];
             OfType "intercept" intercept [Tfloat; Tint];
             OneOf "method" (PStr method) method_choices;
             OfType "return_proba" (PBool return_proba) [Tbool]];
  c ← np_array1 coefficients;
  M ← np_array2 X;
  P ← broadcast (λ x cj, cj * x)%R M c;
  b ← as_num intercept;
  let result := map (λ row, b + Rsum row)%R P in
  if is_logistic method then
    let result := map sigmoid result in
    if return_proba then
      Ok (PArray (map (λ q, PArray [PFloat (1 - q); PFloat q]) result))
    else
      Ok (PArray (map (λ q, PInt (if Rltb 0.5 q then 1 else 0)) result))
  else Ok (PArray (map PFloat result)).

Definition sql_from_coef `{Runtime} (X coefficients intercept : pyval)
  (method : string) : res pyval :=
  _ ← check [OfType "X" X [Tlist];
             OfType "coefficients" coefficients [Tlist];
             OfType "intercept" intercept [Tfloat; Tint];
             OneOf "method" (PStr method) method_choices];
  lx ← py_len X;
  lc ← py_len coefficients;
  _ ← py_assert (lx =? lc);
  terms ← traverse (λ idx, c ← getitem coefficients (PInt idx);
                           x ← getitem X (PInt idx);
                           Ok (fmt c +:+ " * " +:+ fmt x))
                   (py_range lc);
  let sql := String.concat " + " (fmt intercept :: terms) in
  if is_logistic method
  then Ok (PStr ("1 / (1 + EXP(- (" +:+ sql +:+ ")))"))
  else Ok (PStr sql).

(** ** Truth value of a Python object: [if v:] *)

Definition scalar_truthy (v : pyval) : res bool :=
  match v with
  | PNone => Ok false
  | PBool b => Ok b
  | PInt z => Ok (negb (z =? 0))
  | PFloat r => Ok (negb (Reqb r 0))
  | PStr s => Ok (negb (bool_decide (s = EmptyString)))
  | _ => Ok true
  end.

Definition py_truthy (v : pyval) : res bool :=
  match v with
  | PList l => Ok (negb (bool_decide (l = [])))
  | PArray [] => Ok false
  | PArray [x] => scalar_truthy x
  | PArray _ => Raise ValueError
  | _ => scalar_truthy v
  end.

(** ** Flat clusters: [predict_from_clusters] *)

(** The stabiliser [1e-99]. *)
Definition eps : R := (/ 10 ^ 99)%R.

(** [np.where(result == tmp_idx, c, result)]: a text label turns the whole
    array into text. *)
Definition np_where_eq `{Runtime} (tmp_idx c : pyval) (result : list pyval)
  : list pyval :=
  map (λ x, if py_eq x tmp_idx then c
            else match c, x with
                 | PStr _, PStr _ => x
                 | PStr _, _ => PStr (fmt x)
                 | _, _ => x
                 end) result.

Definition relabel `{Runtime} (classes : pyval) (result : list pyval)
  : res (list pyval) :=
  c0 ← getitem classes (PInt 0);
  let class_is_str := match c0 with PStr _ => true | _ => false end in
  cs ← items classes;
  Ok (foldl (λ result ic,
               let idx := Z.of_nat ic.1 in
               let tmp_idx := if class_is_str && (0 <? idx)
                              then PStr (fmt (PInt idx)) else PInt idx in
               np_where_eq tmp_idx ic.2 result)
            result (imap (λ i c, (i, c)) cs)).

(** Distance of every row of [M] to one centroid:
    [np.sum((np.array(centroid) - X) ** p, axis=1) ** (1 / p)]. *)
Definition distances_to (M : list (list R)) (p : Z) (centroid : list R)
  : res (list R) :=
  D ← broadcast (λ x c, c - x)%R M centroid;
  Pw ← traverse (traverse (λ d, np_ipow d p)) D;
  traverse (λ row, np_root (Rsum row) p) Pw.

Definition predict_from_clusters `{Runtime} (X clusters : pyval)
  (return_distance_clusters return_proba : bool) (classes : pyval) (p : Z)
  : res pyval :=
  _ ← check [OfType "X" X [Tlist; Tndarray];
             OfType "clusters" clusters [Tlist; Tndarray];
             OfType "return_distance_clusters"
                    (PBool return_distance_clusters) [Tbool];
             OfType "return_proba" (PBool return_proba) [Tbool];
             OfType "classes" classes [Tlist; Tndarray];
             OfType "p" (PInt p) [Tint]];
  _ ← py_assert (negb return_distance_clusters || negb return_proba);
  centroids ← np_array2 clusters;
  M ← np_array2 X;
  cols ← traverse (distances_to M p) centroids;
  result ← column_stack cols;
  if return_proba then
    W ← traverse (traverse (λ d, np_div 1 (d + eps))) result;
    out ← traverse (λ row, traverse (λ w, np_div w (Rsum row)) row) W;
    Ok (matrix_val out)
  else if negb return_distance_clusters then
    idx ← traverse argmin result;
    let result := map (λ i, PInt (Z.of_nat i)) idx in
    has ← py_truthy classes;
    if has : bool then out ← relabel classes result; Ok (PArray out)
    else Ok (PArray result)
  else Ok (matrix_val result).

(** ** Bisecting k-means: [predict_from_bisecting_kmeans] *)

(** [int(v)] *)
Definition py_int (v : pyval) : res Z :=
  match v with
  | PInt k => Ok k
  | PBool b => Ok (if b then 1 else 0)
  | PFloat r => Ok (if Rltb r 0 then - Int_part (- r) else Int_part r)
  | _ => Raise TypeError
  end.

Module Bisecting.
Section predict_from_bisecting_kmeans.
Context `{Runtime}.
Variable (p : Z).

(** [np.sum((row - centroids[node]) ** p)] *)
Definition cost (centroids : list (list R)) (row : list R) (node : Z)
  : res R :=
  c ← py_index centroids node;
  d ← broadcast_row (λ x cj, x - cj)%R row c;
  pw ← traverse (λ x, np_ipow x p) d;
  Ok (Rsum pw).

Fixpoint predict_tree (depth : nat) (right_child left_child : pyval)
  (row : list R) (node_id : Z) (centroids : list (list R)) : res pyval :=
  l ← getitem left_child (PInt node_id);
  r ← getitem right_child (PInt node_id);
  if py_eq l r && py_eq r PNone then Ok (PInt node_id)
  else
    right_node ← py_int r;
    left_node ← py_int l;
    a ← cost centroids row left_node;
    b ← cost centroids row right_node;
    match depth with
    | O => Raise RecursionError
    | S d =>
        if Rltb a b
        then predict_tree d right_child left_child row left_node centroids
        else predict_tree d right_child left_child row right_node centroids
    end.

Definition predict_from_bisecting_kmeans
  (X clusters left_child right_child : pyval) : res pyval :=
  _ ← check [OfType "X" X [Tlist; Tndarray];
             OfType "clusters" clusters [Tlist; Tndarray];
             OfType "left_child" left_child [Tlist; Tndarray];
             OfType "right_child" right_child [Tlist; Tndarray];
             OfType "p" (PInt p) [Tint]];
  centroids ← np_array2 clusters;
  M ← np_array2 X;
  out ← traverse (λ row, predict_tree max_depth right_child left_child
                                      row 0 centroids) M;
  Ok (PArray out).
End predict_from_bisecting_kmeans.
End Bisecting.

(** ** SQL text of the cluster models, kept as a syntax tree

    [sql_from_clusters] assembles its text from a handful of templates.
    The embedding keeps the assembled template instances as a tree;
    [Sql.render] prints the tree to the very text Python builds, and
    [Sql.eval] gives the tree the meaning a SQL engine gives the text. *)

Module Sql.

#[local] Unset Elimination Schemes.
Inductive sql : Type :=
| SVal (v : pyval)                  (* "{}".format(v) *)
| SLit (text : string) (value : R)  (* a numeral of the template *)
| SNull                             (* NULL *)
| SStr (s : string)                 (* '{}' *)
| SSub (a b : sql)                  (* {} - {} *)
| SDiv (a b : sql)                  (* {} / {} *)
| SLe (a b : sql)                   (* {} <= {} *)
| SEq (a b : sql)                   (* {} = {} *)
| SSum (l : list sql)               (* " + ".join(l) *)
| SAnd (l : list sql)               (* " AND ".join(l) *)
| SOr (l : list sql)                (* " OR ".join(l) *)
| SPower (a b : sql)                (* POWER({}, {}) *)
| SParen (a : sql)                  (* ({}) *)
| SIsNull (a : sql)                 (* {} IS NULL *)
| SCase (paren : bool) (whens : list (sql * sql)) (els : sql).
(* CASE WHEN {} THEN {} ... ELSE {} END, in brackets or not *)
#[local] Set Elimination Schemes.

Section render.
Context `{Runtime}.

Fixpoint render (e : sql) : string :=
  match e with
  | SVal v => fmt v
  | SLit text _ => text
  | SNull => "NULL"
  | SStr s => "'" +:+ s +:+ "'"
  | SSub a b => render a +:+ " - " +:+ render b
  | SDiv a b => render a +:+ " / " +:+ render b
  | SLe a b => render a +:+ " <= " +:+ render b
  | SEq a b => render a +:+ " = " +:+ render b
  | SSum l => String.concat " + " (map render l)
  | SAnd l => String.concat " AND " (map render l)
  | SOr l => String.concat " OR " (map render l)
  | SPower a b => "POWER(" +:+ render a +:+ ", " +:+ render b +:+ ")"
  | SParen a => "(" +:+ render a +:+ ")"
  | SIsNull a => render a +:+ " IS NULL"
  | SCase paren whens els =>
      let body :=
        "CASE" +:+
        String.concat EmptyString
          (map (λ w, " WHEN " +:+ render w.1 +:+ " THEN " +:+ render w.2)
               whens) +:+
        " ELSE " +:+ render els +:+ " END" in
      if paren then "(" +:+ body +:+ ")" else body
  end.
End render.

(** Values of the engine. *)
Inductive sqlval : Type :=
| VNull
| VNum (r : R)
| VBool (b : bool)
| VText (s : string).

Definition num2 (f : R → R → option sqlval) (x y : sqlval)
  : option sqlval :=
  match x, y with
  | VNum a, VNum b => f a b
  | VNull, (VNull | VNum _) | VNum _, VNull => Some VNull
  | _, _ => None
  end.

(** Three-valued conjunction and disjunction of a list of conditions. *)
Fixpoint all3 (l : list sqlval) : option sqlval :=
  match l with
  | [] => Some (VBool true)
  | v :: t =>
      match v, all3 t with
      | VBool false, Some _ => Some (VBool false)
      | _, Some (VBool false) => match v with
                                 | VBool _ | VNull => Some (VBool false)
                                 | _ => None
                                 end
      | VBool true, Some r => Some r
      | VNull, Some _ => Some VNull
      | _, _ => None
      end
  end.

Fixpoint any3 (l : list sqlval) : option sqlval :=
  match l with
  | [] => Some (VBool false)
  | v :: t =>
      match v, any3 t with
      | VBool true, Some _ => Some (VBool true)
      | _, Some (VBool true) => match v with
                                | VBool _ | VNull => Some (VBool true)
                                | _ => None
                                end
      | VBool false, Some r => Some r
      | VNull, Some _ => Some VNull
      | _, _ => None
      end
  end.

Fixpoint sum_vals (l : list sqlval) : option sqlval :=
  match l with
  | [] => None
  | [v] => match v with VNum _ | VNull => Some v | _ => None end
  | v :: t => r ← sum_vals t; num2 (λ a b, Some (VNum (a + b))) v r
  end.

Section eval.
(** The row the expression is evaluated on: column name to value. *)
Variable env : string → option sqlval.

Definition eval_val (v : pyval) : option sqlval :=
  match v with
  | PInt z => Some (VNum (IZR z))
  | PFloat r => Some (VNum r)
  | PStr s => env s
  | _ => None
  end.

(** [POWER(x, y)]: an exponent written as an integer is an integer
    power; any other exponent needs a positive base. *)
Definition power (x : R) (b : sql) (y : R) : option sqlval :=
  match b with
  | SVal (PInt k) =>
      if Reqb x 0 && (k <? 0) then None else Some (VNum (powerRZ x k))
  | _ => if Rltb 0 x then Some (VNum (Rpower x y)) else None
  end.

Fixpoint eval (e : sql) : option sqlval :=
  match e with
  | SVal v => eval_val v
  | SLit _ value => Some (VNum value)
  | SNull => Some VNull
  | SStr s => Some (VText s)
  | SSub a b =>
      x ← eval a; y ← eval b; num2 (λ a b, Some (VNum (a - b))) x y
  | SDiv a b =>
      x ← eval a; y ← eval b;
      num2 (λ a b, if Reqb b 0 then None else Some (VNum (a / b))) x y
  | SLe a b =>
      x ← eval a; y ← eval b; num2 (λ a b, Some (VBool (Rleb a b))) x y
  | SEq a b =>
      x ← eval a; y ← eval b; num2 (λ a b, Some (VBool (Reqb a b))) x y
  | SSum l =>
      vs ← (fix go (l : list sql) : option (list sqlval) :=
              match l with
              | [] => Some []
              | a :: t => x ← eval a; xs ← go t; Some (x :: xs)
              end) l;
      sum_vals vs
  | SAnd l =>
      vs ← (fix go (l : list sql) : option (list sqlval) :=
              match l with
              | [] => Some []
              | a :: t => x ← eval a; xs ← go t; Some (x :: xs)
              end) l;
      match vs with [] => None | _ => all3 vs end
  | SOr l =>
      vs ← (fix go (l : list sql) : option (list sqlval) :=
              match l with
              | [] => Some []
              | a :: t => x ← eval a; xs ← go t; Some (x :: xs)
              end) l;
      match vs with [] => None | _ => any3 vs end
  | SPower a b =>
      x ← eval a; y ← eval b; num2 (λ x y, power x b y) x y
  | SParen a => eval a
  | SIsNull a =>
      x ← eval a;
      Some (VBool match x with VNull => true | _ => false end)
  | SCase _ whens els =>
      (fix go (ws : list (sql * sql)) : option sqlval :=
         match ws with
         | [] => eval els
         | (c, v) :: t =>
             b ← eval c;
             match b with
             | VBool true => eval v
             | VBool false | VNull => go t
             | _ => None
             end
         end) whens
  end.
End eval.

(** The values of a list of expressions, and the value of the branches of
    a CASE: the two inner loops of [eval]. *)
Definition evals (env : string → option sqlval) (l : list sql)
  : option (list sqlval) :=
  (fix go (l : list sql) : option (list sqlval) :=
     match l with
     | [] => Some []
     | a :: t => x ← eval env a; xs ← go t; Some (x :: xs)
     end) l.

Definition case_go (env : string → option sqlval) (els : sql)
  : list (sql * sql) → option sqlval :=
  fix go (ws : list (sql * sql)) : option sqlval :=
    match ws with
    | [] => eval env els
    | (c, v) :: t =>
        b ← eval env c;
        match b with
        | VBool true => eval env v
        | VBool false | VNull => go t
        | _ => None
        end
    end.

(** A row without columns: every input is a literal. *)
Definition no_columns : string → option sqlval := λ _, None.

End Sql.

(** ** Flat clusters: [sql_from_clusters] *)

Module ClustersSql.
Import Sql.
Section sql_from_clusters.
Context `{Runtime}.

(** The entries of [classes_tmp]. *)
Definition class_sql (val : pyval) : sql :=
  match val with
  | PStr s => SStr (fmt val)
  | PNone => SNull
  | _ => SVal val
  end.

(** ["POWER(" + " + ".join(list_tmp) + ", {})".format(p)] with
    [list_tmp] the ["POWER({} - {}, {})"] of every column. *)
Definition cluster_distance (X c : pyval) (p : Z) : res sql :=
  xs ← items X;
  list_tmp ← traverse (λ idx, x ← getitem X (PInt idx);
                               ci ← getitem c (PInt idx);
                               Ok (SPower (SSub (SVal x) (SVal ci))
                                          (SVal (PInt p))))
                      (py_range (Z.of_nat (length xs)));
  Ok (SPower (SSum list_tmp) (SVal (PInt p))).

(** The conditions [sql] before [sql = sql[1:]]: entry [i] joins
    [d_i <= d_j] for every [j < i]. *)
Definition tournament (d : list sql) : list sql :=
  imap (λ i di, SAnd (map (λ dj, SLe di dj) (take i d))) d.

Definition sql_from_clusters_tree (X clusters : pyval)
  (return_distance_clusters return_proba : bool) (classes : pyval) (p : Z)
  : res (list sql + sql) :=
  _ ← check [OfType "X" X [Tlist];
             OfType "clusters" clusters [Tlist];
             OfType "return_distance_clusters"
                    (PBool return_distance_clusters) [Tbool];
             OfType "return_proba" (PBool return_proba) [Tbool];
             OfType "classes" classes [Tlist]];
  cs ← items clusters;
  lx ← py_len X;
  _ ← traverse (λ c, lc ← py_len c; py_assert (lx =? lc)) cs;
  _ ← py_assert (negb return_distance_clusters || negb return_proba);
  ncl ← py_len classes;
  classes_tmp ← traverse (λ i, val ← getitem classes (PInt i);
                               Ok (class_sql val)) (py_range ncl);
  clusters_distance ← traverse (λ c, cluster_distance X c p) cs;
  if return_distance_clusters then Ok (inl clusters_distance)
  else if return_proba then
    let sum_distance :=
      SSum (map (λ d, SDiv (SLit "1" 1) (SParen d)) clusters_distance) in
    Ok (inl (map (λ d, SCase true [(SEq d (SLit "0" 0), SLit "1.0" 1)]
                         (SDiv (SDiv (SLit "1" 1) (SParen d))
                               (SParen sum_distance)))
                 clusters_distance))
  else
    let k := Z.of_nat (length clusters_distance) in
    let sql := reverse (tail (tournament clusters_distance)) in
    xs ← items X;
    no_classes ← (b ← py_truthy classes; Ok (negb b));
    whens ← traverse (λ i, cond ← py_index sql i;
                           label ← (if no_classes : bool
                                    then Ok (SVal (PInt (k - i - 1)))
                                    else py_index classes_tmp (k - i - 1));
                           Ok (cond, label))
                     (py_range (k - 1));
    els ← (if no_classes : bool then Ok (SVal (PInt 0))
           else py_index classes_tmp 0);
    Ok (inr (SCase false
               ((SOr (map (λ elem, SIsNull (SVal elem)) xs), SNull) :: whens)
               els)).

Definition sql_from_clusters (X clusters : pyval)
  (return_distance_clusters return_proba : bool) (classes : pyval) (p : Z)
  : res pyval :=
  t ← sql_from_clusters_tree X clusters return_distance_clusters
                             return_proba classes p;
  Ok match t with
     | inl l => PList (map (λ e, PStr (render e)) l)
     | inr e => PStr (render e)
     end.
End sql_from_clusters.
End ClustersSql.

(** ** Transformations: PCA, SVD, normalizer, one-hot encoder *)

(** [M[:, i]] *)
Definition column (M : list (list R)) (i : Z) : res (list R) :=
  traverse (λ row, py_index row i) M.

Definition transform_from_pca `{Runtime} (X principal_components mean : pyval)
  : res pyval :=
  _ ← check [OfType "X" X [Tlist; Tndarray];
             OfType "principal_components" principal_components
                    [Tlist; Tndarray];
             OfType "mean" mean [Tlist; Tndarray]];
  pca_values ← np_array2 principal_components;
  m ← np_array1 mean;
  M ← np_array2 X;
  result ← broadcast (λ x mj, x - mj)%R M m;
  pc0 ← getitem principal_components (PInt 0);
  n ← py_len pc0;
  L ← traverse (λ i, col ← column pca_values i;
                     P ← broadcast Rmult result col;
                     Ok (map Rsum P))
               (py_range n);
  out ← column_stack L;
  Ok (matrix_val out).

Definition transform_from_svd `{Runtime} (X vectors values : pyval)
  : res pyval :=
  _ ← check [OfType "X" X [Tlist];
             OfType "vectors" vectors [Tlist];
             OfType "values" values [Tlist]];
  svd_vectors ← np_array2 vectors;
  v0 ← py_index svd_vectors 0;
  let n := Z.of_nat (length v0) in
  L ← traverse (λ i, col ← column svd_vectors i;
                     M ← np_array2 X;
                     P ← broadcast Rmult M col;
                     vi ← getitem values (PInt i);
                     d ← as_num vi;
                     Q ← traverse (traverse (λ x, np_div x d)) P;
                     Ok (map Rsum Q))
               (py_range n);
  out ← column_stack L;
  Ok (matrix_val out).

(** One row of [D / b] with numpy's stretching. *)
Definition divide_row (row b : list R) : res (list R) :=
  if Nat.eqb (length row) (length b)
  then traverse (λ xy, np_div xy.1 xy.2) (zip row b)
  else match b, row with
       | [y], _ => traverse (λ x, np_div x y) row
       | _, [x] => traverse (np_div x) b
       | _, _ => Raise ValueError
       end.

Definition normalizer_methods : list pyval :=
  [PStr "zscore"; PStr "robust_zscore"; PStr "minmax"].

Definition transform_from_normalizer `{Runtime} (X values method : pyval)
  : res pyval :=
  _ ← check [OfType "X" X [Tlist];
             OfType "values" values [Tlist];
             OneOf "method" method normalizer_methods];
  vs ← items values;
  a ← traverse (λ elem, e ← getitem elem (PInt 0); as_num e) vs;
  b ← traverse (λ elem, e ← getitem elem (PInt 1); as_num e) vs;
  let b := if py_eq method (PStr "minmax") then zip_with Rminus b a
           else b in
  M ← np_array2 X;
  D ← broadcast (λ x aj, x - aj)%R M a;
  out ← traverse (λ row, divide_row row b) D;
  Ok (matrix_val out).

(** Iterating a Python object. *)
Definition py_iter (v : pyval) : res (list pyval) :=
  match v with
  | PList l | PArray l => Ok l
  | PStr s => Ok (map (λ c, PStr (String c EmptyString))
                      (list_ascii_of_string s))
  | _ => Raise TypeError
  end.

Module OneHot.
Section transform_from_one_hot_encoder.
Context `{Runtime}.
Variables (categories : pyval) (drop_first : bool).

Definition ooe_row (X : list pyval) : res (list pyval) :=
  parts ← traverse
    (λ ie : nat * pyval,
       cat ← getitem categories (PInt (Z.of_nat ie.1));
       its ← py_iter cat;
       Ok (omap (λ ii : nat * pyval,
                   if negb (Nat.eqb ii.1 0) || negb drop_first
                   then Some (if bool_decide (fmt ie.2 = fmt ii.2)
                              then PInt 1 else PInt 0)
                   else None)
                (imap (λ idx2 item, (idx2, item)) its)))
    (imap (λ idx elem, (idx, elem)) X);
  Ok (concat parts).

Definition transform_from_one_hot_encoder (X : pyval) : res pyval :=
  _ ← check [OfType "X" X [Tlist];
             OfType "categories" categories [Tlist];
             OfType "drop_first" (PBool drop_first) [Tbool]];
  rows ← np_rows X;
  out ← traverse (λ row, r ← ooe_row row; Ok (PArray r)) rows;
  Ok (PArray out).
End transform_from_one_hot_encoder.
End OneHot.

(** *** The SQL text of the transformations *)

(** [[pc[i] for pc in M][j]] *)
Definition comp_at (M : pyval) (i j : Z) : res pyval :=
  rows ← py_iter M;
  col ← traverse (λ pc, getitem pc (PInt i)) rows;
  py_index col j.

Definition sql_from_pca `{Runtime} (X principal_components mean : pyval)
  : res pyval :=
  _ ← check [OfType "X" X [Tlist];
             OfType "principal_components" principal_components [Tlist];
             OfType "mean" mean [Tlist]];
  lx ← py_len X;
  lm ← py_len mean;
  _ ← py_assert (lx =? lm);
  sql ← traverse
    (λ i, sql_tmp ← traverse
            (λ j, x ← getitem X (PInt j);
                  mj ← getitem mean (PInt j);
                  c ← comp_at principal_components i j;
                  Ok ("(" +:+ fmt x +:+ " - " +:+ fmt mj +:+ ") * " +:+ fmt c))
            (py_range lx);
          Ok (PStr (String.concat " + " sql_tmp)))
    (py_range lx);
  Ok (PList sql).

Definition sql_from_svd `{Runtime} (X vectors values : pyval) : res pyval :=
  _ ← check [OfType "X" X [Tlist];
             OfType "vectors" vectors [Tlist];
             OfType "values" values [Tlist]];
  lx ← py_len X;
  lv ← py_len values;
  _ ← py_assert (lx =? lv);
  sql ← traverse
    (λ i, sql_tmp ← traverse
            (λ j, x ← getitem X (PInt j);
                  c ← comp_at vectors i j;
                  vi ← getitem values (PInt i);
                  Ok (fmt x +:+ " * " +:+ fmt c +:+ " / " +:+ fmt vi))
            (py_range lx);
          Ok (PStr (String.concat " + " sql_tmp)))
    (py_range lx);
  Ok (PList sql).

(** [a - b] on Python numbers. *)
Definition py_sub (a b : pyval) : res pyval :=
  match a, b with
  | PInt x, PInt y => Ok (PInt (x - y))
  | _, _ => x ← as_num a; y ← as_num b; Ok (PFloat (x - y))
  end.

Definition sql_from_normalizer `{Runtime} (X values method : pyval)
  : res pyval :=
  _ ← check [OfType "X" X [Tlist];
             OfType "values" values [Tlist];
             OneOf "method" method normalizer_methods];
  lx ← py_len X;
  lv ← py_len values;
  _ ← py_assert (lx =? lv);
  sql ← traverse
    (λ i, x ← getitem X (PInt i);
          vi ← getitem values (PInt i);
          v0 ← getitem vi (PInt 0);
          d ← (if py_eq method (PStr "minmax")
               then v1 ← getitem vi (PInt 1); v0' ← getitem vi (PInt 0);
                    py_sub v1 v0'
               else getitem vi (PInt 1));
          Ok (PStr ("(" +:+ fmt x +:+ " - " +:+ fmt v0 +:+ ") / " +:+ fmt d)))
    (py_range lx);
  Ok (PList sql).

(** The double-quote character. *)
Definition dquote : string := String (Ascii.ascii_of_nat 34) EmptyString.

Definition column_naming_choices : list pyval :=
  [PStr "indices"; PStr "values"; PStr "values_relaxed"; PNone].

Definition sql_from_one_hot_encoder `{Runtime} (X categories : pyval)
  (drop_first : bool) (column_naming : pyval) : res pyval :=
  _ ← check [OfType "X" X [Tlist];
             OfType "categories" categories [Tlist];
             OfType "drop_first" (PBool drop_first) [Tbool];
             OneOf "column_naming" column_naming column_naming_choices];
  lx ← py_len X;
  lc ← py_len categories;
  _ ← py_assert (lx =? lc);
  sql ← traverse
    (λ i, ci ← getitem categories (PInt i);
          n ← py_len ci;
          sql_tmp ← traverse
            (λ j, if negb drop_first || (0 <? j) then
                    cij ← getitem ci (PInt j);
                    let val := match cij with
                               | PStr _ => "'" +:+ fmt cij +:+ "'"
                               | PNone => "NULL"
                               | _ => fmt cij
                               end in
                    x ← getitem X (PInt i);
                    let feature :=
                      "(CASE WHEN " +:+ fmt x +:+ " = " +:+ val +:+
                      " THEN 1 ELSE 0 END)" in
                    let name := match cij with
                                | PNone => "NULL" | _ => fmt cij end in
                    Ok (Some (PStr
                      (if py_eq column_naming (PStr "indices")
                       then feature +:+ " AS " +:+ dquote +:+ fmt x +:+ "_" +:+
                            fmt (PInt j) +:+ dquote
                       else if py_eq column_naming (PStr "values") ||
                               py_eq column_naming (PStr "values_relaxed")
                       then feature +:+ " AS " +:+ dquote +:+ fmt x +:+ "_" +:+
                            name +:+ dquote
                       else feature)))
                  else Ok None)
            (py_range n);
          Ok (PList (omap (λ o, o) sql_tmp)))
    (py_range lx);
  Ok (PList sql).

(** ** The class [memModel] *)

(** The state of a [memModel] object: its three attributes. *)
Record memModel : Type := {
  attributes_ : gmap string pyval;
  model_type_ : string;
  represent_ : string;
}.

Definition to_val (m : memModel) : pyval :=
  PModel (model_type_ m) (attributes_ m) (represent_ m).

(** A method body runs on the state of [self]: it returns or raises, and
    leaves a state behind in both cases. *)
Definition method (A : Type) : Type := memModel → res A * memModel.

#[global] Instance method_ret : MRet method := λ _ a self, (Ok a, self).
#[global] Instance method_bind : MBind method := λ _ _ f m self,
  match m self with
  | (Ok a, self') => f a self'
  | (Raise e, self') => (Raise e, self')
  end.

(** A computation on local variables only. *)
Definition locally {A} (c : res A) : method A := λ self, (c, self).

(** [self.attributes_ = v], [self.model_type_ = v], [self.represent_ = v] *)
Definition assign_attributes_ (v : gmap string pyval) : method unit :=
  λ self, (Ok tt, {| attributes_ := v; model_type_ := model_type_ self;
                     represent_ := represent_ self |}).
Definition assign_model_type_ (v : string) : method unit :=
  λ self, (Ok tt, {| attributes_ := attributes_ self; model_type_ := v;
                     represent_ := represent_ self |}).
Definition assign_represent_ (v : string) : method unit :=
  λ self, (Ok tt, {| attributes_ := attributes_ self;
                     model_type_ := model_type_ self; represent_ := v |}).

(** [np.copy(v)]: lists become arrays, at every depth. *)
Fixpoint np_copy (v : pyval) : pyval :=
  match v with
  | PList l | PArray l => PArray (map np_copy l)
  | _ => v
  end.

(** [v.copy()] of a list or an array. *)
Definition copy_method (v : pyval) : res pyval :=
  match v with
  | PList _ | PArray _ => Ok v
  | _ => Raise AttributeError
  end.

(** The line feed of the summary text. *)
Definition nl : string := String (Ascii.ascii_of_nat 10) EmptyString.

Definition model_types : list pyval :=
  map PStr ["OneHotEncoder"; "Normalizer"; "SVD"; "PCA"; "BisectingKMeans";
            "KMeans"; "NaiveBayes"; "XGBoostClassifier"; "XGBoostRegressor";
            "RandomForestClassifier"; "BinaryTreeClassifier";
            "BinaryTreeRegressor"; "RandomForestRegressor"; "LinearSVR";
            "LinearSVC"; "LogisticRegression"; "LinearRegression";
            "NearestCentroids"].

(** [model_type in (...)] *)
Definition one_of (model_type : string) (l : list string) : bool :=
  bool_decide (model_type ∈ l).

(** [attributes[key]] after the test [key in attributes]. *)
Definition required (attributes : gmap string pyval) (keys : list string)
  : res unit :=
  if forallb (λ k, bool_decide (is_Some (attributes !! k))) keys
  then Ok tt else Raise ParameterError.

Definition lookup_key (attributes : gmap string pyval) (key : string)
  : res pyval :=
  match attributes !! key with Some v => Ok v | None => Raise KeyError end.

Module Init.
Section init.
Context `{Runtime}.
Variables (model_type : string) (attributes : gmap string pyval).

(** The local variables [attributes_] and [represent] of [__init__]. *)
Definition locals : Type := gmap string pyval * string.

Definition ensemble : res locals :=
  _ ← required attributes ["trees"];
  trees ← lookup_key attributes "trees";
  ts ← py_iter trees;
  _ ← traverse
        (λ tree,
           match tree with
           | PModel tree_type _ _ =>
               if one_of model_type
                    ["RandomForestClassifier"; "XGBoostClassifier"]
               then py_assert (one_of tree_type ["BinaryTreeClassifier"])
               else py_assert (one_of tree_type ["BinaryTreeRegressor"])
           | _ => Raise AssertionError
           end) ts;
  let attributes_ : gmap string pyval := <["trees" := PList ts]> ∅ in
  let represent :=
    "<" +:+ model_type +:+ ">" +:+ nl +:+ nl +:+ "ntrees = " +:+
    fmt (PInt (Z.of_nat (length ts))) in
  '(attributes_, represent) ←
    (if bool_decide (model_type = "XGBoostRegressor") then
       _ ← required attributes ["learning_rate"; "mean"];
       mean ← lookup_key attributes "mean";
       _ ← check [OfType "mean" mean [Tint; Tfloat]];
       Ok (<["mean" := mean]> attributes_,
           represent +:+ nl +:+ nl +:+ "mean = " +:+ fmt mean)
     else Ok (attributes_, represent));
  '(attributes_, represent) ←
    (if bool_decide (model_type = "XGBoostClassifier") then
       _ ← required attributes ["learning_rate"; "logodds"];
       logodds ← lookup_key attributes "logodds";
       let logodds := np_copy logodds in
       _ ← check [OfType "logodds" logodds [Tlist]];
       Ok (<["logodds" := logodds]> attributes_,
           represent +:+ nl +:+ nl +:+ "logodds = " +:+ fmt logodds)
     else Ok (attributes_, represent));
  if one_of model_type ["XGBoostRegressor"; "XGBoostClassifier"] then
    learning_rate ← lookup_key attributes "learning_rate";
    _ ← check [OfType "learning_rate" learning_rate [Tint; Tfloat]];
    Ok (<["learning_rate" := learning_rate]> attributes_,
        represent +:+ nl +:+ nl +:+ "learning_rate = " +:+
        fmt learning_rate)
  else Ok (attributes_, represent).

(** [attributes[elem].copy()] for a list, [np.copy(attributes[elem])]
    otherwise. *)
Definition copy_or_np_copy (v : pyval) : pyval :=
  match v with PList _ => v | _ => np_copy v end.

Definition binary_tree : res locals :=
  _ ← required attributes ["children_left"; "children_right"; "feature";
                           "threshold"; "value"];
  children_left ← lookup_key attributes "children_left";
  children_right ← lookup_key attributes "children_right";
  feature ← lookup_key attributes "feature";
  threshold ← lookup_key attributes "threshold";
  value ← lookup_key attributes "value";
  let children_left := copy_or_np_copy children_left in
  let children_right := copy_or_np_copy children_right in
  let feature := copy_or_np_copy feature in
  let threshold := copy_or_np_copy threshold in
  let value := copy_or_np_copy value in
  let attributes_ : gmap string pyval :=
    <["value" := value]> (<["threshold" := threshold]>
    (<["feature" := feature]> (<["children_right" := children_right]>
    (<["children_left" := children_left]> ∅)))) in
  _ ← check [OfType "children_left" children_left [Tlist];
             OfType "children_right" children_right [Tlist];
             OfType "feature" feature [Tlist];
             OfType "threshold" threshold [Tlist];
             OfType "value" value [Tlist]];
  let represent :=
    "<" +:+ model_type +:+ ">" +:+ nl +:+ nl +:+
    "children_left = " +:+ fmt children_left +:+ nl +:+ nl +:+
    "children_right = " +:+ fmt children_right +:+ nl +:+ nl +:+
    "feature = " +:+ fmt feature +:+ nl +:+ nl +:+
    "threshold = " +:+ fmt threshold +:+ nl +:+ nl +:+
    "value =" +:+ nl +:+ fmt value in
  if one_of model_type ["BinaryTreeClassifier"] then
    let classes := match attributes !! "classes" with
                   | None => PList []
                   | Some c => np_copy c
                   end in
    _ ← check [OfType "classes" classes [Tlist]];
    Ok (<["classes" := classes]> attributes_,
        represent +:+ nl +:+ nl +:+ "classes = " +:+ fmt classes)
  else Ok (attributes_, represent).

Definition one_hot_encoder : res locals :=
  _ ← required attributes ["categories"];
  categories ← lookup_key attributes "categories";
  categories ← copy_method categories;
  let drop_first := default (PBool false) (attributes !! "drop_first") in
  let column_naming :=
    default (PStr "indices") (attributes !! "column_naming") in
  _ ← check [OfType "categories" categories [Tlist];
             OfType "drop_first" drop_first [Tbool];
             OneOf "column_naming" column_naming
                   [PStr "indices"; PStr "values"; PNone]];
  Ok (<["column_naming" := column_naming]> (<["drop_first" := drop_first]>
      (<["categories" := categories]> ∅)),
      "<" +:+ model_type +:+ ">" +:+ nl +:+ nl +:+
      "categories = " +:+ fmt categories +:+ nl +:+ nl +:+
      "drop_first = " +:+ fmt drop_first +:+ nl +:+ nl +:+
      "column_naming = " +:+ fmt column_naming).

Definition linear : res locals :=
  _ ← required attributes ["coefficients"; "intercept"];
  coefficients ← lookup_key attributes "coefficients";
  intercept ← lookup_key attributes "intercept";
  let coefficients := np_copy coefficients in
  _ ← check [OfType "coefficients" coefficients [Tlist];
             OfType "intercept" intercept [Tint; Tfloat]];
  Ok (<["intercept" := intercept]> (<["coefficients" := coefficients]> ∅),
      "<" +:+ model_type +:+ ">" +:+ nl +:+ nl +:+
      "coefficients = " +:+ fmt coefficients +:+ nl +:+ nl +:+
      "intercept = " +:+ fmt intercept).

Definition bisecting_kmeans : res locals :=
  _ ← required attributes ["clusters"; "left_child"; "right_child"];
  clusters ← lookup_key attributes "clusters";
  left_child ← lookup_key attributes "left_child";
  right_child ← lookup_key attributes "right_child";
  let clusters := np_copy clusters in
  let left_child := np_copy left_child in
  let right_child := np_copy right_child in
  let p := default (PInt 2) (attributes !! "p") in
  _ ← check [OfType "clusters" clusters [Tlist];
             OfType "left_child" left_child [Tlist];
             OfType "right_child" right_child [Tlist];
             OfType "p" p [Tint]];
  Ok (<["p" := p]> (<["right_child" := right_child]>
      (<["left_child" := left_child]> (<["clusters" := clusters]> ∅))),
      "<" +:+ model_type +:+ ">" +:+ nl +:+ nl +:+
      "clusters = " +:+ fmt clusters +:+ nl +:+ nl +:+
      "left_child = " +:+ fmt left_child +:+ nl +:+ nl +:+
      "right_child = " +:+ fmt right_child +:+ nl +:+ nl +:+
      "p = " +:+ fmt p).

Definition flat_clusters : res locals :=
  _ ← required attributes ["clusters"];
  clusters ← lookup_key attributes "clusters";
  let clusters := np_copy clusters in
  let p := default (PInt 2) (attributes !! "p") in
  let attributes_ : gmap string pyval :=
    <["p" := p]> (<["clusters" := clusters]> ∅) in
  _ ← check [OfType "clusters" clusters [Tlist]; OfType "p" p [Tint]];
  let represent :=
    "<" +:+ model_type +:+ ">" +:+ nl +:+ nl +:+
    "clusters = " +:+ fmt clusters +:+ nl +:+ nl +:+ "p = " +:+ fmt p in
(* [model_type in ("NearestCentroids")] is a substring test; of the
   two types of this branch only NearestCentroids passes it *)
if bool_decide (model_type = "NearestCentroids") then
  classes ← match attributes !! "classes" with
            | None => Ok PNone
            | Some c => cs ← py_iter c; Ok (PList cs)
            end;
  _ ← check [OfType "classes" classes [Tlist]];
  Ok (<["classes" := classes]> attributes_,
      represent +:+ nl +:+ nl +:+ "classes = " +:+ fmt classes)
else Ok (attributes_, represent).

Definition pca : res locals :=
  _ ← required attributes ["principal_components"; "mean"];
  principal_components ← lookup_key attributes "principal_components";
  mean ← lookup_key attributes "mean";
  let principal_components := np_copy principal_components in
  let mean := np_copy mean in
  _ ← check [OfType "principal_components" principal_components [Tlist];
             OfType "mean" mean [Tlist]];
  Ok (<["mean" := mean]>
      (<["principal_components" := principal_components]> ∅),
      "<" +:+ model_type +:+ ">" +:+ nl +:+ nl +:+
      "principal_components = " +:+ nl +:+ fmt principal_components +:+
      nl +:+ nl +:+ "mean = " +:+ fmt mean).

Definition svd : res locals :=
  _ ← required attributes ["vectors"; "values"];
  vectors ← lookup_key attributes "vectors";
  values ← lookup_key attributes "values";
  let vectors := np_copy vectors in
  let values := np_copy values in
  _ ← check [OfType "vectors" vectors [Tlist];
             OfType "values" values [Tlist]];
  Ok (<["values" := values]> (<["vectors" := vectors]> ∅),
      "<" +:+ model_type +:+ ">" +:+ nl +:+ nl +:+
      "vectors = " +:+ nl +:+ fmt vectors +:+ nl +:+ nl +:+
      "values = " +:+ fmt values).

Definition normalizer : res locals :=
  _ ← required attributes ["values"; "method"];
  values ← lookup_key attributes "values";
  method ← lookup_key attributes "method";
  let values := np_copy values in
  _ ← check [OfType "values" values [Tlist];
             OneOf "method" method
                   [PStr "minmax"; PStr "zscore"; PStr "robust_zscore"]];
  Ok (<["method" := method]> (<["values" := values]> ∅),
      "<" +:+ model_type +:+ ">" +:+ nl +:+ nl +:+
      "values = " +:+ fmt values +:+ nl +:+ nl +:+
      "method = " +:+ fmt method).

Definition init_locals : res locals :=
  _ ← check [DictOfType "attributes" attributes [Tdict];
             OneOf "model_type" (PStr model_type) model_types];
  if one_of model_type ["RandomForestRegressor"; "XGBoostRegressor";
                        "RandomForestClassifier"; "XGBoostClassifier"]
  then ensemble
  else if one_of model_type ["BinaryTreeClassifier"; "BinaryTreeRegressor"]
  then binary_tree
  else if bool_decide (model_type = "OneHotEncoder") then one_hot_encoder
  else if one_of model_type ["LinearSVR"; "LinearSVC"; "LogisticRegression";
                             "LinearRegression"]
  then linear
  else if one_of model_type ["BisectingKMeans"] then bisecting_kmeans
  else if one_of model_type ["KMeans"; "NearestCentroids"]
  then flat_clusters
  else if one_of model_type ["PCA"] then pca
  else if one_of model_type ["SVD"] then svd
  else if one_of model_type ["Normalizer"] then normalizer
  else Raise ParameterError.

(** [memModel.__init__]: only its last three statements write to
    [self]. *)
Definition __init__ : method unit :=
  l ← locally init_locals;
  _ ← assign_attributes_ l.1;
  _ ← assign_model_type_ model_type;
  assign_represent_ l.2.
End init.
End Init.

(** An object on which [__init__] has not run yet. *)
Definition blank : memModel :=
  {| attributes_ := ∅; model_type_ := EmptyString;
     represent_ := EmptyString |}.

(** [memModel(model_type, attributes)] *)
Definition new_memModel `{Runtime} (model_type : string)
  (attributes : gmap string pyval) : res memModel :=
  match Init.__init__ model_type attributes blank with
  | (Ok _, self) => Ok self
  | (Raise e, _) => Raise e
  end.

(** [memModel.get_attributes] *)
Definition get_attributes : method (gmap string pyval) :=
  λ self, (Ok (attributes_ self), self).

(** [memModel.set_attributes]: the two loops fill [attributes_tmp] with
    the stored attributes and then overwrite with the new ones. *)
Definition set_attributes `{Runtime} (attributes : gmap string pyval)
  : method unit :=
  λ self,
    let attributes_tmp := attributes ∪ attributes_ self in
    Init.__init__ (model_type_ self) attributes_tmp self.

(** ** The prediction and transformation methods of [memModel] *)

(** A Python int read from the attributes (the exponent [p]). *)
Definition as_int (v : pyval) : res Z :=
  match v with PInt k => Ok k | _ => Raise TypeError end.

(** The member objects of an ensemble. *)
Definition as_model (v : pyval) : res memModel :=
  match v with
  | PModel t a r => Ok {| attributes_ := a; model_type_ := t;
                          represent_ := r |}
  | _ => Raise AttributeError
  end.

(** [result += A] on 2-D arrays; [result] is the int [0] before the first
    addition.  In place, only [A] can be stretched. *)
Definition iadd_row (r a : list R) : res (list R) :=
  if Nat.eqb (length r) (length a) then Ok (zip_with Rplus r a)
  else match a with
       | [y] => Ok (map (λ x, x + y)%R r)
       | _ => Raise ValueError
       end.

Definition iadd (result : option (list (list R))) (A : list (list R))
  : res (list (list R)) :=
  match result with
  | None => Ok A
  | Some M =>
      if Nat.eqb (length M) (length A)
      then traverse (λ ra, iadd_row ra.1 ra.2) (zip M A)
      else Raise ValueError
  end.

(** A row of zeros with a one at the first maximum:
    [np.zeros_like(row)] followed by [row[argmax] = 1]. *)
Definition one_hot (row : list R) : res (list R) :=
  k ← argmax row;
  Ok (imap (λ i _, if Nat.eqb i k then 1%R else 0%R) row).

(** [sep.join(l)] *)
Definition py_join (sep : string) (l : list pyval) : res string :=
  parts ← traverse (λ v, match v with
                         | PStr s => Ok s
                         | _ => Raise TypeError
                         end) l;
  Ok (String.concat sep parts).

(** One turn of the loop of the random forest classifier, [call] being
    [tree.predict_proba(X)]: the scores of the tree are replaced, row by
    row, by zeros with a one at the arg-max, and added to [result]. *)
Definition forest_vote (call : memModel → res pyval)
  (acc : res (option (list (list R)))) (tree : memModel)
  : res (option (list (list R))) :=
  result ← acc;
  result_tmp ← call tree;
  result_tmp ← np_array2 result_tmp;
  result_tmp_arg ← traverse one_hot result_tmp;
  r ← iadd result result_tmp_arg;
  Ok (Some r).

(** One turn of the loop of the boosted classifier:
    [result += tree.predict_proba(X)]. *)
Definition boost_add (call : memModel → res pyval)
  (acc : res (option (list (list R)))) (tree : memModel)
  : res (option (list (list R))) :=
  result ← acc;
  t ← call tree;
  t ← np_array2 t;
  r ← iadd result t;
  Ok (Some r).

Section methods.
Context `{Runtime}.

Definition attr (self : memModel) (key : string) : res pyval :=
  lookup_key (attributes_ self) key.

Definition members (self : memModel) : res (list memModel) :=
  trees ← attr self "trees";
  ts ← py_iter trees;
  traverse as_model ts.

(** [memModel.predict_proba]; [depth] bounds the nesting of calls on
    member objects. *)
Fixpoint predict_proba_at (depth : nat) (self : memModel) (X : pyval)
  : res pyval :=
  let mt := model_type_ self in
  if one_of mt ["LinearSVC"; "LogisticRegression"] then
    coefficients ← attr self "coefficients";
    intercept ← attr self "intercept";
    predict_from_coef X coefficients intercept mt true
  else if one_of mt ["KMeans"] then
    clusters ← attr self "clusters";
    p ← attr self "p"; p ← as_int p;
    predict_from_clusters X clusters false true (PList []) p
  else if one_of mt ["NearestCentroids"] then
    clusters ← attr self "clusters";
    p ← attr self "p"; p ← as_int p;
    classes ← attr self "classes";
    predict_from_clusters X clusters false true classes p
  else if one_of mt ["BinaryTreeClassifier"] then
    children_left ← attr self "children_left";
    children_right ← attr self "children_right";
    feature ← attr self "feature";
    threshold ← attr self "threshold";
    value ← attr self "value";
    classes ← attr self "classes";
    BinaryTree.predict_from_binary_tree children_left children_right
      feature threshold value classes true false X
  else if one_of mt ["RandomForestClassifier"] then
    trees ← members self;
    let n := length trees in
    result ← foldl (forest_vote
                      (λ tree, match depth with
                               | O => Raise RecursionError
                               | S d => predict_proba_at d tree X
                               end))
                   (Ok None) trees;
    match result with
    | None => Raise ZeroDivisionError
    | Some M => Ok (matrix_val (map (map (λ x, x / INR n)%R) M))
    end
  else if one_of mt ["XGBoostClassifier"] then
    trees ← members self;
    result ← foldl (boost_add
                      (λ tree, match depth with
                               | O => Raise RecursionError
                               | S d => predict_proba_at d tree X
                               end))
                   (Ok None) trees;
    logodds ← attr self "logodds";
    learning_rate ← attr self "learning_rate";
    match result with
    | None => Raise ValueError
    | Some M =>
        lo ← np_array1 logodds;
        lr ← as_num learning_rate;
        result ← broadcast (λ x l, l + x)%R
                           (map (map (λ x, lr * x)%R) M) lo;
        let result := map (map sigmoid) result in
        out ← traverse (λ row, traverse (λ x, np_div x (Rsum row)) row)
                       result;
        Ok (matrix_val out)
    end
  else Raise FunctionError.

Definition predict_proba (self : memModel) (X : pyval) : res pyval :=
  predict_proba_at max_depth self X.

(** [memModel.predict] *)
Fixpoint predict_at (depth : nat) (self : memModel) (X : pyval)
  : res pyval :=
  let mt := model_type_ self in
  if one_of mt ["LinearRegression"; "LinearSVC"; "LinearSVR";
                "LogisticRegression"] then
    coefficients ← attr self "coefficients";
    intercept ← attr self "intercept";
    predict_from_coef X coefficients intercept mt false
  else if one_of mt ["KMeans"] then
    clusters ← attr self "clusters";
    p ← attr self "p"; p ← as_int p;
    predict_from_clusters X clusters false false (PList []) p
  else if one_of mt ["NearestCentroids"] then
    clusters ← attr self "clusters";
    p ← attr self "p"; p ← as_int p;
    classes ← attr self "classes";
    predict_from_clusters X clusters false false classes p
  else if one_of mt ["BisectingKMeans"] then
    clusters ← attr self "clusters";
    left_child ← attr self "left_child";
    right_child ← attr self "right_child";
    p ← attr self "p"; p ← as_int p;
    Bisecting.predict_from_bisecting_kmeans p X clusters left_child
                                            right_child
  else if one_of mt ["BinaryTreeRegressor"; "BinaryTreeClassifier"] then
    children_left ← attr self "children_left";
    children_right ← attr self "children_right";
    feature ← attr self "feature";
    threshold ← attr self "threshold";
    value ← attr self "value";
    classes ← (if one_of mt ["BinaryTreeClassifier"]
               then attr self "classes" else Ok (PList []));
    BinaryTree.predict_from_binary_tree children_left children_right
      feature threshold value classes false
      (one_of mt ["BinaryTreeRegressor"]) X
  else if one_of mt ["RandomForestRegressor"; "XGBoostRegressor"] then
    trees ← members self;
    result ← traverse (λ tree,
                         match depth with
                         | O => Raise RecursionError
                         | S d => r ← predict_at d tree X; np_array1 r
                         end) trees;
    rows ← column_stack result;
    if one_of mt ["RandomForestRegressor"] then
      Ok (PArray (map (λ row, PFloat (Rsum row / INR (length row))) rows))
    else
      learning_rate ← attr self "learning_rate";
      lr ← as_num learning_rate;
      mean ← attr self "mean";
      mean ← as_num mean;
      Ok (PArray (map (λ row, PFloat (Rsum row * lr + mean)) rows))
  else if one_of mt ["RandomForestClassifier"; "XGBoostClassifier"] then
    proba ← predict_proba_at depth self X;
    proba ← np_array2 proba;
    result ← traverse argmax proba;
    trees ← members self;
    tree0 ← py_index trees 0;
    classes ← attr tree0 "classes";
    out ← traverse (λ i, getitem classes (PInt (Z.of_nat i))) result;
    Ok (PArray out)
  else Raise FunctionError.

Definition predict (self : memModel) (X : pyval) : res pyval :=
  predict_at max_depth self X.

(** The leaf scores of a member tree with every score vector replaced by
    zeros and a one at its first maximum. *)
Definition one_hot_value (elem : pyval) : res pyval :=
  match elem with
  | PNone => Ok PNone
  | _ =>
      cells ← items elem;
      row ← traverse as_num cells;
      k ← argmax row;
      let ints := forallb (λ c, match c with
                                | PInt _ | PBool _ => true
                                | _ => false
                                end) cells in
      Ok (PList (imap (λ i _, let b := Nat.eqb i k in
                              if ints then PInt (if b then 1 else 0)
                              else PFloat (if b then 1 else 0)) row))
  end.

(** [memModel.predict_proba_sql] *)
Fixpoint predict_proba_sql_at (depth : nat) (self : memModel) (X : pyval)
  : res pyval :=
  let mt := model_type_ self in
  if one_of mt ["LinearSVC"; "LogisticRegression"] then
    coefficients ← attr self "coefficients";
    intercept ← attr self "intercept";
    result ← sql_from_coef X coefficients intercept mt;
    Ok (PList [PStr ("1 - (" +:+ fmt result +:+ ")"); result])
  else if one_of mt ["KMeans"] then
    clusters ← attr self "clusters";
    p ← attr self "p"; p ← as_int p;
    ClustersSql.sql_from_clusters X clusters false true (PList []) p
  else if one_of mt ["NearestCentroids"] then
    clusters ← attr self "clusters";
    p ← attr self "p"; p ← as_int p;
    classes ← attr self "classes";
    ClustersSql.sql_from_clusters X clusters false true classes p
  else if one_of mt ["BinaryTreeClassifier"] then
    children_left ← attr self "children_left";
    children_right ← attr self "children_right";
    feature ← attr self "feature";
    threshold ← attr self "threshold";
    value ← attr self "value";
    classes ← attr self "classes";
    BinaryTreeSql.sql_from_binary_tree children_left children_right
      feature threshold value classes true false X
  else if one_of mt ["RandomForestClassifier"] then
    members_ ← members self;
    let n := Z.of_nat (length members_) in
    tree0 ← py_index members_ 0;
    classes0 ← attr tree0 "classes";
    m ← py_len classes0;
    trees ← traverse
      (λ t, value ← attr t "value";
            elems ← py_iter value;
            val ← traverse one_hot_value elems;
            children_left ← attr t "children_left";
            children_right ← attr t "children_right";
            feature ← attr t "feature";
            threshold ← attr t "threshold";
            classes ← attr t "classes";
            new_memModel "BinaryTreeClassifier"
              (<["classes" := classes]> (<["value" := PList val]>
               (<["threshold" := threshold]> (<["feature" := feature]>
               (<["children_right" := children_right]>
               (<["children_left" := children_left]> ∅)))))))
      members_;
    result ← traverse (λ tree,
                         match depth with
                         | O => Raise RecursionError
                         | S d => predict_proba_sql_at d tree X
                         end) trees;
    classes_proba ← traverse
      (λ i, vals ← traverse (λ val, getitem val (PInt i)) result;
            joined ← py_join " + " vals;
            Ok (PStr ("(" +:+ joined +:+ ") / " +:+ fmt (PInt n))))
      (py_range m);
    Ok (PList classes_proba)
  else if one_of mt ["XGBoostClassifier"] then
    members_ ← members self;
    tree0 ← py_index members_ 0;
    classes0 ← attr tree0 "classes";
    m ← py_len classes0;
    all_probas ← traverse (λ tree,
                             match depth with
                             | O => Raise RecursionError
                             | S d => predict_proba_sql_at d tree X
                             end) members_;
    logodds ← attr self "logodds";
    learning_rate ← attr self "learning_rate";
    result ← traverse
      (λ i, lo ← getitem logodds (PInt i);
            probas_i ← py_index all_probas i;
            parts ← py_iter probas_i;
            joined ← py_join " + " parts;
            Ok ("(1 / (1 + EXP(- (" +:+ fmt lo +:+ " + " +:+
                fmt learning_rate +:+ " * (" +:+ joined +:+ ")))))"))
      (py_range m);
    let sum_result := "(" +:+ String.concat " + " result +:+ ")" in
    Ok (PList (map (λ item, PStr (item +:+ " / " +:+ sum_result)) result))
  else Raise FunctionError.

Definition predict_proba_sql (self : memModel) (X : pyval) : res pyval :=
  predict_proba_sql_at max_depth self X.

(** [memModel.transform] *)
Definition transform (self : memModel) (X : pyval) : res pyval :=
  let mt := model_type_ self in
  if one_of mt ["Normalizer"] then
    values ← attr self "values";
    method ← attr self "method";
    transform_from_normalizer X values method
  else if one_of mt ["PCA"] then
    principal_components ← attr self "principal_components";
    mean ← attr self "mean";
    transform_from_pca X principal_components mean
  else if one_of mt ["SVD"] then
    vectors ← attr self "vectors";
    values ← attr self "values";
    transform_from_svd X vectors values
  else if one_of mt ["OneHotEncoder"] then
    categories ← attr self "categories";
    drop_first ← attr self "drop_first";
    drop_first ← py_truthy drop_first;
    OneHot.transform_from_one_hot_encoder categories drop_first X
  else if one_of mt ["KMeans"; "NearestCentroids"; "BisectingKMeans"] then
    clusters ← attr self "clusters";
    predict_from_clusters X clusters true false (PList []) 2
  else Raise FunctionError.

(** [memModel.transform_sql] *)
Definition transform_sql (self : memModel) (X : pyval) : res pyval :=
  let mt := model_type_ self in
  if one_of mt ["Normalizer"] then
    values ← attr self "values";
    method ← attr self "method";
    sql_from_normalizer X values method
  else if one_of mt ["PCA"] then
    principal_components ← attr self "principal_components";
    mean ← attr self "mean";
    sql_from_pca X principal_components mean
  else if one_of mt ["SVD"] then
    vectors ← attr self "vectors";
    values ← attr self "values";
    sql_from_svd X vectors values
  else if one_of mt ["OneHotEncoder"] then
    categories ← attr self "categories";
    drop_first ← attr self "drop_first";
    drop_first ← py_truthy drop_first;
    column_naming ← attr self "column_naming";
    sql_from_one_hot_encoder X categories drop_first column_naming
  else if one_of mt ["KMeans"; "NearestCentroids"; "BisectingKMeans"] then
    clusters ← attr self "clusters";
    ClustersSql.sql_from_clusters X clusters true false (PList []) 2
  else Raise FunctionError.
End methods.

(** ** Bisecting k-means: [sql_from_bisecting_kmeans]

    The nested CASE expression of the assignment is kept as a tree;
    [BisectingSql.render] prints the tree to the text Python builds. *)

Module BisectingSql.

(** What [predict_tree] returns: the id of a leaf, or the CASE over the
    distances to the two children of a node. *)
Inductive tree : Type :=
| Leaf (node_id : Z)
| Node (d_left d_right : string) (l r : tree).

(** The value of the CASE tree on a row, [v] giving the number each
    distance expression evaluates to. *)
Fixpoint eval (v : string → option R) (t : tree) : option Z :=
  match t with
  | Leaf node_id => Some node_id
  | Node d_left d_right l r =>
      x ← v d_left; y ← v d_right;
      if Rltb x y then eval v l else eval v r
  end.

Section sql_from_bisecting_kmeans.
Context `{Runtime}.

(** ["(CASE WHEN {} < {} THEN {} ELSE {} END)".format(...)] at a node,
    [int(node_id)] at a leaf. *)
Fixpoint render (t : tree) : string :=
  match t with
  | Leaf node_id => fmt (PInt node_id)
  | Node d_left d_right l r =>
      "(CASE WHEN " +:+ d_left +:+ " < " +:+ d_right +:+ " THEN " +:+
      render l +:+ " ELSE " +:+ render r +:+ " END)"
  end.

(** ["POWER(" + " + ".join(list_tmp) + ", 1/{})".format(p)] with
    [list_tmp] the ["POWER({} - {}, {})"] of every column. *)
Definition cluster_distance (X c : pyval) (p : Z) : res string :=
  xs ← items X;
  list_tmp ← traverse (λ idx, x ← getitem X (PInt idx);
                               ci ← getitem c (PInt idx);
                               Ok ("POWER(" +:+ fmt x +:+ " - " +:+ fmt ci +:+
                                   ", " +:+ fmt (PInt p) +:+ ")"))
                      (py_range (Z.of_nat (length xs)));
  Ok ("POWER(" +:+ String.concat " + " list_tmp +:+ ", 1/" +:+
      fmt (PInt p) +:+ ")").

Fixpoint predict_tree (depth : nat) (right_child left_child : pyval)
  (node_id : Z) (clusters_distance : list string) : res tree :=
  l ← getitem left_child (PInt node_id);
  r ← getitem right_child (PInt node_id);
  if py_eq l r && py_eq r PNone then Ok (Leaf node_id)
  else
    right_node ← py_int r;
    left_node ← py_int l;
    d_left ← py_index clusters_distance left_node;
    d_right ← py_index clusters_distance right_node;
    match depth with
    | O => Raise RecursionError
    | S d =>
        a ← predict_tree d right_child left_child left_node
                         clusters_distance;
        b ← predict_tree d right_child left_child right_node
                         clusters_distance;
        Ok (Node d_left d_right a b)
    end.

(** The two loops over [clusters]: the assertions, then the distances. *)
Definition distances (X clusters : pyval) (p : Z) : res (list string) :=
  cs ← items clusters;
  _ ← traverse (λ c, lx ← py_len X; lc ← py_len c; py_assert (lx =? lc)) cs;
  traverse (λ c, cluster_distance X c p) cs.

Definition sql_from_bisecting_kmeans (X clusters left_child right_child : pyval)
  (return_distance_clusters : bool) (p : Z) : res pyval :=
  _ ← check [OfType "X" X [Tlist];
             OfType "clusters" clusters [Tlist];
             OfType "left_child" left_child [Tlist];
             OfType "right_child" right_child [Tlist];
             OfType "return_distance_clusters"
                    (PBool return_distance_clusters) [Tbool];
             OfType "p" (PInt p) [Tint]];
  clusters_distance ← distances X clusters p;
  if return_distance_clusters
  then Ok (PList (map PStr clusters_distance))
  else
    xs ← items X;
    let nulls :=
      String.concat " OR " (map (λ elem, fmt elem +:+ " IS NULL") xs) in
    t ← predict_tree max_depth right_child left_child 0 clusters_distance;
    Ok (PStr ("(CASE WHEN " +:+ nulls +:+ " THEN NULL ELSE " +:+
              render t +:+ " END)")).
End sql_from_bisecting_kmeans.
End BisectingSql.

(** ** [memModel.predict_sql]

    The CASE expression that picks the class of a classifier ensemble with
    other than two classes is kept as a syntax tree, as for the flat
    clusters. *)

Module EnsembleSql.
Import Sql.
Section classifier_sql.
Context `{Runtime}.

(** ["'{}'".format(class_i) if isinstance(class_i, str) else class_i] *)
Definition class_literal (class_i : pyval) : sql :=
  match class_i with
  | PStr _ => SStr (fmt class_i)
  | _ => SVal class_i
  end.

(** The list [sql] before [sql = sql[1:]]: entry [i] joins
    [result_proba[i] <= result_proba[j]] for every [j < i]. *)
Definition conditions (result_proba : pyval) (m : Z) : res (list sql) :=
  traverse (λ i, list_tmp ← traverse
                   (λ j, pi ← getitem result_proba (PInt i);
                         pj ← getitem result_proba (PInt j);
                         Ok (SLe (SVal pi) (SVal pj)))
                   (py_range i);
                 Ok (SAnd list_tmp))
           (py_range m).

Definition classifier_sql (X classes result_proba : pyval) (m : Z)
  : res sql :=
  sql ← conditions result_proba m;
  let sql := reverse (tail sql) in
  xs ← py_iter X;
  whens ← traverse (λ i, class_i ← getitem classes (PInt (m - i - 1));
                         cond ← py_index sql i;
                         Ok (cond, class_literal class_i))
                   (py_range (m - 1));
  c0 ← getitem classes (PInt 0);
  Ok (SCase false
        ((SOr (map (λ elem, SIsNull (SVal elem)) xs), SNull) :: whens)
        (class_literal c0)).
End classifier_sql.
End EnsembleSql.

Section predict_sql.
Context `{Runtime}.

(** [memModel.predict_sql]; [depth] bounds the nesting of calls on member
    objects. *)
Fixpoint predict_sql_at (depth : nat) (self : memModel) (X : pyval)
  : res pyval :=
  let mt := model_type_ self in
  if one_of mt ["LinearRegression"; "LinearSVC"; "LinearSVR";
                "LogisticRegression"] then
    coefficients ← attr self "coefficients";
    intercept ← attr self "intercept";
    result ← sql_from_coef X coefficients intercept mt;
    if one_of mt ["LinearSVC"; "LogisticRegression"]
    then Ok (PStr ("((" +:+ fmt result +:+ ") > 0.5)::int"))
    else Ok result
  else if one_of mt ["KMeans"] then
    clusters ← attr self "clusters";
    p ← attr self "p"; p ← as_int p;
    ClustersSql.sql_from_clusters X clusters false false (PList []) p
  else if one_of mt ["NearestCentroids"] then
    clusters ← attr self "clusters";
    p ← attr self "p"; p ← as_int p;
    classes ← attr self "classes";
    ClustersSql.sql_from_clusters X clusters false false classes p
  else if one_of mt ["BisectingKMeans"] then
    clusters ← attr self "clusters";
    left_child ← attr self "left_child";
    right_child ← attr self "right_child";
    p ← attr self "p"; p ← as_int p;
    BisectingSql.sql_from_bisecting_kmeans X clusters left_child right_child
                                           false p
  else if one_of mt ["BinaryTreeRegressor"; "BinaryTreeClassifier"] then
    children_left ← attr self "children_left";
    children_right ← attr self "children_right";
    feature ← attr self "feature";
    threshold ← attr self "threshold";
    value ← attr self "value";
    classes ← (if one_of mt ["BinaryTreeClassifier"]
               then attr self "classes" else Ok (PList []));
    BinaryTreeSql.sql_from_binary_tree children_left children_right
      feature threshold value classes false
      (one_of mt ["BinaryTreeRegressor"]) X
  else if one_of mt ["RandomForestRegressor"; "XGBoostRegressor"] then
    trees ← members self;
    result ← traverse (λ tree,
                         match depth with
                         | O => Raise RecursionError
                         | S d => predict_sql_at d tree X
                         end) trees;
    joined ← py_join " + " result;
    if one_of mt ["RandomForestRegressor"] then
      Ok (PStr ("(" +:+ joined +:+ ") / " +:+
                fmt (PInt (Z.of_nat (length result)))))
    else
      learning_rate ← attr self "learning_rate";
      mean ← attr self "mean";
      Ok (PStr ("(" +:+ joined +:+ ") * " +:+ fmt learning_rate +:+ " + " +:+
                fmt mean))
  else if one_of mt ["RandomForestClassifier"; "XGBoostClassifier"] then
    trees ← attr self "trees";
    tree0 ← getitem trees (PInt 0);
    tree0 ← as_model tree0;
    classes ← attr tree0 "classes";
    m ← py_len classes;
    result_proba ← predict_proba_sql_at depth self X;
    if m =? 2 then
      p1 ← getitem result_proba (PInt 1);
      c1 ← getitem classes (PInt 1);
      c0 ← getitem classes (PInt 0);
      Ok (PStr ("(CASE WHEN " +:+ fmt p1 +:+ " > 0.5 THEN " +:+ fmt c1 +:+
                " ELSE " +:+ fmt c0 +:+ " END)"))
    else
      e ← EnsembleSql.classifier_sql X classes result_proba m;
      Ok (PStr (Sql.render e))
  else Raise FunctionError.

Definition predict_sql (self : memModel) (X : pyval) : res pyval :=
  predict_sql_at max_depth self X.

(** [memModel.__repr__] *)
Definition __repr__ (self : memModel) : string := represent_ self.
End predict_sql.

(** ** [memModel.rotate]

    [matrix_rotation] is [verticapy.learn.tools.matrix_rotation], which
    this file imports and does not define: the method is modelled for
    any such function.  The method returns [self], the object it leaves
    behind. *)

Section rotate.
Context `{Runtime}.
Variable matrix_rotation : pyval → pyval → pyval → pyval → res pyval.

Definition rotate (gamma q tol : pyval) : method unit :=
  λ self,
    if one_of (model_type_ self) ["PCA"] then
      (attributes ← get_attributes;
       pc ← locally (lookup_key attributes "principal_components");
       principal_components ← locally (matrix_rotation pc gamma q tol);
       set_attributes (<["principal_components" := principal_components]> ∅))
        self
    else (Raise FunctionError, self).
End rotate.

(** ** A runtime for the worked examples

    Text formatting is exact on [None], booleans, integers, text and lists
    of them (floats are not printed in the examples); text is parsed as a
    float when it is a decimal integer and refused otherwise; every
    [check_types] call is accepted. *)

Fixpoint example_str (v : pyval) : string :=
  match v with
  | PNone => "None"
  | PBool b => if b then "True" else "False"
  | PInt z => pretty z
  | PStr s => s
  | PList l =>
      "[" +:+ String.concat ", " (map example_str l) +:+ "]"
  | PArray l =>
      "[" +:+ String.concat " " (map example_str l) +:+ "]"
  | PFloat _ => "<float>"
  | PModel _ _ represent => represent
  end.

Definition example_float (s : string) : option R :=
  if bool_decide (s = EmptyString) || bool_decide (s = "-") then None
  else (λ i, IZR (Z.of_int i)) <$> NilEmpty.int_of_string s.

Definition example_runtime : Runtime := {|
  fmt := example_str;
  parse_float := example_float;
  max_depth := 900;
  check_types := λ _, true;
|}.

(** ** Notions used in the statements *)

(** The object [self] after [self.attributes_[key] = v]. *)
Definition store (key : string) (v : pyval) (self : memModel) : memModel :=
  {| attributes_ := <[key := v]> (attributes_ self);
     model_type_ := model_type_ self;
     represent_ := represent_ self |}.

(** Two values with the same cells: equal once [np.copy] has turned
    lists into arrays, which is how the constructor stores them. *)
Definition same_content (a b : option pyval) : Prop :=
  np_copy <$> a = np_copy <$> b.

(** What an update does to the value stored under a key it does not
    name: nothing, except that the empty list stored for the absent
    [classes] of a BinaryTreeClassifier comes back as the empty array. *)
Definition kept (old new : option pyval) : Prop :=
  new = old ∨ (old = Some (PList []) ∧ new = Some (PArray [])).

(** A linear regression and a random forest without trees. *)
Definition linear_attributes : gmap string pyval :=
  <["coefficients" := PList [PInt 2; PInt 3]]> (<["intercept" := PInt 1]> ∅).

Definition linear_model : memModel :=
  {| attributes_ := <["intercept" := PInt 1]>
                    (<["coefficients" := PArray [PInt 2; PInt 3]]> ∅);
     model_type_ := "LinearRegression";
     represent_ := "<LinearRegression>" +:+ nl +:+ nl +:+
                   "coefficients = [2 3]" +:+ nl +:+ nl +:+
                   "intercept = 1" |}.

Definition empty_forest : memModel :=
  {| attributes_ := <["trees" := PList []]> ∅;
     model_type_ := "RandomForestRegressor";
     represent_ := "<RandomForestRegressor>" +:+ nl +:+ nl +:+
                   "ntrees = 0" |}.

(** The class a member tree votes for on row [i], given the matrix of its
    class scores: the first maximum of the row. *)
Definition vote (scores : list (list R)) (i : nat) : option nat :=
  row ← scores !! i;
  match argmax row with Ok j => Some j | Raise _ => None end.

(** The number of member trees that vote for class [k] on row [i]. *)
Definition votes (members : list (list (list R))) (i k : nat) : nat :=
  length (filter (λ scores, vote scores i = Some k) members).




(** The votes of the members [P], as the [n] by [c] matrix the loop of the
    forest holds after them. *)
Definition tally (n c : nat) (P : list (list (list R))) : list (list R) :=
  (λ i, (λ k, INR (votes P i k)) <$> seq 0 c) <$> seq 0 n.


(** The distance of the specification, after its words: the Minkowski
    distance [(sum_j |x_j - c_j|^p)^(1/p)]. *)
Definition minkowski (p : Z) (x c : list R) : R :=
  Rpower (Rsum (zip_with (λ xj cj, powerRZ (Rabs (xj - cj)) p) x c))
         (1 / IZR p).

(** The model types for which [__init__] has a branch; ["NaiveBayes"]
    passes the check of [model_type] and has none. *)
Definition handled_types : list string :=
  ["RandomForestRegressor"; "XGBoostRegressor"; "RandomForestClassifier";
   "XGBoostClassifier"; "BinaryTreeClassifier"; "BinaryTreeRegressor";
   "OneHotEncoder"; "LinearSVR"; "LinearSVC"; "LogisticRegression";
   "LinearRegression"; "BisectingKMeans"; "KMeans"; "NearestCentroids";
   "PCA"; "SVD"; "Normalizer"].

(** The keys of [attributes_] that the branch of a model type writes. *)
Definition stored_keys (model_type : string) : list string :=
  if one_of model_type ["RandomForestRegressor"; "RandomForestClassifier"]
  then ["trees"]
  else if one_of model_type ["XGBoostRegressor"]
  then ["trees"; "mean"; "learning_rate"]
  else if one_of model_type ["XGBoostClassifier"]
  then ["trees"; "logodds"; "learning_rate"]
  else if one_of model_type ["BinaryTreeRegressor"]
  then ["children_left"; "children_right"; "feature"; "threshold"; "value"]
  else if one_of model_type ["BinaryTreeClassifier"]
  then ["children_left"; "children_right"; "feature"; "threshold"; "value";
        "classes"]
  else if one_of model_type ["OneHotEncoder"]
  then ["categories"; "drop_first"; "column_naming"]
  else if one_of model_type ["LinearSVR"; "LinearSVC"; "LogisticRegression";
                             "LinearRegression"]
  then ["coefficients"; "intercept"]
  else if one_of model_type ["BisectingKMeans"]
  then ["clusters"; "left_child"; "right_child"; "p"]
  else if one_of model_type ["KMeans"] then ["clusters"; "p"]
  else if one_of model_type ["NearestCentroids"]
  then ["clusters"; "p"; "classes"]
  else if one_of model_type ["PCA"] then ["principal_components"; "mean"]
  else if one_of model_type ["SVD"] then ["vectors"; "values"]
  else if one_of model_type ["Normalizer"] then ["values"; "method"]
  else [].

(** The model type that [__init__] asserts of each member of an
    ensemble. *)
Definition member_type (model_type : string) : string :=
  if one_of model_type ["RandomForestClassifier"; "XGBoostClassifier"]
  then "BinaryTreeClassifier" else "BinaryTreeRegressor".

(** [k] is the index of the first minimum of [row]. *)
Definition first_min_at (row : list R) (k : nat) : Prop :=
  ∃ m, row !! k = Some m ∧
       ∀ j y, row !! j = Some y → (m <= y)%R ∧ ((j < k)%nat → (m < y)%R).

(** A node of a bisecting tree both of whose children are [None]. *)
Definition is_leaf (right_child left_child : pyval) (node_id : Z) : Prop :=
  getitem left_child (PInt node_id) = Ok PNone ∧
  getitem right_child (PInt node_id) = Ok PNone.


(** The database orders the distance expressions of a row as the numeric
    mode orders its costs: whenever the expressions of the clusters [n]
    and [m] and the costs of the row to them exist, the expressions have
    values [x] and [y] with [x < y] exactly when the costs compare so. *)
Definition orders_alike (p : Z) (clusters_distance : list string)
  (centroids : list (list R)) (row : list R) (v : string → option R)
  : Prop :=
  ∀ n m dn dm cn cm,
    py_index clusters_distance n = Ok dn →
    py_index clusters_distance m = Ok dm →
    Bisecting.cost p centroids row n = Ok cn →
    Bisecting.cost p centroids row m = Ok cm →
    ∃ x y, v dn = Some x ∧ v dm = Some y ∧ ((x < y)%R ↔ (cn < cm)%R).

(** No class label can be taken for the index of a later cluster: the
    labels are all text and none is the text of a later index, or they
    are all integers and none is a later index. *)
Definition labels_clear_of_indices `{Runtime} (cs : list pyval) : Prop :=
  (∃ labels : list string,
     cs = PStr <$> labels ∧
     ∀ (k j : nat) s, (k < j < length labels)%nat → labels !! k = Some s →
                      s ≠ fmt (PInt (Z.of_nat j))) ∨
  (∃ labels : list Z,
     cs = PInt <$> labels ∧
     ∀ (k j : nat) z, (k < j < length labels)%nat → labels !! k = Some z →
                      z ≠ Z.of_nat j).

(** One turn of the loop of [relabel] on one cell. *)
Definition relabel_cell `{Runtime} (is_str : bool) (x : pyval)
  (ic : nat * pyval) : pyval :=
  let idx := Z.of_nat ic.1 in
  let tmp_idx := if is_str && (0 <? idx) then PStr (fmt (PInt idx))
                 else PInt idx in
  if py_eq x tmp_idx then ic.2
  else match ic.2, x with
       | PStr _, PStr _ => x
       | PStr _, _ => PStr (fmt x)
       | _, _ => x
       end.

(** The cell that started as the index [k], when the loop of [relabel]
    is about to look for the index [j]. *)
Definition cell_at `{Runtime} (is_str : bool) (cs : list pyval) (j k : nat)
  : pyval :=
  if (k <? j)%nat then default PNone (cs !! k)
  else if is_str && negb (j =? 0)%nat
       then PStr (fmt (PInt (Z.of_nat k)))
       else PInt (Z.of_nat k).

(** The cells at position [i] of the vectors [L]. *)
Definition cells_at (L : list (list R)) (i : nat) : list R :=
  (λ r, default 0%R (r !! i)) <$> L.



(** The outcome of a call that the argument checks refuse: the error of
    [check_types] or a failed assertion. *)
Definition rejected {A} (m : res A) : Prop :=
  m = Raise ParameterError ∨ m = Raise AssertionError.

(** A matrix of floats as the nested list a caller passes, a vector of
    floats, and the pairs of a normalizer as the list [values]. *)
Definition float_rows (rows : list (list R)) : pyval :=
  PList ((λ xs, PList (PFloat <$> xs)) <$> rows).

Definition float_list (xs : list R) : pyval := PList (PFloat <$> xs).

Definition float_pairs (params : list (R * R)) : pyval :=
  PList ((λ ab, PList [PFloat ab.1; PFloat ab.2]) <$> params).

(** The scalar product of two vectors. *)
Definition dot (u v : list R) : R := Rsum (zip_with Rmult u v).

(** ** Inputs of the worked examples *)

(** The attributes of a binary tree with the single node [0]. *)
Definition single_leaf (v : pyval) : gmap string pyval :=
  <["children_left" := PList [PNone]]>
  (<["children_right" := PList [PNone]]>
  (<["feature" := PList [PNone]]>
  (<["threshold" := PList [PNone]]>
  (<["value" := PList [v]]> ∅)))).

(** The attributes of a tree that splits feature [0] at [t] and has the
    leaves [a] (node 1) and [b] (node 2). *)
Definition stump (t a b : pyval) : gmap string pyval :=
  <["children_left" := PList [PInt 1; PNone; PNone]]>
  (<["children_right" := PList [PInt 2; PNone; PNone]]>
  (<["feature" := PList [PInt 0; PNone; PNone]]>
  (<["threshold" := PList [t; PNone; PNone]]>
  (<["value" := PList [PNone; a; b]]> ∅)))).

(** A KMeans model with one centroid that stores [p = 3]. *)
Definition kmeans_p3 : memModel :=
  {| attributes_ := <["p" := PInt 3]>
                    (<["clusters" := PArray [PArray [PInt 0]]]> ∅);
     model_type_ := "KMeans";
     represent_ := "<KMeans>" |}.

(** A classifier tree with the single leaf [v], and a forest of three of
    them: two vote for class 1, one for class 0. *)
Definition leaf_classifier (v : pyval) : memModel :=
  {| attributes_ := <["classes" := PArray []]> (single_leaf v);
     model_type_ := "BinaryTreeClassifier";
     represent_ := "<BinaryTreeClassifier>" |}.



(** A KMeans model with the single centroid [0], and one with the
    centroids [0] and [2], both for [p = 2]. *)
Definition kmeans_origin : memModel :=
  {| attributes_ := <["p" := PInt 2]>
                    (<["clusters" := PArray [PArray [PInt 0]]]> ∅);
     model_type_ := "KMeans";
     represent_ := "<KMeans>" |}.

Definition two_centroids : pyval := PList [PList [PInt 0]; PList [PInt 2]].

(** Two classifier stumps on feature 0 at threshold 5, with two classes,
    and the boosted classifier made of them. *)
Definition stump_classifier (a b : pyval) : memModel :=
  {| attributes_ := <["classes" := PArray [PInt 0; PInt 1]]>
                    (stump (PInt 5) a b);
     model_type_ := "BinaryTreeClassifier";
     represent_ := "<BinaryTreeClassifier>" |}.

Definition stump_A : memModel :=
  stump_classifier (PList [PInt 10; PInt 20]) (PList [PInt 30; PInt 40]).

Definition stump_B : memModel :=
  stump_classifier (PList [PInt 50; PInt 60]) (PList [PInt 70; PInt 80]).

Definition boosted_pair : memModel :=
  {| attributes_ := <["learning_rate" := PInt 1]>
                    (<["logodds" := PArray [PInt 0; PInt 0]]>
                    (<["trees" := PList [to_val stump_A; to_val stump_B]]> ∅));
     model_type_ := "XGBoostClassifier";
     represent_ := "<XGBoostClassifier>" |}.

(** A random forest of two stumps whose leaves vote for different
    classes. *)
Definition forest_pair : memModel :=
  {| attributes_ :=
       <["trees" :=
           PList [to_val (stump_classifier (PList [PInt 20; PInt 10])
                                           (PList [PInt 30; PInt 40]));
                  to_val (stump_classifier (PList [PInt 50; PInt 60])
                                           (PList [PInt 80; PInt 70]))]]> ∅;
     model_type_ := "RandomForestClassifier";
     represent_ := "<RandomForestClassifier>" |}.

(** The expressions of the two stumps, class by class. *)
Definition A0 : string := "(CASE WHEN x < '5' THEN 10 ELSE 30 END)".
Definition A1 : string := "(CASE WHEN x < '5' THEN 20 ELSE 40 END)".
Definition B0 : string := "(CASE WHEN x < '5' THEN 50 ELSE 70 END)".
Definition B1 : string := "(CASE WHEN x < '5' THEN 60 ELSE 80 END)".

(** A bisecting tree: the root 0 with the leaves 1 and 2, and the centres
    of its three nodes. *)
Definition bisecting_left : pyval := PList [PInt 1; PNone; PNone].

Definition bisecting_right : pyval := PList [PInt 2; PNone; PNone].

Definition bisecting_centres : pyval :=
  PList [PList [PInt 0]; PList [PInt 1]; PList [PInt 5]].

(** The values of three distance expressions on a row. *)
Definition three_distances (s : string) : option R :=
  if bool_decide (s = "d0") then Some 2%R
  else if bool_decide (s = "d1") then Some 1%R
  else if bool_decide (s = "d2") then Some 3%R
  else None.

(** A regressor tree with the single leaf [v], and the forest of the two
    single-leaf regressors 4 and 8. *)
Definition leaf_regressor (v : pyval) : memModel :=
  {| attributes_ := single_leaf v;
     model_type_ := "BinaryTreeRegressor";
     represent_ := "<BinaryTreeRegressor>" |}.

Definition regressor_pair : memModel :=
  {| attributes_ :=
       <["trees" := PList [to_val (leaf_regressor (PInt 4));
                           to_val (leaf_regressor (PInt 8))]]> ∅;
     model_type_ := "RandomForestRegressor";
     represent_ := "<RandomForestRegressor>" |}.

(** A row on which the column [x] is 1 and the three probability
    expressions are 2, 7 and 1. *)
Definition three_probabilities (s : string) : option Sql.sqlval :=
  if bool_decide (s = "x") then Some (Sql.VNum 1)
  else if bool_decide (s = "p0") then Some (Sql.VNum 2)
  else if bool_decide (s = "p1") then Some (Sql.VNum 7)
  else if bool_decide (s = "p2") then Some (Sql.VNum 1)
  else None.

(** A row whose only column [x] is NULL. *)
Definition null_row (s : string) : option Sql.sqlval :=
  if bool_decide (s = "x") then Some Sql.VNull else None.

(** A PCA model with two components, and a stand-in for
    [matrix_rotation] that exchanges them. *)
Definition pca_attributes : gmap string pyval :=
  <["principal_components" :=
      PList [PList [PInt 1; PInt 0]; PList [PInt 0; PInt 1]]]>
  (<["mean" := PList [PInt 0; PInt 0]]> ∅).

Definition pca_model : memModel :=
  match new_memModel (H := example_runtime) "PCA" pca_attributes with
  | Ok m => m
  | Raise _ => blank
  end.

Definition exchange_components (pc gamma q tol : pyval) : res pyval :=
  l ← items pc; Ok (PList (reverse l)).

(** ** Evaluation on concrete inputs

    Everything but the comparisons of real numbers computes; those are
    settled by linear arithmetic. *)

Ltac decide_reals :=
  repeat match goal with
    | |- context [Rlt_dec ?a ?b] => destruct (Rlt_dec a b); try (exfalso; lra)
    | |- context [Rle_dec ?a ?b] => destruct (Rle_dec a b); try (exfalso; lra)
    | |- context [Req_dec_T ?a ?b] =>
        destruct (Req_dec_T a b); try (exfalso; lra)
    end.

Ltac same_shape :=
  repeat match goal with
    | |- Ok _ = Ok _ => f_equal
    | |- Some _ = Some _ => f_equal
    | |- PArray _ = PArray _ => f_equal
    | |- PList _ = PList _ => f_equal
    | |- PFloat _ = PFloat _ => f_equal
    | |- Sql.VNum _ = Sql.VNum _ => f_equal
    | |- _ :: _ = _ :: _ => f_equal
    end.

Ltac py_eval :=
  vm_compute; decide_reals; try reflexivity;
  same_shape; try lra; try (field; lra).

(** Membership in a list of literals. *)
Ltac in_list :=
  apply (bool_decide_unpack _); vm_compute; exact I.

(* ===================================================================== *)
(** * Part II: properties *)
(* ===================================================================== *)

(** ** The error monad *)

Lemma bind_Ok {A B} (f : A → res B) (a : A) : (Ok a ≫= f) = f a.
Proof. reflexivity. Qed.

Lemma bind_Raise {A B} (f : A → res B) (e : exn) :
  (Raise e ≫= f) = Raise e.
Proof. reflexivity. Qed.

Lemma raises_Raise {A} (e : exn) : raises (@Raise A e).
Proof. by exists e. Qed.

Lemma raises_bind {A B} (m : res A) (f : A → res B) :
  raises m → raises (m ≫= f).
Proof. intros [e ->]. by exists e. Qed.

Lemma raises_bind_after {A B} (m : res A) (f : A → res B) :
  (∀ a, m = Ok a → raises (f a)) → raises (m ≫= f).
Proof.
  intros Hf. destruct m as [a|e]; [by apply Hf | apply raises_Raise].
Qed.

Lemma traverse_raises {A B} (f : A → res B) (l : list A) (x : A) :
  x ∈ l → raises (f x) → raises (traverse f l).
Proof.
  intros Hin Hx. induction l as [|y l IH]; [by apply elem_of_nil in Hin|].
  cbn. apply elem_of_cons in Hin as [->|Hin].
  - by apply raises_bind.
  - apply raises_bind_after. intros b _.
    apply raises_bind. by apply IH.
Qed.

Lemma traverse_const {A B} (f : A → res B) (l : list A) (b : B) :
  (∀ x, x ∈ l → f x = Ok b) → traverse f l = Ok (map (λ _, b) l).
Proof.
  intros Hf. induction l as [|y l IH]; [done|].
  cbn. rewrite Hf by (apply elem_of_cons; by left). cbn.
  rewrite IH; [done|]. intros x Hx. apply Hf. apply elem_of_cons. by right.
Qed.

Lemma traverse_length {A B} (f : A → res B) (l : list A) (r : list B) :
  traverse f l = Ok r → length r = length l.
Proof.
  revert r. induction l as [|y l IH]; intros r; cbn.
  - by intros [= <-].
  - destruct (f y); [|done]. cbn.
    destruct (traverse f l) eqn:E; [|done]. cbn. intros [= <-].
    cbn. f_equal. by apply IH.
Qed.

(** ** Binary trees *)

Section binary_tree_facts.
Context `{Runtime}.
Variables (children_left children_right feature threshold value : pyval).
Variables (classes : pyval) (return_proba is_regressor : bool).

Abbreviation predict_tree_final :=
  (BinaryTree.predict_tree_final children_left children_right feature
     threshold value classes return_proba is_regressor).
Abbreviation sql_predict_tree :=
  (BinaryTreeSql.predict_tree children_left children_right feature
     threshold value classes return_proba is_regressor).

(** C9, as amended.  On a tree whose root is a leaf
    ([children_left[0] == children_right[0]]) the prediction for a row
    does not look at the row: it is [value[0]] for a regressor and in
    probability mode, and for a classifier the class at the arg-max of
    [value[0]] ([classes[argmax]] when [classes] is not empty, the
    arg-max index otherwise). *)
Theorem single_leaf_predict (l r v : pyval) (row : pyval) :
  getitem children_left (PInt 0) = Ok l →
  getitem children_right (PInt 0) = Ok r →
  py_eq l r = true →
  getitem value (PInt 0) = Ok v →
  (is_regressor = true ∨ return_proba = true →
     predict_tree_final row = Ok v) ∧
  (is_regressor = false → return_proba = false →
     is_iterable value = true →
     predict_tree_final row =
       (k ← np_argmax v;
        if BinaryTree.has_classes classes then getitem classes k
        else Ok k)).
Proof.
  intros Hl Hr Heq Hv.
  unfold BinaryTree.predict_tree_final.
  split.
  - intros Hmode.
    destruct max_depth; cbn; rewrite Hl, Hr; cbn; rewrite Heq;
      (destruct Hmode as [-> | ->];
       [ cbn; exact Hv
       | rewrite andb_false_r; cbn; exact Hv ]).
  - intros -> -> Hit.
    destruct max_depth; cbn; rewrite Hl, Hr; cbn; rewrite Heq, Hit; cbn;
      rewrite Hv; cbn; destruct (np_argmax v); cbn;
      by destruct (BinaryTree.has_classes classes).
Qed.

(** C7, as amended.  An internal node emits
    [(CASE WHEN x op 't' THEN a ELSE b END)] where [op] is [=] for a
    textual threshold and [<] otherwise, and where the threshold is
    written between single quotes in both cases. *)
Theorem sql_internal_node (d : nat) (node_id l r t f x a b X : pyval)
  (prob_ID : Z) :
  getitem children_left node_id = Ok l →
  getitem children_right node_id = Ok r →
  py_eq l r = false →
  getitem threshold node_id = Ok t →
  getitem feature node_id = Ok f →
  getitem X f = Ok x →
  sql_predict_tree d l X prob_ID = Ok a →
  sql_predict_tree d r X prob_ID = Ok b →
  sql_predict_tree (S d) node_id X prob_ID =
    Ok (PStr ("(CASE WHEN " +:+ fmt x +:+ " " +:+
              (match t with PStr _ => "=" | _ => "<" end) +:+
              " '" +:+ fmt t +:+ "' THEN " +:+ fmt a +:+
              " ELSE " +:+ fmt b +:+ " END)")).
Proof.
  intros Hl Hr Hne Ht Hf Hx Ha Hb.
  cbn. rewrite Hl, Hr. cbn. rewrite Hne, Ht. cbn.
  rewrite Hf. cbn. rewrite Hx. cbn.
  rewrite Ha. cbn. rewrite Hb. reflexivity.
Qed.
End binary_tree_facts.

(** The regressor with the single leaf [7] predicts [7] on any row. *)
Lemma single_leaf_predict_witness :
  @BinaryTree.predict_tree_final example_runtime
    (PList [PNone]) (PList [PNone]) (PList [PNone]) (PList [PNone])
    (PList [PInt 7]) (PList []) false true (PArray [PStr "any"]) =
  Ok (PInt 7).
Proof.
  apply (@single_leaf_predict example_runtime
           (PList [PNone]) (PList [PNone]) (PList [PNone]) (PList [PNone])
           (PList [PInt 7]) (PList []) false true PNone PNone (PInt 7)
           (PArray [PStr "any"]));
    [reflexivity | reflexivity | reflexivity | reflexivity | by left].
Defined.

(** C9 as stated fails for a classifier: on the single leaf with scores
    [[1, 3]], [predict] returns the class index [1] and not [value[0]]. *)
Lemma single_leaf_classifier_counterexample :
  (new_memModel (H := example_runtime) "BinaryTreeClassifier"
     (single_leaf (PList [PInt 1; PInt 3])) ≫=
   λ m, predict (H := example_runtime) m (PList [PList [PInt 5]])) =
    Ok (PArray [PInt 1]) ∧
  PArray [PInt 1] ≠ PArray [PList [PInt 1; PInt 3]].
Proof.
  split; [py_eval | discriminate].
Qed.

(** A stump on column [x] with the numeric threshold [5]. *)
Lemma sql_internal_node_witness :
  @BinaryTreeSql.predict_tree example_runtime
    (PList [PInt 1; PNone; PNone]) (PList [PInt 2; PNone; PNone])
    (PList [PInt 0; PNone; PNone]) (PList [PInt 5; PNone; PNone])
    (PList [PNone; PInt 1; PInt 2]) (PList []) false true
    1 (PInt 0) (PList [PStr "x"]) 0 =
  Ok (PStr "(CASE WHEN x < '5' THEN 1 ELSE 2 END)").
Proof.
  apply (@sql_internal_node example_runtime
           (PList [PInt 1; PNone; PNone]) (PList [PInt 2; PNone; PNone])
           (PList [PInt 0; PNone; PNone]) (PList [PInt 5; PNone; PNone])
           (PList [PNone; PInt 1; PInt 2]) (PList []) false true
           0 (PInt 0) (PInt 1) (PInt 2) (PInt 5) (PInt 0) (PStr "x")
           (PInt 1) (PInt 2) (PList [PStr "x"]) 0); reflexivity.
Defined.

(** C7 as stated fails on a numeric threshold: the generated text quotes
    the threshold [5], where the specification has it unquoted. *)
Lemma sql_numeric_threshold_counterexample :
  @BinaryTreeSql.sql_from_binary_tree example_runtime
    (PList [PInt 1; PNone; PNone]) (PList [PInt 2; PNone; PNone])
    (PList [PInt 0; PNone; PNone]) (PList [PInt 5; PNone; PNone])
    (PList [PNone; PInt 1; PInt 2]) (PList []) false true
    (PList [PStr "x"]) =
    Ok (PStr "(CASE WHEN x < '5' THEN 1 ELSE 2 END)") ∧
  "(CASE WHEN x < '5' THEN 1 ELSE 2 END)" ≠
  "(CASE WHEN x < 5 THEN 1 ELSE 2 END)".
Proof.
  split; [reflexivity | discriminate].
Qed.

(** ** Broadcasting *)

Lemma broadcast_row_mismatch (f : R → R → R) (row v : list R) :
  length row ≠ length v → length row ≠ 1%nat → length v ≠ 1%nat →
  broadcast_row f row v = Raise ValueError.
Proof.
  intros Hne Hr Hv. unfold broadcast_row.
  destruct (Nat.eqb_spec (length row) (length v)); [done|].
  destruct v as [|y [|y' v]]; [|done|];
    by destruct row as [|x [|x' row]].
Qed.

Lemma broadcast_mismatch (f : R → R → R) (row : list R) (M : list (list R))
  (v : list R) :
  length row ≠ length v → length row ≠ 1%nat → length v ≠ 1%nat →
  broadcast f (row :: M) v = Raise ValueError.
Proof.
  intros. unfold broadcast. cbn. by rewrite broadcast_row_mismatch.
Qed.

Lemma py_assert_false : py_assert false = Raise AssertionError.
Proof. reflexivity. Qed.

(** ** Linear models *)

(** X1. Where a linear model does fail on a length mismatch.  The SQL
    generator [sql_from_coef] fails whenever the number of columns differs
    from the number of coefficients.  The numeric evaluator
    [predict_from_coef] fails when the first row of [X] and the
    coefficients differ in length and neither has length 1. *)
Lemma linear_length_mismatch `{Runtime} (X coefficients intercept : pyval)
  (method : string) (return_proba : bool) :
  (∀ lx lc, py_len X = Ok lx → py_len coefficients = Ok lc → lx ≠ lc →
     raises (sql_from_coef X coefficients intercept method)) ∧
  (∀ row M c, np_array2 X = Ok (row :: M) →
     np_array1 coefficients = Ok c →
     length row ≠ length c → length row ≠ 1%nat → length c ≠ 1%nat →
     raises (predict_from_coef X coefficients intercept method
                               return_proba)).
Proof.
  split.
  - intros lx lc HX Hc Hne. unfold sql_from_coef.
    apply raises_bind_after; intros _ _.
    rewrite HX, Hc. cbn.
    destruct (Z.eqb_spec lx lc); [done|]. apply raises_Raise.
  - intros row M c HX Hc Hne Hr Hl. unfold predict_from_coef.
    apply raises_bind_after; intros _ _.
    rewrite Hc, bind_Ok, HX, bind_Ok, broadcast_mismatch by done.
    apply raises_Raise.
Qed.

(** Three features against two coefficients: both modes fail. *)
Lemma linear_length_mismatch_witness :
  raises (sql_from_coef (H := example_runtime)
            (PList [PStr "a"; PStr "b"; PStr "c"])
            (PList [PInt 1; PInt 2]) (PInt 0) "LinearRegression") ∧
  raises (predict_from_coef (H := example_runtime)
            (PList [PList [PInt 1; PInt 2; PInt 3]])
            (PList [PInt 1; PInt 2]) (PInt 0) "LinearRegression" false).
Proof.
  split.
  - apply (proj1 (linear_length_mismatch (H := example_runtime)
                    (PList [PStr "a"; PStr "b"; PStr "c"])
                    (PList [PInt 1; PInt 2]) (PInt 0) "LinearRegression"
                    false) 3 2); [reflexivity | reflexivity | lia].
  - apply (proj2 (linear_length_mismatch (H := example_runtime)
                    (PList [PList [PInt 1; PInt 2; PInt 3]])
                    (PList [PInt 1; PInt 2]) (PInt 0) "LinearRegression"
                    false) [1; 2; 3]%R [] [1; 2]%R);
      [reflexivity | reflexivity | cbn; lia | cbn; lia | cbn; lia].
Defined.

(** C5 on a row of two features against one coefficient.  The numeric
    evaluator does not fail: numpy stretches the coefficient over the row
    and [1 + 2 * 1 + 2 * 1 = 5] is returned.  The SQL generator rejects
    the same lengths with its assertion. *)
Theorem predict_from_coef_accepts_mismatch :
  py_len (PList [PInt 1; PInt 1]) = Ok 2 ∧
  py_len (PList [PInt 2]) = Ok 1 ∧
  predict_from_coef (H := example_runtime)
    (PList [PList [PInt 1; PInt 1]]) (PList [PInt 2]) (PInt 1)
    "LinearRegression" false = Ok (PArray [PFloat 5]) ∧
  sql_from_coef (H := example_runtime)
    (PList [PStr "a"; PStr "b"]) (PList [PInt 2]) (PInt 1)
    "LinearRegression" = Raise AssertionError.
Proof.
  repeat split. py_eval.
Qed.

(** ** Transformations *)

Lemma column_length (V : list (list R)) (i : Z) (col : list R) :
  column V i = Ok col → length col = length V.
Proof. apply traverse_length. Qed.

Lemma py_range_head (n : Z) : 0 < n → 0 ∈ py_range n.
Proof.
  intros Hn. unfold py_range.
  destruct (Z.to_nat n) as [|k] eqn:E; [lia|].
  cbn. apply elem_of_cons. by left.
Qed.

Lemma py_index_out_of_range {A} (l : list A) (i : Z) :
  Z.of_nat (length l) <= i → py_index l i = Raise IndexError.
Proof.
  intros Hi. unfold py_index.
  destruct (Z.ltb_spec i 0); [lia|].
  destruct (Z.leb_spec 0 i); [|lia].
  by destruct (Z.ltb_spec i (Z.of_nat (length l))); [lia|].
Qed.

Lemma elem_of_imap_pair {A} (l : list A) (i : nat) (x : A) :
  l !! i = Some x → (i, x) ∈ imap (λ j y, (j, y)) l.
Proof.
  intros Hi. apply list_elem_of_lookup. exists i.
  by rewrite list_lookup_imap, Hi.
Qed.

(** X2. Where the numeric transformations do fail on a width mismatch.
    PCA, SVD and the normalizer fail when the width of the first row
    differs from the width of the parameters (length of [mean], number of
    [vectors], number of [values] pairs) and neither width is 1.  The
    one-hot encoder fails when a row has more cells than there are
    category lists. *)
Lemma transform_width_mismatch `{Runtime} (X : pyval) :
  (∀ principal_components mean row M m,
     np_array1 mean = Ok m → np_array2 X = Ok (row :: M) →
     length row ≠ length m → length row ≠ 1%nat → length m ≠ 1%nat →
     raises (transform_from_pca X principal_components mean)) ∧
  (∀ vectors values row M V,
     np_array2 vectors = Ok V → np_array2 X = Ok (row :: M) →
     length row ≠ length V → length row ≠ 1%nat → length V ≠ 1%nat →
     raises (transform_from_svd X vectors values)) ∧
  (∀ values method row M vs,
     items values = Ok vs → np_array2 X = Ok (row :: M) →
     length row ≠ length vs → length row ≠ 1%nat → length vs ≠ 1%nat →
     raises (transform_from_normalizer X values method)) ∧
  (∀ categories drop_first rows row c,
     np_rows X = Ok rows → row ∈ rows → py_len categories = Ok c →
     c < Z.of_nat (length row) →
     raises (OneHot.transform_from_one_hot_encoder categories drop_first X)).
Proof.
  repeat split.
  - intros pcs mean row M m Hm HX Hne Hr Hl. unfold transform_from_pca.
    apply raises_bind_after; intros _ _.
    apply raises_bind_after; intros pca_values _.
    rewrite Hm, bind_Ok, HX, bind_Ok, broadcast_mismatch by done.
    apply raises_Raise.
  - intros vectors values row M V HV HX Hne Hr Hl.
    unfold transform_from_svd.
    apply raises_bind_after; intros _ _.
    rewrite HV, bind_Ok.
    apply raises_bind_after; intros v0 _.
    destruct (decide (0 < Z.of_nat (length v0))) as [Hpos|Hz].
    + apply raises_bind.
      apply (traverse_raises _ _ 0); [by apply py_range_head|].
      apply raises_bind_after; intros col Hcol.
      apply column_length in Hcol.
      rewrite HX, bind_Ok, broadcast_mismatch by congruence.
      apply raises_Raise.
    + replace (py_range (Z.of_nat (length v0))) with (@nil Z).
      * cbn. apply raises_Raise.
      * unfold py_range. by replace (Z.to_nat (Z.of_nat (length v0)))
          with 0%nat by lia.
  - intros values method row M vs Hvs HX Hne Hr Hl.
    unfold transform_from_normalizer.
    apply raises_bind_after; intros _ _.
    rewrite Hvs, bind_Ok.
    apply raises_bind_after; intros a Ha. apply traverse_length in Ha.
    apply raises_bind_after; intros b _.
    rewrite HX, bind_Ok, broadcast_mismatch by congruence.
    apply raises_Raise.
  - intros categories drop_first rows row c HX Hrow Hc Hlt.
    unfold OneHot.transform_from_one_hot_encoder.
    apply raises_bind_after; intros _ _.
    rewrite HX, bind_Ok. apply raises_bind.
    apply (traverse_raises _ _ row Hrow). apply raises_bind.
    unfold OneHot.ooe_row. apply raises_bind.
    destruct (lookup_lt_is_Some_2 row (Z.to_nat c)) as [x Hx]; [|].
    { destruct categories; cbn in Hc; simplify_eq; lia. }
    apply (traverse_raises _ _ (Z.to_nat c, x)).
    { by apply elem_of_imap_pair. }
    cbn. apply raises_bind. unfold getitem.
    destruct categories as [| | | |s|l|l|]; cbn in Hc |- *;
      try apply raises_Raise; simplify_eq.
    all: rewrite py_index_out_of_range by lia; apply raises_Raise.
Qed.

(** Rows of three cells against parameters of width two (PCA, SVD,
    normalizer), and a row of two cells against one category list. *)
Lemma transform_width_mismatch_witness :
  raises (transform_from_pca (H := example_runtime)
            (PList [PList [PInt 1; PInt 2; PInt 3]])
            (PList [PList [PInt 1; PInt 0]; PList [PInt 0; PInt 1]])
            (PList [PInt 0; PInt 0])) ∧
  raises (transform_from_svd (H := example_runtime)
            (PList [PList [PInt 1; PInt 2; PInt 3]])
            (PList [PList [PInt 1; PInt 0]; PList [PInt 0; PInt 1]])
            (PList [PInt 1; PInt 1])) ∧
  raises (transform_from_normalizer (H := example_runtime)
            (PList [PList [PInt 1; PInt 2; PInt 3]])
            (PList [PList [PInt 0; PInt 1]; PList [PInt 0; PInt 1]])
            (PStr "zscore")) ∧
  raises (OneHot.transform_from_one_hot_encoder (H := example_runtime)
            (PList [PList [PStr "a"; PStr "b"]]) false
            (PList [PList [PStr "a"; PStr "c"]])).
Proof.
  pose proof (transform_width_mismatch (H := example_runtime)
                (PList [PList [PInt 1; PInt 2; PInt 3]]))
    as (Hpca & Hsvd & Hnorm & _).
  pose proof (transform_width_mismatch (H := example_runtime)
                (PList [PList [PStr "a"; PStr "c"]]))
    as (_ & _ & _ & Hooe).
  repeat split.
  - apply (Hpca _ _ [1; 2; 3]%R [] [0; 0]%R);
      [reflexivity | reflexivity | cbn; lia | cbn; lia | cbn; lia].
  - apply (Hsvd _ _ [1; 2; 3]%R [] [[1; 0]; [0; 1]]%R);
      [reflexivity | reflexivity | cbn; lia | cbn; lia | cbn; lia].
  - apply (Hnorm _ _ [1; 2; 3]%R []
             [PList [PInt 0; PInt 1]; PList [PInt 0; PInt 1]]);
      [reflexivity | reflexivity | cbn; lia | cbn; lia | cbn; lia].
  - apply (Hooe _ _ [[PStr "a"; PStr "c"]] [PStr "a"; PStr "c"] 1);
      [reflexivity | apply elem_of_cons; by left | reflexivity | cbn; lia].
Defined.

(** C6 on four mismatched inputs.  None of the four numeric
    transformations fails: a parameter of width 1 is stretched over wider
    rows (PCA with a one-cell [mean], the normalizer with one pair), a
    one-cell row is stretched over two vectors (SVD), and the one-hot
    encoder accepts a row with fewer cells than there are category
    lists. *)
Theorem transforms_accept_mismatch :
  transform_from_pca (H := example_runtime)
    (PList [PList [PInt 1; PInt 2]])
    (PList [PList [PInt 1; PInt 0]; PList [PInt 0; PInt 1]])
    (PList [PInt 0]) = Ok (matrix_val [[1; 2]]%R) ∧
  transform_from_svd (H := example_runtime)
    (PList [PList [PInt 3]])
    (PList [PList [PInt 1; PInt 0]; PList [PInt 0; PInt 1]])
    (PList [PInt 1; PInt 1]) = Ok (matrix_val [[3; 3]]%R) ∧
  transform_from_normalizer (H := example_runtime)
    (PList [PList [PInt 1; PInt 2; PInt 3]])
    (PList [PList [PInt 0; PInt 1]]) (PStr "zscore") =
    Ok (matrix_val [[1; 2; 3]]%R) ∧
  OneHot.transform_from_one_hot_encoder (H := example_runtime)
    (PList [PList [PStr "a"; PStr "b"]; PList [PStr "c"]]) false
    (PList [PList [PStr "a"]]) = Ok (PArray [PArray [PInt 1; PInt 0]]).
Proof.
  repeat split; py_eval.
Qed.

(** ** The exponent in [transform] *)

Lemma one_of_cases (s : string) (l : list string) :
  one_of s l = true → s ∈ l.
Proof. apply bool_decide_eq_true_1. Qed.

(** C10.  For a KMeans, NearestCentroids or BisectingKMeans model,
    [transform] and [transform_sql] are the distance routines called with
    exponent 2: the stored [p] is not passed on, and replacing it changes
    neither result. *)
Theorem transform_ignores_p `{Runtime} (self : memModel) (p X : pyval) :
  one_of (model_type_ self)
         ["KMeans"; "NearestCentroids"; "BisectingKMeans"] = true →
  transform self X =
    (clusters ← attr self "clusters";
     predict_from_clusters X clusters true false (PList []) 2) ∧
  transform_sql self X =
    (clusters ← attr self "clusters";
     ClustersSql.sql_from_clusters X clusters true false (PList []) 2) ∧
  transform (store "p" p self) X = transform self X ∧
  transform_sql (store "p" p self) X = transform_sql self X.
Proof.
  intros Hmt. destruct self as [a mt rep]. cbn in Hmt.
  assert (Hattr :
    attr (store "p" p {| attributes_ := a; model_type_ := mt;
                         represent_ := rep |}) "clusters" =
    attr {| attributes_ := a; model_type_ := mt; represent_ := rep |}
         "clusters").
  { unfold attr, lookup_key, store. cbn. by rewrite lookup_insert_ne. }
  apply one_of_cases in Hmt.
  repeat (apply elem_of_cons in Hmt as [-> | Hmt]);
    [| | | by apply elem_of_nil in Hmt];
    unfold transform, transform_sql; cbn -[attr store];
    rewrite ?Hattr; done.
Qed.

(** On the KMeans model storing [p = 3], overwriting [p] with 7 leaves
    the distances of [transform] as they are. *)
Lemma transform_ignores_p_witness :
  transform (H := example_runtime) (store "p" (PInt 7) kmeans_p3)
            (PList [PList [PInt 2]]) =
  transform (H := example_runtime) kmeans_p3 (PList [PList [PInt 2]]).
Proof.
  exact (proj1 (proj2 (proj2
    (transform_ignores_p (H := example_runtime) kmeans_p3 (PInt 7)
       (PList [PList [PInt 2]]) eq_refl)))).
Defined.

(** ** Construction and update of a [memModel] *)

Lemma bind_Ok_inv {A B} (m : res A) (f : A → res B) (b : B) :
  (m ≫= f) = Ok b → ∃ a, m = Ok a ∧ f a = Ok b.
Proof. destruct m as [a|e]; [by exists a | done]. Qed.

Lemma lookup_key_Ok (a : gmap string pyval) (k : string) (v : pyval) :
  lookup_key a k = Ok v → a !! k = Some v.
Proof. unfold lookup_key. by destruct (a !! k); intros [= ->]. Qed.

Ltac res_inv :=
  repeat match goal with
    | H : (_ ≫= _) = Ok _ |- _ =>
        let a := fresh "x" in let E := fresh "E" in
        apply bind_Ok_inv in H as (a & E & H)
    | H : lookup_key _ _ = Ok _ |- _ => apply lookup_key_Ok in H
    | H : Ok _ = Ok _ |- _ => injection H as H; subst
    | H : (_, _) = (_, _) |- _ => injection H as ??; subst
    | H : (if ?b then _ else _) = Ok _ |- _ => destruct b eqn:?; try done
    end.

(** Induction on Python values, through the lists they nest. *)
Lemma pyval_ind' (P : pyval → Prop) :
  P PNone → (∀ b, P (PBool b)) → (∀ z, P (PInt z)) → (∀ r, P (PFloat r)) →
  (∀ s, P (PStr s)) → (∀ l, Forall P l → P (PList l)) →
  (∀ l, Forall P l → P (PArray l)) → (∀ t a r, P (PModel t a r)) →
  ∀ v, P v.
Proof.
  intros HN HB HI HF HS HL HA HM.
  fix IH 1. intros [| b | z | r | s | l | l | t a r].
  - exact HN.
  - apply HB.
  - apply HI.
  - apply HF.
  - apply HS.
  - apply HL. induction l as [|x l IHl]; constructor; [apply IH | exact IHl].
  - apply HA. induction l as [|x l IHl]; constructor; [apply IH | exact IHl].
  - apply HM.
Qed.

(** [np.copy] of an array it made changes nothing. *)
Lemma np_copy_idem (v : pyval) : np_copy (np_copy v) = np_copy v.
Proof.
  induction v as [| | | | |l IH|l IH|] using pyval_ind'; try done.
  all: cbn; f_equal; rewrite map_map; apply map_ext_Forall; done.
Qed.

Lemma copy_or_np_copy_idem (v : pyval) :
  Init.copy_or_np_copy (Init.copy_or_np_copy v) = Init.copy_or_np_copy v.
Proof.
  destruct v; try done. apply (np_copy_idem (PArray l)).
Qed.

Ltac settle_key k Hk :=
  unfold kept;
  repeat match goal with
    | |- context [<[?j := _]> _ !! k] =>
        destruct (decide (j = k)) as [<-|];
        [ repeat match goal with
            | H : context [(_ ∪ _) !! _] |- _ =>
                rewrite lookup_union_r in H by exact Hk
            end;
          try rewrite !lookup_union_r by exact Hk;
          simplify_map_eq; cbn in *; simplify_eq; cbn;
          rewrite ?copy_or_np_copy_idem, ?np_copy_idem
        | rewrite (lookup_insert_ne _ j k) by done ]
    end;
  try (by left).

Section update.
Context `{Runtime}.
Variables (mt : string) (a0 partial : gmap string pyval) (k : string).
Variables (old new : gmap string pyval) (r0 r1 : string).
Hypothesis Hk : partial !! k = None.

Lemma linear_update :
  Init.linear mt a0 = Ok (old, r0) →
  Init.linear mt (partial ∪ old) = Ok (new, r1) →
  kept (old !! k) (new !! k).
Proof.
  unfold Init.linear. intros H0 H1. res_inv. settle_key k Hk.
Qed.

Lemma pca_update :
  Init.pca mt a0 = Ok (old, r0) →
  Init.pca mt (partial ∪ old) = Ok (new, r1) →
  kept (old !! k) (new !! k).
Proof.
  unfold Init.pca. intros H0 H1. res_inv. settle_key k Hk.
Qed.

Lemma svd_update :
  Init.svd mt a0 = Ok (old, r0) →
  Init.svd mt (partial ∪ old) = Ok (new, r1) →
  kept (old !! k) (new !! k).
Proof.
  unfold Init.svd. intros H0 H1. res_inv. settle_key k Hk.
Qed.

Lemma normalizer_update :
  Init.normalizer mt a0 = Ok (old, r0) →
  Init.normalizer mt (partial ∪ old) = Ok (new, r1) →
  kept (old !! k) (new !! k).
Proof.
  unfold Init.normalizer. intros H0 H1. res_inv. settle_key k Hk.
Qed.

Lemma bisecting_kmeans_update :
  Init.bisecting_kmeans mt a0 = Ok (old, r0) →
  Init.bisecting_kmeans mt (partial ∪ old) = Ok (new, r1) →
  kept (old !! k) (new !! k).
Proof.
  unfold Init.bisecting_kmeans. intros H0 H1. res_inv. settle_key k Hk.
Qed.

Lemma one_hot_encoder_update :
  Init.one_hot_encoder mt a0 = Ok (old, r0) →
  Init.one_hot_encoder mt (partial ∪ old) = Ok (new, r1) →
  kept (old !! k) (new !! k).
Proof.
  unfold Init.one_hot_encoder. intros H0 H1. res_inv. settle_key k Hk.
  all: unfold copy_method in *; repeat case_match; simplify_eq; by left.
Qed.

Lemma flat_clusters_update :
  Init.flat_clusters mt a0 = Ok (old, r0) →
  Init.flat_clusters mt (partial ∪ old) = Ok (new, r1) →
  kept (old !! k) (new !! k).
Proof.
  unfold Init.flat_clusters. intros H0 H1. res_inv.
  all: settle_key k Hk.
  all: repeat case_match; simplify_eq; res_inv; cbn in *; simplify_eq;
    by left.
Qed.

Lemma binary_tree_update :
  Init.binary_tree mt a0 = Ok (old, r0) →
  Init.binary_tree mt (partial ∪ old) = Ok (new, r1) →
  kept (old !! k) (new !! k).
Proof.
  unfold Init.binary_tree. intros H0 H1. res_inv.
  all: settle_key k Hk.
  all: repeat case_match; simplify_eq; rewrite ?np_copy_idem;
    first [by left | by right].
Qed.

Lemma ensemble_update :
  Init.ensemble mt a0 = Ok (old, r0) →
  Init.ensemble mt (partial ∪ old) = Ok (new, r1) →
  kept (old !! k) (new !! k).
Proof.
  unfold Init.ensemble. intros H0 H1. res_inv.
  all: repeat match goal with x : Init.locals |- _ => destruct x end.
  all: res_inv.
  all: settle_key k Hk.
Qed.

Lemma init_locals_update :
  Init.init_locals mt a0 = Ok (old, r0) →
  Init.init_locals mt (partial ∪ old) = Ok (new, r1) →
  kept (old !! k) (new !! k).
Proof.
  unfold Init.init_locals. intros H0 H1.
  apply bind_Ok_inv in H0 as (_ & _ & H0).
  apply bind_Ok_inv in H1 as (_ & _ & H1).
  repeat match type of H0 with
    | (if ?b then _ else _) = _ => destruct b
    end;
    eauto using linear_update, pca_update, svd_update, normalizer_update,
      bisecting_kmeans_update, one_hot_encoder_update, flat_clusters_update,
      binary_tree_update, ensemble_update.
  done.
Qed.
End update.

Lemma kept_same_content (old new : option pyval) :
  kept old new → same_content new old.
Proof. by intros [-> | [-> ->]]. Qed.


Lemma init_outcome `{Runtime} (model_type : string)
  (attributes : gmap string pyval) (self : memModel) :
  Init.__init__ model_type attributes self =
    match Init.init_locals model_type attributes with
    | Ok l => (Ok tt, {| attributes_ := l.1; model_type_ := model_type;
                         represent_ := l.2 |})
    | Raise e => (Raise e, self)
    end.
Proof.
  unfold Init.__init__, locally, mbind, method_bind.
  by destruct (Init.init_locals model_type attributes).
Qed.

(** C4.  [set_attributes] runs the validation of the constructor on the
    stored attributes overwritten by the new ones.  When the validation
    passes, the object holds the validated attributes, and every key the
    update does not name keeps the value it had.  When the validation
    raises, [set_attributes] raises the same exception and the object is
    left exactly as it was. *)
Theorem set_attributes_revalidates `{Runtime} (model_type : string)
  (a0 partial : gmap string pyval) (self : memModel) :
  new_memModel model_type a0 = Ok self →
  match Init.init_locals (model_type_ self) (partial ∪ attributes_ self)
  with
  | Ok (a, r) =>
      set_attributes partial self =
        (Ok tt, {| attributes_ := a; model_type_ := model_type_ self;
                   represent_ := r |}) ∧
      ∀ k, partial !! k = None →
           same_content (a !! k) (attributes_ self !! k)
  | Raise e => set_attributes partial self = (Raise e, self)
  end.
Proof.
  unfold new_memModel, set_attributes. rewrite !init_outcome.
  destruct (Init.init_locals model_type a0) as [[old r0]|] eqn:H0; [|done].
  intros [= <-]. cbn.
  destruct (Init.init_locals model_type (partial ∪ old))
    as [[new r1]|] eqn:H1; [|done].
  split; [done|]. intros k Hk.
  apply kept_same_content. by eapply init_locals_update.
Qed.

(** Overwriting the intercept of a linear regression keeps its
    coefficients. *)
Lemma set_attributes_revalidates_witness :
  set_attributes (H := example_runtime) (<["intercept" := PInt 5]> ∅)
    linear_model =
    (Ok tt,
     {| attributes_ := <["intercept" := PInt 5]>
                       (<["coefficients" := PArray [PInt 2; PInt 3]]> ∅);
        model_type_ := "LinearRegression";
        represent_ := "<LinearRegression>" +:+ nl +:+ nl +:+
                      "coefficients = [2 3]" +:+ nl +:+ nl +:+
                      "intercept = 5" |}) ∧
  ∀ k, (<["intercept" := PInt 5]> ∅ : gmap string pyval) !! k = None →
       same_content
         ((<["intercept" := PInt 5]>
           (<["coefficients" := PArray [PInt 2; PInt 3]]> ∅)
           : gmap string pyval) !! k)
         (attributes_ linear_model !! k).
Proof.
  exact (set_attributes_revalidates (H := example_runtime)
           "LinearRegression" linear_attributes
           (<["intercept" := PInt 5]> ∅) linear_model eq_refl).
Defined.

(** An update that does not validate: [trees] replaced by a number.  The
    call raises and the forest is as before. *)
Lemma set_attributes_failure_example :
  set_attributes (H := example_runtime) (<["trees" := PInt 3]> ∅)
    empty_forest = (Raise TypeError, empty_forest).
Proof. reflexivity. Qed.

(** ** The random forest classifier *)


Lemma traverse_fmap {A B} (f : A → res B) (g : A → B) (l : list A) :
  Forall (λ x, f x = Ok (g x)) l → traverse f l = Ok (g <$> l).
Proof.
  induction 1 as [|x l Hx _ IH]; [done|].
  cbn. rewrite Hx. cbn. by rewrite IH.
Qed.

Lemma traverse_fmap_fmap {A B C} (f : B → res C) (h : A → B) (g : A → C)
  (l : list A) :
  Forall (λ x, f (h x) = Ok (g x)) l → traverse f (h <$> l) = Ok (g <$> l).
Proof.
  induction 1 as [|x l Hx _ IH]; [done|].
  cbn. rewrite Hx. cbn. by rewrite IH.
Qed.


Section counting.
Variables (n c : nat).
Hypothesis Hc : (0 < c)%nat.


Lemma votes_one S i k :
  votes [S] i k = if bool_decide (vote S i = Some k) then 1%nat else 0%nat.
Proof.
  unfold votes. rewrite filter_cons, filter_nil.
  case_bool_decide; by destruct (decide _).
Qed.




Lemma tally_lookup P i k :
  (i < n)%nat → (k < c)%nat →
  (tally n c P !! i ≫= (.!! k)) = Some (INR (votes P i k)).
Proof.
  intros Hi Hk. unfold tally.
  rewrite list_lookup_fmap, lookup_seq_lt by done. cbn -[votes].
  by rewrite list_lookup_fmap, lookup_seq_lt.
Qed.
End counting.


Section forest.
Context `{Runtime}.


End forest.



(** Two of the three leaves vote for class 1. *)
Lemma small_forest_votes :
  votes [[[1; 3]]; [[5; 2]]; [[0; 4]]]%R 0 1 = 2%nat.
Proof.
  assert (H1 : vote [[1; 3]]%R 0 = Some 1%nat)
    by (unfold vote; cbn; unfold Rltb; decide_reals; reflexivity).
  assert (H2 : vote [[5; 2]]%R 0 = Some 0%nat)
    by (unfold vote; cbn; unfold Rltb; decide_reals; reflexivity).
  assert (H3 : vote [[0; 4]]%R 0 = Some 1%nat)
    by (unfold vote; cbn; unfold Rltb; decide_reals; reflexivity).
  unfold votes.
  rewrite filter_cons_True by done.
  rewrite filter_cons_False by congruence.
  by rewrite filter_cons_True by done.
Qed.

(** ** Distances of the flat cluster models *)

(** C8 at [p = 1], one centroid [0] and the row [2].  The routine returns
    the signed sum [0 - 2 = -2]; the Minkowski distance of the specification is
    [|2 - 0| = 2]. *)
Theorem odd_exponent_distance_is_signed :
  predict_from_clusters (H := example_runtime) (PList [PList [PInt 2]])
    (PList [PList [PInt 0]]) true false (PList []) 1 =
    Ok (matrix_val [[-2]]%R) ∧
  minkowski 1 [2]%R [0]%R = 2%R.
Proof.
  split.
  - py_eval.
  - unfold minkowski. cbn.
    replace (Rabs (2 - 0) ^ Pos.to_nat 1 + 0)%R with 2%R
      by (rewrite Rabs_right by lra; change (Pos.to_nat 1) with 1%nat;
          rewrite pow_1; lra).
    replace (1 / 1)%R with 1%R by field.
    apply Rpower_1. lra.
Qed.

(** With the exponent 1 the signed sums also pick the wrong cluster: the
    row [2] is at distance 2 from the centroid [0] and 1 from the centroid
    [3], and is assigned to the centroid [0]. *)
Lemma odd_exponent_assignment :
  predict_from_clusters (H := example_runtime) (PList [PList [PInt 2]])
    (PList [PList [PInt 0]; PList [PInt 3]]) false false (PList []) 1 =
    Ok (PArray [PInt 0]).
Proof. py_eval. Qed.

(** Evaluation that leaves real powers folded. *)
Ltac real_eval :=
  lazy -[Rpower exp Rplus Rminus Rmult Ropp Rinv Rdiv IZR
         Rlt_dec Rle_dec Req_dec_T].

Lemma Rpower_base_1 (y : R) : Rpower 1 y = 1%R.
Proof. unfold Rpower. by rewrite ln_1, Rmult_0_r, exp_0. Qed.

Lemma Rpower_4_half : Rpower 4 (1 / 2) = 2%R.
Proof.
  replace (1 / 2)%R with (/ 2)%R by lra.
  rewrite Rpower_sqrt by lra.
  replace 4%R with (2 * 2)%R by lra.
  apply sqrt_square. lra.
Qed.

(** C3 on a tie.  The row [1] is at the same distance from the centroids
    [0] and [2].  The generated CASE expression evaluates to the cluster 1,
    the highest of the tied indices; the numeric [predict] gives the
    cluster 0, the lowest, which is what the specification states for the
    expression. *)
Theorem tie_goes_to_highest_index :
  (ClustersSql.sql_from_clusters_tree (H := example_runtime)
     (PList [PInt 1]) two_centroids false false (PList []) 2 ≫=
   λ t, Ok match t with
           | inr e => Sql.eval Sql.no_columns e
           | inl _ => None
           end) = Ok (Some (Sql.VNum 1)) ∧
  ClustersSql.sql_from_clusters (H := example_runtime)
    (PList [PInt 1]) two_centroids false false (PList []) 2 =
    Ok (PStr ("CASE WHEN 1 IS NULL THEN NULL WHEN " +:+
              "POWER(POWER(1 - 2, 2), 2) <= POWER(POWER(1 - 0, 2), 2) " +:+
              "THEN 1 ELSE 0 END")) ∧
  predict_from_clusters (H := example_runtime) (PList [PList [PInt 1]])
    two_centroids false false (PList []) 2 = Ok (PArray [PInt 0]).
Proof.
  split; [py_eval | split; [reflexivity|]].
  real_eval. decide_reals; [|reflexivity].
  exfalso.
  match goal with
  | H : (Rpower ?a _ < Rpower ?b _)%R |- _ =>
      replace a with 1%R in H by lra; replace b with 1%R in H by lra;
      rewrite !Rpower_base_1 in H; lra
  end.
Qed.

(** ** Numeric mode against expression mode *)

(** C1 on a KMeans model with the single centroid [0] and the row [2]:
    the numeric [transform] returns the distance [2]; the expression of
    [transform_sql] is [POWER(POWER(2 - 0, 2), 2)], which evaluates to
    16. *)
Theorem kmeans_distance_modes_differ :
  transform (H := example_runtime) kmeans_origin (PList [PList [PInt 2]]) =
    Ok (matrix_val [[2]]%R) ∧
  transform_sql (H := example_runtime) kmeans_origin (PList [PInt 2]) =
    Ok (PList [PStr "POWER(POWER(2 - 0, 2), 2)"]) ∧
  (ClustersSql.sql_from_clusters_tree (H := example_runtime)
     (PList [PInt 2]) (PArray [PArray [PInt 0]]) true false (PList []) 2 ≫=
   λ t, Ok match t with
           | inl l => Sql.eval Sql.no_columns <$> l
           | inr _ => []
           end) = Ok [Some (Sql.VNum 16)].
Proof.
  split; [|split; [reflexivity | py_eval]].
  assert (Ht : transform (H := example_runtime) kmeans_origin
                 (PList [PList [PInt 2]]) =
               predict_from_clusters (H := example_runtime)
                 (PList [PList [PInt 2]]) (PArray [PArray [PInt 0]])
                 true false (PList []) 2) by (vm_compute; reflexivity).
  rewrite Ht. real_eval. decide_reals.
  match goal with
  | |- context [Rpower ?a _] => replace a with 4%R by lra
  end.
  by rewrite Rpower_4_half.
Qed.

Lemma sigmoid_pos (z : R) : (0 < sigmoid z)%R.
Proof.
  unfold sigmoid. pose proof (exp_pos (- z)).
  apply Rdiv_lt_0_compat; lra.
Qed.

(** The boosted classifier of two stumps, on a row that goes left in both
    (leaf scores [10, 20] and [50, 60]).  The numeric mode adds the scores
    class by class, [10 + 50] and [20 + 60]. *)
Lemma boosted_pair_numeric :
  predict_proba_at (H := example_runtime) 1 boosted_pair
    (PList [PList [PInt 0]]) =
  Ok (matrix_val [[sigmoid 60 / (sigmoid 60 + sigmoid 80);
                   sigmoid 80 / (sigmoid 60 + sigmoid 80)]]%R).
Proof.
  assert (Ht : predict_proba_at (H := example_runtime) 1 boosted_pair
                 (PList [PList [PInt 0]]) =
               (let row := [sigmoid (0 + 1 * (10 + 50));
                            sigmoid (0 + 1 * (20 + 60))]%R in
                out ← traverse (λ x, np_div x (Rsum row)) row;
                Ok (matrix_val [out]))).
  { vm_compute. decide_reals; reflexivity. }
  rewrite Ht. clear Ht. cbn [traverse Rsum foldr].
  replace (0 + 1 * (10 + 50))%R with 60%R by lra.
  replace (0 + 1 * (20 + 60))%R with 80%R by lra.
  pose proof (sigmoid_pos 60). pose proof (sigmoid_pos 80).
  unfold np_div, Reqb.
  destruct (Req_dec_T _ _); [lra|].
  cbn. repeat f_equal; lra.
Qed.

(** The expression mode on the same model adds, for class [i], the
    expressions of all classes of tree [i]: class 0 is built from [A0] and
    [A1], the two classes of the first stump, and not from [A0] and
    [B0]. *)
Lemma boosted_pair_sql :
  let s0 := "(1 / (1 + EXP(- (0 + 1 * (" +:+ A0 +:+ " + " +:+ A1 +:+ ")))))" in
  let s1 := "(1 / (1 + EXP(- (0 + 1 * (" +:+ B0 +:+ " + " +:+ B1 +:+ ")))))" in
  predict_proba_sql_at (H := example_runtime) 1 boosted_pair
    (PList [PStr "x"]) =
  Ok (PList [PStr (s0 +:+ " / (" +:+ s0 +:+ " + " +:+ s1 +:+ ")");
             PStr (s1 +:+ " / (" +:+ s0 +:+ " + " +:+ s1 +:+ ")")]).
Proof. vm_compute. reflexivity. Qed.

(** The random forest generator, the sibling of the boosted one, takes
    class [i] from every tree: each class joins one expression of the
    first stump with one of the second. *)
Lemma forest_pair_sql :
  predict_proba_sql_at (H := example_runtime) 1 forest_pair
    (PList [PStr "x"]) =
  Ok (PList
        [PStr ("((CASE WHEN x < '5' THEN 1 ELSE 0 END) + " +:+
               "(CASE WHEN x < '5' THEN 0 ELSE 1 END)) / 2");
         PStr ("((CASE WHEN x < '5' THEN 0 ELSE 1 END) + " +:+
               "(CASE WHEN x < '5' THEN 1 ELSE 0 END)) / 2")]).
Proof. vm_compute. decide_reals; reflexivity. Qed.

(** ** The worked examples of the specification *)

(** Linear regression with coefficients [2, 3] and intercept 1 predicts 6
    on the row [1, 1]. *)
Lemma linear_regression_example :
  predict (H := example_runtime) linear_model
    (PList [PList [PInt 1; PInt 1]]) = Ok (PArray [PFloat 6]).
Proof. py_eval. Qed.

(** With the logistic link the same parameters give the probabilities
    [1 - sigmoid 6] and [sigmoid 6], and the class 1. *)
Lemma logistic_regression_example :
  predict_from_coef (H := example_runtime) (PList [PList [PInt 1; PInt 1]])
    (PList [PInt 2; PInt 3]) (PInt 1) "LogisticRegression" true =
    Ok (PArray [PArray [PFloat (1 - sigmoid 6); PFloat (sigmoid 6)]]) ∧
  predict_from_coef (H := example_runtime) (PList [PList [PInt 1; PInt 1]])
    (PList [PInt 2; PInt 3]) (PInt 1) "LogisticRegression" false =
    Ok (PArray [PInt 1]).
Proof.
  assert (E : (1 + (2 * 1 + (3 * 1 + 0)) = 6)%R) by lra.
  split.
  - lazy -[sigmoid Rplus Rminus Rmult IZR]. by rewrite E.
  - lazy -[sigmoid Rplus Rminus Rmult Rdiv IZR Rlt_dec]. rewrite E.
    destruct (Rlt_dec _ _) as [|Hn]; [reflexivity|].
    exfalso. apply Hn. unfold sigmoid.
    pose proof (exp_pos (Ropp 6)).
    assert (exp (Ropp 6) < 1)%R.
    { rewrite <- exp_0. apply exp_increasing. lra. }
    apply Rmult_lt_reg_r with (1 + exp (Ropp 6))%R; [lra|].
    replace (1 / (1 + exp (Ropp 6)) * (1 + exp (Ropp 6)))%R with 1%R
      by (field; lra).
    lra.
Qed.

(** KMeans with the centroids [0, 0] and [10, 10] assigns the row [1, 1]
    to the cluster 0. *)
Lemma kmeans_example :
  predict_from_clusters (H := example_runtime)
    (PList [PList [PInt 1; PInt 1]])
    (PList [PList [PInt 0; PInt 0]; PList [PInt 10; PInt 10]])
    false false (PList []) 2 = Ok (PArray [PInt 0]).
Proof.
  real_eval. decide_reals; [|reflexivity].
  exfalso.
  match goal with
  | H : (Rpower ?a ?y < Rpower ?b _)%R |- _ =>
      assert (b < a)%R by lra;
      assert (Rpower b y < Rpower a y)%R
        by (apply Rlt_Rpower_l; lra);
      lra
  end.
Qed.

(** The one-hot encoder with the categories [a, b, c], the first being
    dropped, turns the cell [b] into [1, 0]. *)
Lemma one_hot_example :
  OneHot.transform_from_one_hot_encoder (H := example_runtime)
    (PList [PList [PStr "a"; PStr "b"; PStr "c"]]) true
    (PList [PList [PStr "b"]]) = Ok (PArray [PArray [PInt 1; PInt 0]]) ∧
  sql_from_one_hot_encoder (H := example_runtime) (PList [PStr "x"])
    (PList [PList [PStr "a"; PStr "b"; PStr "c"]]) true PNone =
    Ok (PList [PList [PStr "(CASE WHEN x = 'b' THEN 1 ELSE 0 END)";
                      PStr "(CASE WHEN x = 'c' THEN 1 ELSE 0 END)"]]).
Proof. split; reflexivity. Qed.

(** The SQL generators of the transformations reject the widths that the
    numeric transformations accept. *)
Lemma sql_transforms_reject_mismatch :
  sql_from_pca (H := example_runtime) (PList [PStr "x"; PStr "y"])
    (PList [PList [PInt 1; PInt 0]; PList [PInt 0; PInt 1]])
    (PList [PInt 0]) = Raise AssertionError ∧
  sql_from_svd (H := example_runtime) (PList [PStr "x"])
    (PList [PList [PInt 1; PInt 0]; PList [PInt 0; PInt 1]])
    (PList [PInt 1; PInt 1]) = Raise AssertionError ∧
  sql_from_normalizer (H := example_runtime)
    (PList [PStr "x"; PStr "y"; PStr "z"])
    (PList [PList [PInt 0; PInt 1]]) (PStr "zscore") =
    Raise AssertionError ∧
  sql_from_one_hot_encoder (H := example_runtime) (PList [PStr "x"])
    (PList [PList [PStr "a"; PStr "b"]; PList [PStr "c"]]) false PNone =
    Raise AssertionError.
Proof. repeat split; reflexivity. Qed.

(** Three centroids, the last two at the same distance from the row: the
    expression gives the cluster 2, the numeric mode the cluster 1. *)
Lemma tie_of_two_among_three :
  (ClustersSql.sql_from_clusters_tree (H := example_runtime)
     (PList [PInt 1])
     (PList [PList [PInt 5]; PList [PInt 0]; PList [PInt 2]])
     false false (PList []) 2 ≫=
   λ t, Ok match t with
           | inr e => Sql.eval Sql.no_columns e
           | inl _ => None
           end) = Ok (Some (Sql.VNum 2)) ∧
  predict_from_clusters (H := example_runtime) (PList [PList [PInt 1]])
    (PList [PList [PInt 5]; PList [PInt 0]; PList [PInt 2]])
    false false (PList []) 2 = Ok (PArray [PInt 1]).
Proof.
  split; [py_eval|].
  real_eval. decide_reals; try reflexivity; exfalso.
  all: repeat match goal with
         | H : context [Rpower ?a _] |- _ =>
             lazymatch a with
             | 1%R => fail
             | 16%R => fail
             | _ => first [ replace a with 1%R in H by lra
                          | replace a with 16%R in H by lra ]
             end
         end.
  all: rewrite ?Rpower_base_1 in *.
  all: try lra.
  all: assert (Rpower 1 (1 / 2) < Rpower 16 (1 / 2))%R
         by (apply Rlt_Rpower_l; lra).
  all: rewrite Rpower_base_1 in *; lra.
Qed.

(** ** The tie-break of the hard assignment, in general *)

Import Sql.

Section tournament.
Variable env : string → option sqlval.

Lemma evals_Forall2 (l : list sql) (vs : list sqlval) :
  Forall2 (λ a v, eval env a = Some v) l vs → evals env l = Some vs.
Proof.
  induction 1 as [|a v l vs Ha _ IH]; [done|].
  cbn. rewrite Ha. cbn. unfold evals in IH. by rewrite IH.
Qed.

Lemma eval_SAnd (l : list sql) :
  eval env (SAnd l) =
    (vs ← evals env l; match vs with [] => None | _ => all3 vs end).
Proof. reflexivity. Qed.

Lemma eval_SOr (l : list sql) :
  eval env (SOr l) =
    (vs ← evals env l; match vs with [] => None | _ => any3 vs end).
Proof. reflexivity. Qed.

Lemma eval_SCase (paren : bool) (whens : list (sql * sql)) (els : sql) :
  eval env (SCase paren whens els) = case_go env els whens.
Proof. reflexivity. Qed.

Lemma all3_bools (bs : list bool) :
  all3 (VBool <$> bs) = Some (VBool (forallb (λ b, b) bs)).
Proof.
  induction bs as [|b bs IH]; [done|].
  cbn. rewrite IH. by destruct b, (forallb _ bs).
Qed.

Lemma any3_false (n : nat) :
  any3 (replicate n (VBool false)) = Some (VBool false).
Proof. induction n as [|n IH]; [done|]. cbn. by rewrite IH. Qed.

Lemma case_go_skip (els : sql) (ws1 ws2 : list (sql * sql)) :
  Forall (λ w, eval env w.1 = Some (VBool false)) ws1 →
  case_go env els (ws1 ++ ws2) = case_go env els ws2.
Proof.
  induction 1 as [|[c v] ws1 Hc _ IH]; [done|].
  cbn in *. by rewrite Hc.
Qed.
End tournament.

Lemma traverse_lookup_inv {A B} (f : A → res B) (l : list A) (r : list B)
  (i : nat) (y : B) :
  traverse f l = Ok r → r !! i = Some y → ∃ x, l !! i = Some x ∧ f x = Ok y.
Proof.
  revert r i. induction l as [|x l IH]; intros r i; cbn.
  - by intros [= <-].
  - intros H. apply bind_Ok_inv in H as (y0 & Hy0 & H).
    apply bind_Ok_inv in H as (ys & Hys & [= <-]).
    destruct i as [|i]; cbn.
    + intros [= <-]. by exists x.
    + intros Hi. by apply (IH ys).
Qed.

Lemma py_range_lookup (n : Z) (i : nat) (x : Z) :
  py_range n !! i = Some x → x = Z.of_nat i ∧ (i < Z.to_nat n)%nat.
Proof.
  unfold py_range. rewrite list_lookup_fmap.
  destruct (seq 0 (Z.to_nat n) !! i) as [k|] eqn:E; [|done].
  apply lookup_seq in E as [-> ?]. cbn. by intros [= <-].
Qed.

Lemma py_range_length (n : Z) : length (py_range n) = Z.to_nat n.
Proof. unfold py_range. by rewrite length_fmap, length_seq. Qed.

Lemma py_index_nat {A} (l : list A) (i : nat) (a : A) :
  py_index l (Z.of_nat i) = Ok a → l !! i = Some a.
Proof.
  unfold py_index. destruct (Z.ltb_spec (Z.of_nat i) 0); [lia|].
  destruct (_ && _); [|done]. rewrite Nat2Z.id.
  by destruct (l !! i); intros [= ->].
Qed.

Lemma tournament_lookup (ds : list sql) (j : nat) (dj : sql) :
  ds !! j = Some dj →
  ClustersSql.tournament ds !! j =
    Some (SAnd (map (λ dm, SLe dj dm) (take j ds))).
Proof.
  intros Hj. unfold ClustersSql.tournament.
  by rewrite list_lookup_imap, Hj.
Qed.

Lemma forallb_fmap {A} (f : A → bool) (l : list A) :
  forallb (λ b, b) (f <$> l) = forallb f l.
Proof. induction l as [|x l IH]; [done|]. cbn. by rewrite IH. Qed.

Section winner.
Variable env : string → option sqlval.
Variables (ds : list sql) (vs : list R).
Hypothesis Hvals : Forall2 (λ d v, eval env d = Some (VNum v)) ds vs.

Lemma eval_cond (j : nat) (dj : sql) (vj : R) :
  ds !! j = Some dj → vs !! j = Some vj → (0 < j)%nat →
  eval env (SAnd (map (λ dm, SLe dj dm) (take j ds))) =
    Some (VBool (forallb (λ vm, Rleb vj vm) (take j vs))).
Proof.
  intros Hd Hv Hj.
  assert (Hdj : eval env dj = Some (VNum vj)).
  { eapply Forall2_lookup_lr in Hvals; eauto. }
  rewrite eval_SAnd.
  rewrite (evals_Forall2 env _ (VBool <$> (Rleb vj <$> take j vs))).
  - cbn. rewrite all3_bools, forallb_fmap.
    destruct (take j vs) as [|v0 t] eqn:E; [|done].
    apply (f_equal length) in E. rewrite length_take in E.
    apply lookup_lt_Some in Hv. cbn in E. lia.
  - apply Forall2_fmap_l, Forall2_fmap_r, Forall2_fmap_r.
    apply Forall2_take.
    eapply Forall2_impl; [exact Hvals|].
    intros dm vm Hm. cbn. by rewrite Hdj, Hm.
Qed.
End winner.

Section highest.
Context `{Runtime}.
Variable env : string → option sqlval.

Lemma whens_entry (ds : list sql) (W : list (sql * sql)) (i : nat)
  (w : sql * sql) :
  traverse (λ i, cond ← py_index
                          (reverse (tail (ClustersSql.tournament ds))) i;
                 label ← Ok (SVal (PInt (Z.of_nat (length ds) - i - 1)));
                 Ok (cond, label))
           (py_range (Z.of_nat (length ds) - 1)) = Ok W →
  W !! i = Some w →
  ∃ j dj, (j = length ds - 1 - i)%nat ∧ (1 ≤ j)%nat ∧ ds !! j = Some dj ∧
          w = (SAnd (map (λ dm, SLe dj dm) (take j ds)),
               SVal (PInt (Z.of_nat j))).
Proof.
  intros HW Hi.
  destruct (traverse_lookup_inv _ _ _ _ _ HW Hi) as (x & Hx & Hf).
  apply py_range_lookup in Hx as [-> Hlt].
  res_inv. apply py_index_nat in E.
  assert (Hlen : length (tail (ClustersSql.tournament ds)) =
                 (length ds - 1)%nat).
  { assert (length (ClustersSql.tournament ds) = length ds)
      by apply length_imap.
    destruct (ClustersSql.tournament ds); cbn in *; lia. }
  rewrite reverse_lookup in E by lia.
  rewrite Hlen, lookup_tail in E.
  set (j := (length ds - 1 - i)%nat).
  replace (S (length ds - 1 - S i)) with j in E by lia.
  destruct (lookup_lt_is_Some_2 ds j) as [dj Hdj]; [lia|].
  rewrite (tournament_lookup ds j dj Hdj) in E. simplify_eq.
  exists j, dj. repeat split; [lia | done |].
  do 3 f_equal. lia.
Qed.

Lemma forallb_false_intro {A} (f : A → bool) (l : list A) (x : A) :
  x ∈ l → f x = false → forallb f l = false.
Proof.
  intros Hin Hx. induction l as [|y l IH]; [by apply elem_of_nil in Hin|].
  cbn. apply elem_of_cons in Hin as [<-|Hin].
  - by rewrite Hx.
  - rewrite IH by done. apply andb_false_r.
Qed.

Lemma forallb_true_intro {A} (f : A → bool) (l : list A) :
  (∀ x, x ∈ l → f x = true) → forallb f l = true.
Proof.
  intros Hall. induction l as [|y l IH]; [done|].
  cbn. rewrite Hall by (apply elem_of_cons; by left).
  apply IH. intros x Hx. apply Hall, elem_of_cons. by right.
Qed.

Lemma case_winner (ds : list sql) (vs : list R) (W : list (sql * sql))
  (j : nat) (vj : R) :
  Forall2 (λ d v, eval env d = Some (VNum v)) ds vs →
  traverse (λ i, cond ← py_index
                          (reverse (tail (ClustersSql.tournament ds))) i;
                 label ← Ok (SVal (PInt (Z.of_nat (length ds) - i - 1)));
                 Ok (cond, label))
           (py_range (Z.of_nat (length ds) - 1)) = Ok W →
  vs !! j = Some vj →
  (∀ m vm, vs !! m = Some vm → (vj <= vm)%R) →
  (∀ m vm, vs !! m = Some vm → (j < m)%nat → (vj < vm)%R) →
  case_go env (SVal (PInt 0)) W = Some (VNum (IZR (Z.of_nat j))).
Proof.
  intros Hvals HW Hj Hmin Hlast.
  assert (Hlen : length vs = length ds) by (symmetry; by eapply Forall2_length).
  assert (HlenW : length W = (length ds - 1)%nat).
  { apply traverse_length in HW. rewrite py_range_length in HW. lia. }
  assert (Hjlt : (j < length ds)%nat)
    by (apply lookup_lt_Some in Hj; lia).
  set (i0 := (length ds - 1 - j)%nat).
  rewrite <- (take_drop i0 W).
  rewrite case_go_skip.
  - destruct (decide (j = 0%nat)) as [->|Hj0].
    + rewrite drop_ge by lia. done.
    + destruct (lookup_lt_is_Some_2 W i0) as [w Hw]; [lia|].
      rewrite (drop_S _ _ _ Hw).
      destruct (whens_entry ds W i0 w HW Hw) as (j' & dj & -> & _ & Hdj & ->).
      replace (length ds - 1 - i0)%nat with j in * by lia.
      cbn [case_go]. rewrite (eval_cond env ds vs Hvals j dj vj) by (done || lia).
      rewrite forallb_true_intro.
      * done.
      * intros vm Hvm. apply list_elem_of_lookup in Hvm as [m Hm].
        apply lookup_take_Some in Hm as [Hm _].
        unfold Rleb. destruct (Rle_dec vj vm) as [|Hn]; [done|].
        exfalso. apply Hn. by eapply Hmin.
  - apply Forall_forall. intros w Hw.
    apply list_elem_of_lookup in Hw as [i Hi].
    apply lookup_take_Some in Hi as [Hi Hlt].
    destruct (whens_entry ds W i w HW Hi) as (j' & dj' & -> & _ & Hdj' & ->).
    cbn [fst].
    assert (Hi' : (i < length ds - 1)%nat)
      by (apply lookup_lt_Some in Hi; lia).
    destruct (lookup_lt_is_Some_2 vs (length ds - 1 - i)) as [vj' Hvj'];
      [lia|].
    rewrite (eval_cond env ds vs Hvals _ dj' vj') by (done || lia).
    rewrite (forallb_false_intro _ _ vj); [done| |].
    + apply list_elem_of_lookup. exists j.
      apply lookup_take_Some. split; [done | lia].
    + unfold Rleb. destruct (Rle_dec vj' vj) as [Hle|]; [|done].
      exfalso. assert (vj < vj')%R by (eapply Hlast; [done | lia]). lra.
Qed.
End highest.

Section top.
Context `{Runtime}.
Variable env : string → option sqlval.

Lemma null_check_false (xs : list pyval) :
  xs ≠ [] →
  Forall (λ x, ∃ r, eval env (SVal x) = Some (VNum r)) xs →
  eval env (SOr (map (λ elem, SIsNull (SVal elem)) xs)) =
    Some (VBool false).
Proof.
  intros Hne Hxs. rewrite eval_SOr.
  rewrite (evals_Forall2 env _ (replicate (length xs) (VBool false))).
  - cbn. destruct xs; [done|]. apply (any3_false (S _)).
  - clear Hne. induction Hxs as [|x xs [r Hx] _ IH]; [constructor|].
    cbn [map length replicate]. constructor; [|exact IH].
    cbn in *. by rewrite Hx.
Qed.

(** X3. The hard assignment of [sql_from_clusters] in general, without
    classes and on inputs that are not NULL: when the distance expressions
    evaluate to the numbers [vs], the generated CASE evaluates to the
    index [j] of the last minimum of [vs], that is, to the highest of the
    tied indices. *)
Theorem highest_tied_index_wins (X clusters : pyval) (p : Z) (e : sql)
  (xs cs : list pyval) (ds : list sql) (vs : list R) (j : nat) (vj : R) :
  ClustersSql.sql_from_clusters_tree X clusters false false (PList []) p =
    Ok (inr e) →
  items X = Ok xs → xs ≠ [] →
  Forall (λ x, ∃ r, eval env (SVal x) = Some (VNum r)) xs →
  items clusters = Ok cs →
  traverse (λ c, ClustersSql.cluster_distance X c p) cs = Ok ds →
  Forall2 (λ d v, eval env d = Some (VNum v)) ds vs →
  vs !! j = Some vj →
  (∀ m vm, vs !! m = Some vm → (vj <= vm)%R) →
  (∀ m vm, vs !! m = Some vm → (j < m)%nat → (vj < vm)%R) →
  eval env e = Some (VNum (IZR (Z.of_nat j))).
Proof.
  intros He HX Hne Hxs Hcs Hds Hvals Hj Hmin Hlast.
  unfold ClustersSql.sql_from_clusters_tree in He.
  apply bind_Ok_inv in He as (_ & _ & He).
  rewrite Hcs, bind_Ok in He.
  apply bind_Ok_inv in He as (lx & _ & He).
  apply bind_Ok_inv in He as (_ & _ & He).
  apply bind_Ok_inv in He as (_ & _ & He).
  apply bind_Ok_inv in He as (ncl & [= <-] & He).
  apply bind_Ok_inv in He as (classes_tmp & [= <-] & He).
  rewrite Hds, bind_Ok, HX, bind_Ok in He.
  apply bind_Ok_inv in He as (no_classes & [= <-] & He).
  apply bind_Ok_inv in He as (W & HW & He).
  injection He as <-.
  rewrite eval_SCase. cbn [case_go].
  rewrite null_check_false by done. cbn [mbind option_bind].
  by eapply (case_winner env ds vs W j vj).
Qed.
End top.

(** The general statement on the tie of [tie_goes_to_highest_index]: both
    distances are 1 and the last index, 1, is the value. *)
Lemma highest_tied_index_wins_example :
  (ClustersSql.sql_from_clusters_tree (H := example_runtime)
     (PList [PInt 1]) two_centroids false false (PList []) 2 ≫=
   λ t, Ok match t with
           | inr e => Sql.eval Sql.no_columns e
           | inl _ => None
           end) = Ok (Some (Sql.VNum (IZR (Z.of_nat 1)))).
Proof.
  destruct (ClustersSql.sql_from_clusters_tree (H := example_runtime)
              (PList [PInt 1]) two_centroids false false (PList []) 2)
    as [[l|e]|err] eqn:He; [vm_compute in He; discriminate | |
                            vm_compute in He; discriminate].
  cbn. f_equal.
  eapply (highest_tied_index_wins (H := example_runtime) Sql.no_columns
            _ _ _ e _ _ _ [1; 1]%R 1 1%R He).
  - reflexivity.
  - discriminate.
  - repeat constructor. by exists 1%R.
  - reflexivity.
  - vm_compute. reflexivity.
  - repeat constructor; py_eval.
  - reflexivity.
  - intros [|[|m]] vm; cbn; intros; simplify_eq; lra.
  - intros [|[|m]] vm; cbn; intros; simplify_eq; lia.
Defined.

(** ** Construction: what a model holds *)

Lemma init_locals_handled `{Runtime} (mt : string) (a : gmap string pyval) l :
  Init.init_locals mt a = Ok l → mt ∈ handled_types.
Proof.
  unfold Init.init_locals. intros H0.
  apply bind_Ok_inv in H0 as (_ & _ & H0).
  repeat match type of H0 with
    | (if ?b then _ else _) = _ =>
        let E := fresh "E" in destruct b eqn:E;
        [ first [ apply one_of_cases in E
                | apply bool_decide_eq_true_1 in E; subst ];
          clear H0 | ]
    end; try done.
  all: repeat match goal with
         | E : _ ∈ _ :: _ |- _ => apply elem_of_cons in E as [-> | E]
         | E : _ ∈ [] |- _ => by apply elem_of_nil in E
         end.
  all: in_list.
Qed.

Lemma stored_keys_spec `{Runtime} (mt : string) (a : gmap string pyval) l :
  Init.init_locals mt a = Ok l → 
  ∀ k, is_Some (l.1 !! k) ↔ k ∈ stored_keys mt.
Proof.
  intros H0. pose proof (init_locals_handled _ _ _ H0) as Hmt.
  unfold handled_types in Hmt.
  repeat (apply elem_of_cons in Hmt as [-> | Hmt]); [..| by apply elem_of_nil in Hmt].
  all: unfold Init.init_locals in H0; apply bind_Ok_inv in H0 as (_ & _ & H0).
  all: cbn in H0.
  all: unfold Init.ensemble, Init.binary_tree, Init.one_hot_encoder, Init.linear, Init.bisecting_kmeans, Init.flat_clusters, Init.pca, Init.svd, Init.normalizer in H0.
  all: cbn in H0.
  all: res_inv.
  all: cbn.
  all: intros k.
  all: match goal with
       | |- context [stored_keys ?s] =>
           let r := eval vm_compute in (stored_keys s) in
           change (stored_keys s) with r
       end.
  all: rewrite !lookup_insert_is_Some', lookup_empty, !elem_of_cons,
         elem_of_nil.
  all: split;
         [ intros Hs;
           repeat (destruct Hs as [Hs|Hs]; [subst; auto 10|]);
           by destruct (is_Some_None Hs)
         | intros Hk;
           repeat (destruct Hk as [Hk|Hk]; [subst; auto 10|]); done ].
Qed.

(** X4. What a constructed model holds.  When [memModel(model_type,
    attributes)] succeeds, [model_type_] is the given model type, the type
    is one of the seventeen for which [__init__] has a branch (so never
    ["NaiveBayes"]), and the keys of [attributes_] are exactly the keys
    that branch writes: keys of [attributes] that the branch does not read
    are not stored. *)
Theorem constructed_model_shape `{Runtime} (model_type : string)
  (attributes : gmap string pyval) (self : memModel) :
  new_memModel model_type attributes = Ok self →
  model_type_ self = model_type ∧
  model_type ∈ handled_types ∧
  ∀ key, is_Some (attributes_ self !! key) ↔ key ∈ stored_keys model_type.
Proof.
  unfold new_memModel. rewrite init_outcome.
  destruct (Init.init_locals model_type attributes) as [l|] eqn:E; [|done].
  intros [= <-]. cbn. split; [done|]. split.
  - by eapply init_locals_handled.
  - by eapply stored_keys_spec.
Qed.

Lemma constructed_model_shape_witness :
  model_type_ linear_model = "LinearRegression" ∧
  "LinearRegression" ∈ handled_types ∧
  ∀ key, is_Some (attributes_ linear_model !! key) ↔
         key ∈ stored_keys "LinearRegression".
Proof.
  exact (constructed_model_shape (H := example_runtime) "LinearRegression"
           linear_attributes linear_model eq_refl).
Defined.

Lemma traverse_first_error {A B} (f : A → res B) (l : list A) (e : exn) (x : A) :
  (∀ y e', y ∈ l → f y = Raise e' → e' = e) →
  x ∈ l → f x = Raise e → traverse f l = Raise e.
Proof.
  intros Hall Hin Hx. induction l as [|y l IH]; [by apply elem_of_nil in Hin|].
  cbn. destruct (f y) as [b|e'] eqn:Ey.
  - cbn. apply elem_of_cons in Hin as [->|Hin]; [congruence|].
    rewrite IH; [done| |done].
    intros z e'' Hz. apply Hall. apply elem_of_cons. by right.
  - cbn. f_equal. apply (Hall y); [apply elem_of_cons; by left | done].
Qed.

(** X5. The members of an ensemble are checked.  For the four ensemble
    types, when the argument check passes and [attributes["trees"]] holds
    a value that is not a [memModel] of the member type
    (BinaryTreeClassifier for the classifiers, BinaryTreeRegressor for the
    regressors), the constructor fails with an [AssertionError]. *)
Theorem ensemble_rejects_foreign_tree `{Runtime} (model_type : string)
  (attributes : gmap string pyval) (trees tree : pyval) (ts : list pyval) :
  model_type ∈ ["RandomForestRegressor"; "XGBoostRegressor";
                "RandomForestClassifier"; "XGBoostClassifier"] →
  check [DictOfType "attributes" attributes [Tdict];
         OneOf "model_type" (PStr model_type) model_types] = Ok tt →
  attributes !! "trees" = Some trees →
  py_iter trees = Ok ts →
  tree ∈ ts →
  (∀ a r, tree ≠ PModel (member_type model_type) a r) →
  new_memModel model_type attributes = Raise AssertionError.
Proof.
  intros Hmt Hcheck Htrees Hts Hin Hforeign.
  unfold new_memModel. rewrite init_outcome.
  assert (E : Init.init_locals model_type attributes = Raise AssertionError);
    [|by rewrite E].
  unfold Init.init_locals. rewrite Hcheck, bind_Ok.
  assert (Hone : one_of model_type
            ["RandomForestRegressor"; "XGBoostRegressor";
             "RandomForestClassifier"; "XGBoostClassifier"] = true)
    by (by apply bool_decide_eq_true_2).
  rewrite Hone. unfold Init.ensemble, required, lookup_key.
  cbn [forallb]. rewrite Htrees.
  rewrite (bool_decide_eq_true_2 (is_Some (Some trees)))
    by (eexists; reflexivity).
  cbn [andb]. rewrite !bind_Ok, Hts, bind_Ok.
  rewrite (traverse_first_error _ ts AssertionError tree); [done | | done |].
  - intros y e' _. destruct y; try by intros [= <-].
    unfold py_assert. intros He. repeat case_match; by simplify_eq.
  - destruct tree as [| | | | | | |tt aa rr]; try done.
    unfold member_type in Hforeign. unfold py_assert.
    destruct (one_of model_type ["RandomForestClassifier"; "XGBoostClassifier"]).
    + destruct (one_of tt ["BinaryTreeClassifier"]) eqn:Ett; [|done].
      apply one_of_cases in Ett. apply list_elem_of_singleton in Ett as ->.
      by destruct (Hforeign aa rr).
    + destruct (one_of tt ["BinaryTreeRegressor"]) eqn:Ett; [|done].
      apply one_of_cases in Ett. apply list_elem_of_singleton in Ett as ->.
      by destruct (Hforeign aa rr).
Qed.

Lemma ensemble_rejects_foreign_tree_witness :
  new_memModel (H := example_runtime) "RandomForestRegressor"
    (<["trees" := PList [to_val (leaf_classifier (PInt 1))]]> ∅) =
  Raise AssertionError.
Proof.
  apply (ensemble_rejects_foreign_tree (H := example_runtime)
           "RandomForestRegressor"
           (<["trees" := PList [to_val (leaf_classifier (PInt 1))]]> ∅)
           (PList [to_val (leaf_classifier (PInt 1))])
           (to_val (leaf_classifier (PInt 1)))
           [to_val (leaf_classifier (PInt 1))]).
  - in_list.
  - reflexivity.
  - reflexivity.
  - reflexivity.
  - apply list_elem_of_singleton. reflexivity.
  - intros a r. discriminate.
Defined.

(** ** The nearest cluster *)

Lemma argmin_from_spec (pre l : list R) (best : R) (besti : nat) :
  pre !! besti = Some best →
  (∀ j y, pre !! j = Some y → (best <= y)%R ∧ ((j < besti)%nat → (best < y)%R)) →
  first_min_at (pre ++ l) (argmin_from best besti (length pre) l).
Proof.
  revert pre best besti. induction l as [|x l IH]; intros pre best besti Hb Hmin.
  - cbn. rewrite app_nil_r. by exists best.
  - cbn [argmin_from]. unfold Rltb.
    replace (pre ++ x :: l)%list with ((pre ++ [x]) ++ l)%list by (by rewrite <- app_assoc).
    replace (S (length pre)) with (length (pre ++ [x])%list)
      by (rewrite length_app; cbn; lia).
    assert (Hlt : (besti < length pre)%nat) by (by eapply lookup_lt_Some).
    destruct (Rlt_dec x best) as [Hx|Hx].
    + replace (length pre) with (length pre + 0)%nat at 1 by lia.
      rewrite length_app. cbn [length].
      replace (length pre + 1)%nat with (length (pre ++ [x])%list)
        by (rewrite length_app; cbn; lia).
      apply IH.
      * rewrite lookup_app_r by lia. by replace (_ - _)%nat with 0%nat by lia.
      * intros j y Hj. apply lookup_app_Some in Hj as [Hj|[Hge Hj]].
        -- destruct (Hmin j y Hj). split; [lra|]. intros _. lra.
        -- apply list_lookup_singleton_Some in Hj as [_ ->].
           split; [lra|]. lia.
    + apply IH.
      * by apply lookup_app_l_Some.
      * intros j y Hj. apply lookup_app_Some in Hj as [Hj|[Hge Hj]].
        -- by apply Hmin.
        -- apply list_lookup_singleton_Some in Hj as [_ ->].
           split; [lra|]. lia.
Qed.

Lemma argmin_spec (row : list R) (k : nat) :
  argmin row = Ok k → first_min_at row k.
Proof.
  destruct row as [|x t]; [done|]. cbn. intros [= <-].
  apply (argmin_from_spec [x] t x 0); [done|].
  intros [|j] y; cbn; [|done]. intros [= <-]. split; [lra | lia].
Qed.


Lemma traverse_Forall2 {A B} (f : A → res B) (l : list A) (r : list B) :
  traverse f l = Ok r → Forall2 (λ x y, f x = Ok y) l r.
Proof.
  revert r. induction l as [|x l IH]; intros r; cbn.
  - intros [= <-]. constructor.
  - intros H. apply bind_Ok_inv in H as (y & Hy & H).
    apply bind_Ok_inv in H as (ys & Hys & [= <-]).
    constructor; [done | by apply IH].
Qed.

Lemma fmap_PFloat_inj (a b : list R) : PFloat <$> a = PFloat <$> b → a = b.
Proof.
  revert b. induction a as [|x a IH]; intros [|y b]; cbn; try done.
  intros [= -> E]. f_equal. by apply IH.
Qed.

Lemma matrix_val_inj (A B : list (list R)) :
  matrix_val A = matrix_val B → A = B.
Proof.
  unfold matrix_val. intros [= E]. revert B E.
  induction A as [|a A IH]; intros [|b B]; cbn; try done.
  intros [= Eab E]. f_equal; [by apply fmap_PFloat_inj | by apply IH].
Qed.

(** X6. The hard assignment of [predict_from_clusters] against its
    distances: the cluster returned for a row, without classes, is the
    index of the first minimum of the row of distances that the same call
    returns with [return_distance_clusters] (both calls returning, that
    is, with finite distances). *)
Theorem hard_assignment_is_nearest `{Runtime} (X clusters : pyval) (p : Z)
  (D : list (list R)) (idx : list pyval) :
  predict_from_clusters X clusters true false (PList []) p =
    Ok (matrix_val D) →
  predict_from_clusters X clusters false false (PList []) p =
    Ok (PArray idx) →
  Forall2 (λ row i, ∃ k, i = PInt (Z.of_nat k) ∧ first_min_at row k) D idx.
Proof.
  unfold predict_from_clusters. intros HD Hidx.
  apply bind_Ok_inv in HD as (_ & _ & HD).
  apply bind_Ok_inv in Hidx as (_ & _ & Hidx).
  cbn [negb orb py_assert] in HD, Hidx. rewrite bind_Ok in HD, Hidx.
  apply bind_Ok_inv in HD as (centroids & Ec & HD).
  rewrite Ec, bind_Ok in Hidx.
  apply bind_Ok_inv in HD as (M & EM & HD).
  rewrite EM, bind_Ok in Hidx.
  apply bind_Ok_inv in HD as (cols & Ecols & HD).
  rewrite Ecols, bind_Ok in Hidx.
  apply bind_Ok_inv in HD as (result & Er & HD).
  rewrite Er, bind_Ok in Hidx.
  assert (HD' : matrix_val result = matrix_val D) by congruence.
  apply matrix_val_inj in HD' as ->. clear HD.
  apply bind_Ok_inv in Hidx as (ks & Eks & Hidx).
  cbn in Hidx. injection Hidx as <-.
  apply traverse_Forall2 in Eks.
  apply Forall2_fmap_r.
  eapply Forall2_impl; [exact Eks|].
  intros row k Hk. cbn. exists k. split; [done | by apply argmin_spec].
Qed.

Lemma hard_assignment_is_nearest_witness :
  Forall2 (λ row i, ∃ k, i = PInt (Z.of_nat k) ∧ first_min_at row k)
          [[Rpower 4 (1 / 2); Rpower 1 (1 / 2)]]%R [PInt 1].
Proof.
  apply (hard_assignment_is_nearest (H := example_runtime)
           (PList [PList [PInt 2]]) (PList [PList [PInt 0]; PList [PInt 3]]) 2).
  - real_eval. decide_reals. do 2 f_equal.
    repeat (f_equal; try lra).
  - real_eval.
    assert (Rpower 1 (1 / 2) < Rpower 4 (1 / 2))%R
      by (apply Rlt_Rpower_l; lra).
    decide_reals; try reflexivity; exfalso.
    all: repeat match goal with
         | H : context [Rpower ?a _] |- _ =>
             lazymatch a with
             | 1%R => fail
             | 4%R => fail
             | _ => first [ replace a with 1%R in H by lra
                          | replace a with 4%R in H by lra ]
             end
         end; lra.
Defined.

Lemma column_stack_rows_nonempty (L rows : list (list R)) :
  column_stack L = Ok rows → Forall (λ r, r ≠ []) rows.
Proof.
  destruct L as [|c L]; [done|]. cbn. intros [= <-].
  apply Forall_forall. intros r Hr.
  apply list_elem_of_fmap in Hr as (i & -> & Hi).
  apply elem_of_seq in Hi. cbn.
  destruct (lookup_lt_is_Some_2 c i) as [y Hy]; [lia|].
  by rewrite Hy.
Qed.

Lemma Rsum_div (l : list R) (s : R) :
  Rsum (map (λ x, x / s)%R l) = (Rsum l / s)%R.
Proof.
  induction l as [|x l IH]; cbn; [lra|]. unfold Rsum in IH. rewrite IH. lra.
Qed.

(** Dividing a row by its sum, as [result / np.sum(result)] does. *)
Lemma normalise_row (row out : list R) :
  traverse (λ x, np_div x (Rsum row)) row = Ok out → row ≠ [] →
  Rsum row ≠ 0%R ∧ out = map (λ x, x / Rsum row)%R row ∧ Rsum out = 1%R.
Proof.
  intros Hout Hne.
  assert (Hs : Rsum row ≠ 0%R).
  { destruct row as [|x row]; [done|]. cbn in Hout.
    apply bind_Ok_inv in Hout as (y & Hy & _). unfold np_div, Reqb in Hy.
    by destruct (Req_dec_T _ _). }
  assert (Hmap : out = map (λ x, x / Rsum row)%R row).
  { rewrite (traverse_fmap _ (λ x, x / Rsum row)%R) in Hout;
      [by injection Hout as <-|].
    apply Forall_forall. intros x _. unfold np_div, Reqb.
    by destruct (Req_dec_T _ _). }
  repeat split; [done..|]. rewrite Hmap, Rsum_div. by field.
Qed.

Lemma traverse_Forall {A B} (f : A → res B) (P : B → Prop) (l : list A)
  (r : list B) :
  traverse f l = Ok r → (∀ x y, x ∈ l → f x = Ok y → P y) → Forall P r.
Proof.
  intros Hr HP. apply traverse_Forall2 in Hr.
  induction Hr as [|x y l r Hxy _ IH]; constructor.
  - eapply HP; [apply elem_of_cons; by left | done].
  - apply IH. intros x' y' Hx'. apply HP. apply elem_of_cons. by right.
Qed.

(** X7. With [return_proba], every value that [predict_from_clusters]
    returns is a matrix each of whose rows sums to 1 (over the reals; a
    computation that leaves the finite numbers returns no value here). *)
Theorem cluster_probabilities_sum_to_one `{Runtime} (X clusters classes : pyval)
  (p : Z) (v : pyval) :
  predict_from_clusters X clusters false true classes p = Ok v →
  ∃ P, v = matrix_val P ∧ Forall (λ row, Rsum row = 1%R) P.
Proof.
  unfold predict_from_clusters. intros Hv.
  apply bind_Ok_inv in Hv as (_ & _ & Hv).
  cbn [negb orb py_assert] in Hv. rewrite bind_Ok in Hv.
  apply bind_Ok_inv in Hv as (centroids & _ & Hv).
  apply bind_Ok_inv in Hv as (M & _ & Hv).
  apply bind_Ok_inv in Hv as (cols & _ & Hv).
  apply bind_Ok_inv in Hv as (result & Er & Hv).
  apply bind_Ok_inv in Hv as (W & EW & Hv).
  apply bind_Ok_inv in Hv as (out & Eout & [= <-]).
  exists out. split; [done|].
  apply column_stack_rows_nonempty in Er.
  assert (HW : Forall (λ r, r ≠ []) W).
  { apply traverse_Forall2 in EW.
    clear -EW Er. induction EW as [|r w result W Hw _ IH]; [constructor|].
    apply Forall_cons in Er as [Hr Er]. constructor; [|by apply IH].
    apply traverse_length in Hw. destruct w; [|done].
    by destruct r. }
  eapply traverse_Forall; [exact Eout|].
  intros w o Hw Ho. cbn in Ho.
  apply normalise_row in Ho as (_ & _ & Ho); [done|].
  by eapply Forall_forall in HW.
Qed.

Lemma eps_pos : (0 < eps)%R.
Proof. unfold eps. apply Rinv_0_lt_compat, pow_lt. lra. Qed.

Lemma cluster_probabilities_sum_to_one_witness :
  ∃ v P, predict_from_clusters (H := example_runtime)
           (PList [PList [PInt 0]]) (PList [PList [PInt 1]; PList [PInt 2]])
           false true (PList []) 1 = Ok v ∧
         v = matrix_val P ∧ Forall (λ row, Rsum row = 1%R) P.
Proof.
  assert (Hv : ∃ v, predict_from_clusters (H := example_runtime)
           (PList [PList [PInt 0]]) (PList [PList [PInt 1]; PList [PInt 2]])
           false true (PList []) 1 = Ok v).
  { pose proof eps_pos. eexists.
    lazy -[eps Rplus Rminus Rmult Ropp Rinv Rdiv IZR Rlt_dec Rle_dec
           Req_dec_T].
    decide_reals; first
      [ reflexivity
      | exfalso;
        match goal with
        | e : (?a + (?b + 0))%R = 0%R |- _ =>
            assert (0 < a)%R by (apply Rdiv_lt_0_compat; lra);
            assert (0 < b)%R by (apply Rdiv_lt_0_compat; lra); lra
        end ]. }
  destruct Hv as [v Hv]. exists v.
  destruct (cluster_probabilities_sum_to_one (H := example_runtime)
              _ _ _ _ _ Hv) as (P & HP & Hsum).
  by exists P.
Defined.

(** ** The decision of the logistic models *)




(** ** Trees answer with their leaves *)

Lemma py_eq_None (v : pyval) : py_eq v PNone = true → v = PNone.
Proof. destruct v; cbn; try done. all: by repeat case_match. Qed.

Section bisecting_facts.
Context `{Runtime}.
Variables (p : Z) (right_child left_child : pyval).

Lemma bisecting_predict_tree_leaf (d : nat) (row : list R) (node_id : Z)
  (centroids : list (list R)) (v : pyval) :
  Bisecting.predict_tree p d right_child left_child row node_id centroids =
    Ok v →
  ∃ k, v = PInt k ∧ is_leaf right_child left_child k.
Proof.
  revert node_id. induction d as [|d IH]; intros node_id; cbn.
  all: intros Hv.
  all: apply bind_Ok_inv in Hv as (l & El & Hv).
  all: apply bind_Ok_inv in Hv as (r & Er & Hv).
  all: destruct (py_eq l r && py_eq r PNone) eqn:Eleaf.
  all: try (apply andb_true_iff in Eleaf as [Elr Ern];
            apply py_eq_None in Ern as ->; 
            injection Hv as <-; exists node_id; split; [done|]; split; [|done];
            destruct l; cbn in Elr; try done; by repeat case_match).
  all: apply bind_Ok_inv in Hv as (rn & _ & Hv).
  all: apply bind_Ok_inv in Hv as (ln & _ & Hv).
  all: apply bind_Ok_inv in Hv as (a & _ & Hv).
  all: apply bind_Ok_inv in Hv as (b & _ & Hv).
  - done.
  - destruct (Rltb a b); by eapply IH.
Qed.

(** X9. Every cluster that [predict_from_bisecting_kmeans] returns is a
    leaf of the tree: a node whose left and right child are both
    [None]. *)
Theorem bisecting_predicts_leaves (X clusters : pyval) (v : pyval) :
  Bisecting.predict_from_bisecting_kmeans p X clusters left_child right_child
    = Ok v →
  ∃ out, v = PArray out ∧ Forall (λ o, ∃ k, o = PInt k ∧ is_leaf right_child left_child k) out.
Proof.
  unfold Bisecting.predict_from_bisecting_kmeans. intros Hv.
  apply bind_Ok_inv in Hv as (_ & _ & Hv).
  apply bind_Ok_inv in Hv as (centroids & _ & Hv).
  apply bind_Ok_inv in Hv as (M & _ & Hv).
  apply bind_Ok_inv in Hv as (out & Eout & [= <-]).
  exists out. split; [done|].
  eapply traverse_Forall; [exact Eout|].
  intros row o _ Ho. cbn in *. by eapply bisecting_predict_tree_leaf.
Qed.
End bisecting_facts.

Section binary_tree_leaf.
Context `{Runtime}.
Variables (children_left children_right feature threshold value : pyval).
Variables (classes : pyval) (return_proba is_regressor : bool).


End binary_tree_leaf.

Section bisecting_modes.
Context `{Runtime}.
Variables (p : Z) (right_child left_child : pyval).
Variables (clusters_distance : list string) (centroids : list (list R)).
Variables (row : list R) (v : string → option R).

(** X11. The tree of CASE expressions that [sql_from_bisecting_kmeans]
    builds selects the cluster that [predict_from_bisecting_kmeans]
    predicts: on a row where the distance expressions are ordered as the
    numeric costs are, the expression built from a node evaluates to the
    leaf that the numeric descent from that node returns. *)
Theorem bisecting_sql_mirrors_predict (d d' : nat) (node_id k : Z)
  (t : BisectingSql.tree) :
  orders_alike p clusters_distance centroids row v →
  BisectingSql.predict_tree d right_child left_child node_id
    clusters_distance = Ok t →
  Bisecting.predict_tree p d' right_child left_child row node_id centroids =
    Ok (PInt k) →
  BisectingSql.eval v t = Some k.
Proof.
  intros Hv. revert d' node_id t.
  induction d as [|d IH]; intros d' node_id t; cbn.
  all: intros Ht Hk.
  all: apply bind_Ok_inv in Ht as (l & El & Ht).
  all: apply bind_Ok_inv in Ht as (r & Er & Ht).
  all: destruct d' as [|d']; cbn in Hk; rewrite El, Er in Hk; cbn in Hk.
  all: destruct (py_eq l r && py_eq r PNone) eqn:Eleaf.
  all: try (injection Ht as <-; by injection Hk as <-).
  all: apply bind_Ok_inv in Ht as (rn & Ern & Ht).
  all: apply bind_Ok_inv in Ht as (ln & Eln & Ht).
  all: apply bind_Ok_inv in Ht as (dl & Edl & Ht).
  all: apply bind_Ok_inv in Ht as (dr & Edr & Ht).
  all: try done.
  all: rewrite Ern, Eln in Hk; cbn in Hk.
  all: apply bind_Ok_inv in Hk as (a & Ea & Hk).
  all: apply bind_Ok_inv in Hk as (b & Eb & Hk).
  all: try done.
  apply bind_Ok_inv in Ht as (ta & Eta & Ht).
  apply bind_Ok_inv in Ht as (tb & Etb & [= <-]).
  destruct (Hv ln rn dl dr a b Edl Edr Ea Eb) as (x & y & Hx & Hy & Hxy).
  cbn. rewrite Hx, Hy. cbn.
  assert (Rltb x y = Rltb a b) as ->.
  { unfold Rltb. destruct (Rlt_dec x y), (Rlt_dec a b); tauto. }
  destruct (Rltb a b); by eapply IH.
Qed.
End bisecting_modes.

Lemma bisecting_predicts_leaves_witness :
  ∃ out, PArray [PInt 1] = PArray out ∧
         Forall (λ o, ∃ k, o = PInt k ∧
                           is_leaf bisecting_right bisecting_left k) out.
Proof.
  apply (bisecting_predicts_leaves (H := example_runtime) 2
           bisecting_right bisecting_left (PList [PList [PInt 2]])
           bisecting_centres).
  py_eval.
Defined.


Lemma bisecting_sql_mirrors_predict_witness :
  BisectingSql.eval three_distances
    (BisectingSql.Node "d1" "d2" (BisectingSql.Leaf 1) (BisectingSql.Leaf 2))
  = Some 1.
Proof.
  apply (bisecting_sql_mirrors_predict 2 bisecting_right bisecting_left
           ["d0"; "d1"; "d2"] [[0]; [1]; [5]]%R [2]%R three_distances
           1 1 0 1).
  - intros n m dn dm cn cm Hn Hm Hcn Hcm.
    assert (Hrange : ∀ i d, py_index ["d0"; "d1"; "d2"] i = Ok d →
              i = -3 ∨ i = -2 ∨ i = -1 ∨ i = 0 ∨ i = 1 ∨ i = 2).
    { intros i d. unfold py_index.
      change (Z.of_nat (length ["d0"; "d1"; "d2"])) with 3.
      destruct (Z.ltb_spec i 0);
        (destruct ((0 <=? _) && (_ <? 3)) eqn:E; [|done]);
        apply andb_true_iff in E as [?%Z.leb_le ?%Z.ltb_lt]; lia. }
    pose proof (Hrange n dn Hn) as Hn'. pose proof (Hrange m dm Hm) as Hm'.
    destruct_or!; subst n m.
    all: injection Hn as <-; injection Hm as <-.
    all: lazy -[Rplus Rminus Rmult Ropp Rinv Rdiv IZR Rlt_dec Rle_dec
                Req_dec_T] in Hcn, Hcm.
    all: revert Hcn Hcm; decide_reals; intros [= <-] [= <-].
    all: eexists _, _; split; [reflexivity|]; split; [reflexivity|].
    all: split; intros; lra.
  - reflexivity.
  - real_eval. decide_reals; reflexivity.
Defined.

(** ** Class labels of the nearest centroid *)

Section relabel_facts.
Context `{Runtime}.
Hypothesis fmt_int_inj :
  ∀ i j : nat, fmt (PInt (Z.of_nat i)) = fmt (PInt (Z.of_nat j)) → i = j.

Lemma foldl_cells (is_str : bool) (L : list (nat * pyval))
  (result : list pyval) :
  foldl (λ result ic,
           let idx := Z.of_nat ic.1 in
           let tmp_idx := if is_str && (0 <? idx) then PStr (fmt (PInt idx))
                          else PInt idx in
           np_where_eq tmp_idx ic.2 result) result L =
  (λ x, foldl (relabel_cell is_str) x L) <$> result.
Proof.
  revert result. induction L as [|ic L IH]; intros result; cbn [foldl].
  - by rewrite list_fmap_id.
  - rewrite IH. unfold np_where_eq. rewrite <- list_fmap_compose.
    reflexivity.
Qed.

Lemma py_eq_refl_str (s : string) : py_eq (PStr s) (PStr s) = true.
Proof. cbn. by apply bool_decide_eq_true_2. Qed.

Lemma relabel_cell_text (labels : list string) (j k : nat) (l : list pyval) :
  (∀ (k j : nat) s, (k < j < length labels)%nat → labels !! k = Some s →
                    s ≠ fmt (PInt (Z.of_nat j))) →
  (k < length labels)%nat →
  drop j (PStr <$> labels) = l →
  foldl (relabel_cell true) (cell_at true (PStr <$> labels) j k)
        (imap (λ i c, ((j + i)%nat, c)) l) =
  default PNone ((PStr <$> labels) !! k).
Proof.
  intros Hclear Hk. revert j. induction l as [|c l IH]; intros j Hdrop.
  - cbn. unfold cell_at.
    assert (length labels ≤ j)%nat.
    { apply (f_equal length) in Hdrop. rewrite length_drop, length_fmap in Hdrop.
      cbn in Hdrop. lia. }
    by destruct (Nat.ltb_spec k j); [|lia].
  - assert (Hj : (PStr <$> labels) !! j = Some c).
    { rewrite <- (Nat.add_0_r j), <- lookup_drop, Hdrop. done. }
    assert (Hjlt : (j < length labels)%nat).
    { apply lookup_lt_Some in Hj. by rewrite length_fmap in Hj. }
    rewrite list_lookup_fmap in Hj.
    destruct (labels !! j) as [sj|] eqn:Esj; [|done]. injection Hj as <-.
    cbn [imap foldl]. rewrite Nat.add_0_r.
    replace (imap ((λ i c, ((j + i)%nat, c)) ∘ S) l)
      with (imap (λ i c, ((S j + i)%nat, c)) l)
      by (apply imap_ext; intros; cbn; f_equal; lia).
    rewrite <- (IH (S j)).
    2:{ erewrite drop_S in Hdrop
          by (rewrite list_lookup_fmap, Esj; reflexivity).
        by injection Hdrop. }
    f_equal. unfold cell_at, relabel_cell. cbn [fst snd andb].
    destruct (Nat.ltb_spec k j) as [Hlt|Hge].
    + (* already relabelled *)
      destruct (Nat.ltb_spec k (S j)); [|lia].
      rewrite list_lookup_fmap.
      destruct (labels !! k) as [sk|] eqn:Esk; cbn.
      * destruct (Z.ltb_spec 0 (Z.of_nat j)); [|lia]. cbn.
        rewrite bool_decide_eq_false_2; [done|].
        by apply (Hclear k j); [lia|].
      * apply lookup_ge_None in Esk. lia.
    + destruct (decide (k = j)) as [->|Hne].
      * (* the turn of this cell *)
        destruct (Nat.ltb_spec j (S j)); [|lia].
        rewrite list_lookup_fmap, Esj. cbn [default fmap option_fmap option_map].
        destruct j as [|j]; cbn [Nat.eqb negb].
        -- by cbn.
        -- destruct (Z.ltb_spec 0 (Z.of_nat (S j))); [|lia].
           by rewrite py_eq_refl_str.
      * destruct (Nat.ltb_spec k (S j)); [lia|].
        destruct j as [|j]; cbn [Nat.eqb negb].
        -- change (Z.of_nat 0) with 0. cbn.
           destruct (Z.eqb_spec (Z.of_nat k) 0); [lia|done].
        -- destruct (Z.ltb_spec 0 (Z.of_nat (S j))); [|lia]. cbn.
           rewrite bool_decide_eq_false_2; [done|].
           intros E. apply fmt_int_inj in E. lia.
Qed.

Lemma relabel_cell_int (labels : list Z) (j k : nat) (l : list pyval) :
  (∀ (k j : nat) z, (k < j < length labels)%nat → labels !! k = Some z →
                    z ≠ Z.of_nat j) →
  (k < length labels)%nat →
  drop j (PInt <$> labels) = l →
  foldl (relabel_cell false) (cell_at false (PInt <$> labels) j k)
        (imap (λ i c, ((j + i)%nat, c)) l) =
  default PNone ((PInt <$> labels) !! k).
Proof.
  intros Hclear Hk. revert j. induction l as [|c l IH]; intros j Hdrop.
  - cbn. unfold cell_at.
    assert (length labels ≤ j)%nat.
    { apply (f_equal length) in Hdrop. rewrite length_drop, length_fmap in Hdrop.
      cbn in Hdrop. lia. }
    by destruct (Nat.ltb_spec k j); [|lia].
  - assert (Hj : (PInt <$> labels) !! j = Some c).
    { rewrite <- (Nat.add_0_r j), <- lookup_drop, Hdrop. done. }
    assert (Hjlt : (j < length labels)%nat).
    { apply lookup_lt_Some in Hj. by rewrite length_fmap in Hj. }
    rewrite list_lookup_fmap in Hj.
    destruct (labels !! j) as [zj|] eqn:Ezj; [|done]. injection Hj as <-.
    cbn [imap foldl]. rewrite Nat.add_0_r.
    replace (imap ((λ i c, ((j + i)%nat, c)) ∘ S) l)
      with (imap (λ i c, ((S j + i)%nat, c)) l)
      by (apply imap_ext; intros; cbn; f_equal; lia).
    rewrite <- (IH (S j)).
    2:{ erewrite drop_S in Hdrop
          by (rewrite list_lookup_fmap, Ezj; reflexivity).
        by injection Hdrop. }
    f_equal. unfold cell_at, relabel_cell. cbn [fst snd andb].
    destruct (Nat.ltb_spec k j) as [Hlt|Hge].
    + destruct (Nat.ltb_spec k (S j)); [|lia].
      rewrite list_lookup_fmap.
      destruct (labels !! k) as [zk|] eqn:Ezk; cbn.
      * destruct (Z.eqb_spec zk (Z.of_nat j)) as [E|]; [|done].
        by destruct (Hclear k j zk); [lia|..].
      * apply lookup_ge_None in Ezk. lia.
    + destruct (decide (k = j)) as [->|Hne].
      * destruct (Nat.ltb_spec j (S j)); [|lia].
        rewrite list_lookup_fmap, Ezj. cbn. by rewrite Z.eqb_refl.
      * destruct (Nat.ltb_spec k (S j)); [lia|]. cbn.
        destruct (Z.eqb_spec (Z.of_nat k) (Z.of_nat j)); [lia|done].
Qed.

Lemma relabel_restores_classes (cs : list pyval) (ks : list nat) :
  cs ≠ [] →
  labels_clear_of_indices cs →
  Forall (λ k, k < length cs)%nat ks →
  relabel (PList cs) ((λ k, PInt (Z.of_nat k)) <$> ks) =
    Ok ((λ k, default PNone (cs !! k)) <$> ks).
Proof.
  intros Hne Hclear Hks. unfold relabel.
  destruct cs as [|c0 cs']; [done|]. set (cs := c0 :: cs') in *.
  change (getitem (PList cs) (PInt 0)) with (Ok c0 : res pyval).
  rewrite bind_Ok. cbn [items]. rewrite bind_Ok. f_equal.
  destruct Hclear as [(labels & Ecs & Hclear) | (labels & Ecs & Hclear)].
  - assert (Hstr : match c0 with PStr _ => true | _ => false end = true).
    { destruct labels; simplify_eq/=. done. }
    rewrite Hstr, (foldl_cells true), <- list_fmap_compose.
    apply Forall_fmap_ext_1. eapply Forall_impl; [exact Hks|].
    intros k Hk. cbn [compose]. rewrite Ecs in Hk |- *.
    rewrite length_fmap in Hk.
    by rewrite <- (relabel_cell_text labels 0 k (PStr <$> labels)).
  - assert (Hint : match c0 with PStr _ => true | _ => false end = false).
    { destruct labels; simplify_eq/=. done. }
    rewrite Hint, (foldl_cells false), <- list_fmap_compose.
    apply Forall_fmap_ext_1. eapply Forall_impl; [exact Hks|].
    intros k Hk. cbn [compose]. rewrite Ecs in Hk |- *.
    rewrite length_fmap in Hk.
    by rewrite <- (relabel_cell_int labels 0 k (PInt <$> labels)).
Qed.
End relabel_facts.

Lemma fmap_PInt_nat_inj (a b : list nat) :
  (λ k, PInt (Z.of_nat k)) <$> a = (λ k, PInt (Z.of_nat k)) <$> b → a = b.
Proof.
  revert b. induction a as [|x a IH]; intros [|y b]; cbn; try done.
  intros [= E1 E]. f_equal; [lia | by apply IH].
Qed.

(** X12. The class labels of [predict_from_clusters].  When no label can
    be taken for the index of a later cluster (the labels are all text and
    none is the text of a later index, or all integers and none a later
    index), different indices are printed differently and the argument
    check passes, the call with [classes] returns, for each row, the label
    at the index that the call without classes returns. *)
Theorem nearest_centroid_labels `{Runtime} (X clusters : pyval) (p : Z)
  (cs : list pyval) (ks : list nat) :
  (∀ i j : nat, fmt (PInt (Z.of_nat i)) = fmt (PInt (Z.of_nat j)) → i = j) →
  predict_from_clusters X clusters false false (PList []) p =
    Ok (PArray ((λ k, PInt (Z.of_nat k)) <$> ks)) →
  check [OfType "X" X [Tlist; Tndarray];
         OfType "clusters" clusters [Tlist; Tndarray];
         OfType "return_distance_clusters" (PBool false) [Tbool];
         OfType "return_proba" (PBool false) [Tbool];
         OfType "classes" (PList cs) [Tlist; Tndarray];
         OfType "p" (PInt p) [Tint]] = Ok tt →
  cs ≠ [] →
  labels_clear_of_indices cs →
  Forall (λ k, k < length cs)%nat ks →
  predict_from_clusters X clusters false false (PList cs) p =
    Ok (PArray ((λ k, default PNone (cs !! k)) <$> ks)).
Proof.
  intros Hinj Hplain Hcheck Hne Hclear Hks.
  unfold predict_from_clusters in *. rewrite Hcheck, bind_Ok.
  apply bind_Ok_inv in Hplain as (_ & _ & Hplain).
  cbn [negb orb py_assert] in *. rewrite bind_Ok in *.
  apply bind_Ok_inv in Hplain as (centroids & Ec & Hplain).
  rewrite Ec, bind_Ok.
  apply bind_Ok_inv in Hplain as (M & EM & Hplain).
  rewrite EM, bind_Ok.
  apply bind_Ok_inv in Hplain as (cols & Ecols & Hplain).
  rewrite Ecols, bind_Ok.
  apply bind_Ok_inv in Hplain as (result & Er & Hplain).
  rewrite Er, bind_Ok.
  apply bind_Ok_inv in Hplain as (idx & Eidx & Hplain).
  rewrite Eidx, bind_Ok.
  cbn in Hplain.
  assert (Hidx : idx = ks).
  { apply fmap_PInt_nat_inj. by injection Hplain. }
  subst idx. cbn [py_truthy]. rewrite bool_decide_eq_false_2 by done.
  cbn [negb]. rewrite bind_Ok.
  change (map (λ i : nat, PInt (Z.of_nat i)) ks)
    with ((λ k, PInt (Z.of_nat k)) <$> ks).
  by rewrite relabel_restores_classes.
Qed.

Lemma nearest_centroid_labels_witness :
  predict_from_clusters (H := example_runtime) (PList [PList [PInt 2]])
    (PList [PList [PInt 0]; PList [PInt 3]]) false false
    (PList [PStr "low"; PStr "high"]) 2 =
  Ok (PArray ((λ k, default PNone ([PStr "low"; PStr "high"] !! k)) <$>
              [1%nat])).
Proof.
  apply (nearest_centroid_labels (H := example_runtime)
           (PList [PList [PInt 2]]) (PList [PList [PInt 0]; PList [PInt 3]])
           2 [PStr "low"; PStr "high"] [1%nat]).
  - intros i j E. cbn in E. apply (inj pretty) in E. lia.
  - real_eval.
    assert (Rpower 1 (1 / 2) < Rpower 4 (1 / 2))%R
      by (apply Rlt_Rpower_l; lra).
    decide_reals; try reflexivity; exfalso.
    all: repeat match goal with
         | H : context [Rpower ?a _] |- _ =>
             lazymatch a with
             | 1%R => fail
             | 4%R => fail
             | _ => first [ replace a with 1%R in H by lra
                          | replace a with 4%R in H by lra ]
             end
         end; lra.
  - reflexivity.
  - discriminate.
  - left. exists ["low"; "high"]. split; [reflexivity|].
    intros k j s Hkj Hs. cbn in Hkj.
    assert (k = 0%nat ∧ j = 1%nat) as [-> ->] by lia.
    cbn in Hs. injection Hs as <-. discriminate.
  - repeat constructor.
Defined.

(** ** Ensembles of regressors and boosted probabilities *)

Lemma Forall2_traverse {A B} (f : A → res B) (l : list A) (r : list B) :
  Forall2 (λ x y, f x = Ok y) l r → traverse f l = Ok r.
Proof.
  induction 1 as [|x y l r Hxy _ IH]; [done|].
  cbn. by rewrite Hxy, bind_Ok, IH.
Qed.

Lemma column_stack_cells (L : list (list R)) (n : nat) :
  L ≠ [] → Forall (λ r, length r = n) L →
  column_stack L = Ok (cells_at L <$> seq 0 n).
Proof.
  intros Hne Hlen. destruct L as [|c L']; [done|].
  unfold column_stack. f_equal.
  assert (Hc : length c = n) by (by apply Forall_cons in Hlen as [? _]).
  rewrite Hc. set (L := c :: L') in *. clearbody L.
  apply map_ext_in. intros i Hi. apply in_seq in Hi.
  unfold cells_at. clear Hne Hc.
  induction Hlen as [|r L Hr _ IH]; [done|].
  cbn. destruct (lookup_lt_is_Some_2 r i) as [y Hy]; [lia|].
  rewrite Hy. cbn. by rewrite IH.
Qed.

Section regressors.
Context `{Runtime}.
Variables (d : nat) (self : memModel) (X : pyval).
Variables (trees : list memModel) (preds : list (list R)) (n : nat).
Hypothesis Htrees : members self = Ok trees.
Hypothesis Hne : trees ≠ [].
Hypothesis Hpreds :
  Forall2 (λ tree r, ∃ v, predict_at d tree X = Ok v ∧ np_array1 v = Ok r)
          trees preds.
Hypothesis Hlen : Forall (λ r, length r = n) preds.

Lemma member_predictions :
  traverse (λ tree, r ← predict_at d tree X; np_array1 r) trees = Ok preds.
Proof.
  apply Forall2_traverse. eapply Forall2_impl; [exact Hpreds|].
  intros tree r (v & Hv & Hr). cbn. by rewrite Hv, bind_Ok.
Qed.

Lemma cells_at_length (i : nat) : length (cells_at preds i) = length trees.
Proof.
  unfold cells_at. rewrite length_fmap. symmetry. by eapply Forall2_length.
Qed.

(** X13. How [predict] combines the members of a regressor ensemble.
    When there is at least one member tree and each of them predicts a
    vector of [n] numbers, a random forest returns their mean, position by
    position, and a boosted ensemble returns their sum times the learning
    rate plus the stored mean. *)
Theorem ensemble_regressors_combine :
  (model_type_ self = "RandomForestRegressor" →
   predict_at (S d) self X =
     Ok (PArray ((λ i, PFloat (Rsum (cells_at preds i) /
                               INR (length trees))) <$> seq 0 n))) ∧
  (∀ learning_rate mean lr m,
     model_type_ self = "XGBoostRegressor" →
     attr self "learning_rate" = Ok learning_rate →
     as_num learning_rate = Ok lr →
     attr self "mean" = Ok mean → as_num mean = Ok m →
     predict_at (S d) self X =
       Ok (PArray ((λ i, PFloat (Rsum (cells_at preds i) * lr + m)) <$>
                   seq 0 n))).
Proof.
  assert (Hstack : column_stack preds = Ok (cells_at preds <$> seq 0 n)).
  { apply column_stack_cells; [|done].
    intros ->. apply Forall2_length in Hpreds. by destruct trees. }
  split.
  - intros Hmt. destruct self as [a mt rep]. cbn in Hmt. subst mt.
    cbn -[members column_stack]. rewrite Htrees, bind_Ok.
    rewrite member_predictions, bind_Ok, Hstack, bind_Ok.
    do 2 f_equal. rewrite map_map. apply map_ext. intros i.
    by rewrite cells_at_length.
  - intros learning_rate mean lr m Hmt Hlr Hlr' Hm Hm'.
    destruct self as [a mt rep]. cbn in Hmt. subst mt.
    cbn -[members column_stack attr]. rewrite Htrees, bind_Ok.
    rewrite member_predictions, bind_Ok, Hstack, bind_Ok.
    rewrite Hlr, bind_Ok, Hlr', bind_Ok, Hm, bind_Ok, Hm', bind_Ok.
    do 2 f_equal. by rewrite map_map.
Qed.
End regressors.

Lemma ensemble_regressors_combine_witness :
  predict_at (H := example_runtime) 1 regressor_pair (PList [PList [PInt 0]]) =
  Ok (PArray ((λ i, PFloat (Rsum (cells_at [[4]; [8]]%R i) / INR 2)) <$>
              seq 0 1)).
Proof.
  apply (ensemble_regressors_combine (H := example_runtime) 0 regressor_pair
           (PList [PList [PInt 0]])
           [leaf_regressor (PInt 4); leaf_regressor (PInt 8)]
           [[4]; [8]]%R 1).
  - reflexivity.
  - discriminate.
  - repeat constructor; eexists; (split; [reflexivity | reflexivity]).
  - repeat constructor.
  - reflexivity.
Defined.

Lemma Rsum_pos_bound (row : list R) (x : R) :
  Forall (λ y, 0 < y)%R row → x ∈ row → (0 < x <= Rsum row)%R.
Proof.
  intros Hpos Hx. induction Hpos as [|y row Hy Hrow IH].
  - by apply elem_of_nil in Hx.
  - assert (0 <= Rsum row)%R.
    { clear -Hrow. induction Hrow as [|z row Hz _ IH]; cbn; [lra|].
      unfold Rsum in IH. lra. }
    cbn. fold (Rsum row).
    apply elem_of_cons in Hx as [->|Hx]; [lra|].
    destruct (IH Hx). lra.
Qed.

Lemma normalise_positive_row (row out : list R) :
  Forall (λ y, 0 < y)%R row →
  traverse (λ x, np_div x (Rsum row)) row = Ok out →
  (out = [] ∨ Rsum out = 1%R) ∧ Forall (λ x, 0 < x <= 1)%R out.
Proof.
  intros Hpos Hout. destruct (decide (row = [])) as [->|Hne].
  - cbn in Hout. injection Hout as <-. split; [by left | constructor].
  - destruct (normalise_row row out Hout Hne) as (Hs & -> & Hsum).
    split; [by right|]. apply Forall_fmap, Forall_forall. intros x Hx. cbn.
    destruct (Rsum_pos_bound row x Hpos Hx) as [Hx0 HxS].
    split.
    + apply Rdiv_lt_0_compat; lra.
    + apply Rmult_le_reg_r with (Rsum row); [lra|].
      replace (x / Rsum row * Rsum row)%R with x by (by field). lra.
Qed.

(** X14. Every value that [predict_proba] returns for an
    XGBoostClassifier is a matrix whose cells lie in (0, 1] and whose
    rows, unless empty, sum to 1 (over the reals; a computation that
    leaves the finite numbers returns no value here). *)
Theorem boosted_probabilities_normalised `{Runtime} (depth : nat)
  (self : memModel) (X v : pyval) :
  model_type_ self = "XGBoostClassifier" →
  predict_proba_at depth self X = Ok v →
  ∃ P, v = matrix_val P ∧
       Forall (λ row, (row = [] ∨ Rsum row = 1%R) ∧
                      Forall (λ x, 0 < x <= 1)%R row) P.
Proof.
  intros Hmt Hv. destruct self as [a mt rep]. cbn in Hmt. subst mt.
  assert (Hshape : ∃ (M : list (list R)) lo lr result out,
    broadcast (λ x l, l + x)%R (map (map (λ x, lr * x)%R) M) lo = Ok result ∧
    traverse (λ row, traverse (λ x, np_div x (Rsum row)) row)
             (map (map sigmoid) result) = Ok out ∧
    v = matrix_val out).
  { destruct depth; cbn -[members attr] in Hv.
    all: apply bind_Ok_inv in Hv as (trees & _ & Hv).
    all: apply bind_Ok_inv in Hv as (res & _ & Hv).
    all: apply bind_Ok_inv in Hv as (logodds & _ & Hv).
    all: apply bind_Ok_inv in Hv as (learning_rate & _ & Hv).
    all: destruct res as [M|]; [|done].
    all: apply bind_Ok_inv in Hv as (lo & _ & Hv).
    all: apply bind_Ok_inv in Hv as (lr & _ & Hv).
    all: apply bind_Ok_inv in Hv as (result & Er & Hv).
    all: apply bind_Ok_inv in Hv as (out & Eout & [= <-]).
    all: by exists M, lo, lr, result, out. }
  destruct Hshape as (M & lo & lr & result & out & _ & Eout & ->).
  exists out. split; [done|].
  eapply traverse_Forall; [exact Eout|].
  intros row o Hrow Ho. cbn in Ho.
  apply normalise_positive_row in Ho; [done|].
  apply list_elem_of_fmap in Hrow as (r & -> & _).
  apply Forall_fmap, Forall_forall. intros x _. apply sigmoid_pos.
Qed.

Lemma boosted_probabilities_normalised_witness :
  ∃ P, matrix_val [[sigmoid 60 / (sigmoid 60 + sigmoid 80);
                    sigmoid 80 / (sigmoid 60 + sigmoid 80)]]%R =
       matrix_val P ∧
       Forall (λ row, (row = [] ∨ Rsum row = 1%R) ∧
                      Forall (λ x, 0 < x <= 1)%R row) P.
Proof.
  apply (boosted_probabilities_normalised (H := example_runtime) 1
           boosted_pair (PList [PList [PInt 0]])).
  - reflexivity.
  - apply boosted_pair_numeric.
Defined.

(** ** The one-hot encoder *)



Lemma py_index_lookup {A} (l : list A) (i : nat) (a : A) :
  l !! i = Some a → py_index l (Z.of_nat i) = Ok a.
Proof.
  intros Hi. unfold py_index.
  pose proof (lookup_lt_Some _ _ _ Hi).
  destruct (Z.ltb_spec (Z.of_nat i) 0); [lia|].
  destruct (Z.leb_spec 0 (Z.of_nat i)); [|lia].
  destruct (Z.ltb_spec (Z.of_nat i) (Z.of_nat (length l))); [|lia].
  cbn. by rewrite Nat2Z.id, Hi.
Qed.

Section one_hot_facts.
Context `{Runtime}.



End one_hot_facts.




(** ** NULL inputs in the generated SQL *)

Section null_guard.
Context `{Runtime}.
Variable env : string → option sqlval.

Lemma any3_bools (bs : list bool) :
  any3 (VBool <$> bs) = Some (VBool (existsb (λ b, b) bs)).
Proof.
  induction bs as [|b bs IH]; [done|].
  cbn. rewrite IH. by destruct b, (existsb _ bs).
Qed.

Lemma null_check_true (xs : list pyval) (x : pyval) :
  Forall (λ x, is_Some (eval env (SVal x))) xs →
  x ∈ xs → eval env (SVal x) = Some VNull →
  eval env (SOr (map (λ elem, SIsNull (SVal elem)) xs)) = Some (VBool true).
Proof.
  intros Hxs Hin Hx. rewrite eval_SOr.
  set (isnull := λ elem, match eval env (SVal elem) with
                         | Some VNull => true | _ => false end).
  rewrite (evals_Forall2 env _ (VBool <$> (isnull <$> xs))).
  - cbn. rewrite any3_bools.
    assert (existsb (λ b, b) (isnull <$> xs) = true) as ->.
    { apply existsb_exists. exists true. split; [|done].
      apply list_elem_of_In, list_elem_of_fmap. exists x. split; [|done].
      unfold isnull. by rewrite Hx. }
    destruct xs; [by apply elem_of_nil in Hin | done].
  - apply Forall2_fmap_l, Forall2_fmap_r, Forall2_fmap_r.
    apply Forall_Forall2_diag. eapply Forall_impl; [exact Hxs|].
    intros y [v Hy]. cbn in *. unfold isnull. cbn. rewrite Hy. cbn.
    by destruct v.
Qed.

(** X16. NULL inputs give NULL.  On a row where every input column has a
    value and one of them is NULL, the hard assignment that
    [sql_from_clusters] generates and the CASE that [predict_sql]
    generates for a classifier ensemble with other than two classes both
    evaluate to NULL. *)
Theorem null_input_gives_null (X clusters classes : pyval) (p : Z)
  (result_proba : pyval) (m : Z) (xs : list pyval) (x : pyval) :
  py_iter X = Ok xs →
  Forall (λ x, is_Some (eval env (SVal x))) xs →
  x ∈ xs → eval env (SVal x) = Some VNull →
  (∀ e, ClustersSql.sql_from_clusters_tree X clusters false false classes p =
          Ok (inr e) → eval env e = Some VNull) ∧
  (∀ e, EnsembleSql.classifier_sql X classes result_proba m = Ok e →
        eval env e = Some VNull).
Proof.
  intros HX Hxs Hin Hx.
  assert (Hitems : ∀ xs', items X = Ok xs' → xs' = xs).
  { destruct X; cbn in *; congruence. }
  split; intros e He.
  - unfold ClustersSql.sql_from_clusters_tree in He.
    apply bind_Ok_inv in He as (_ & _ & He).
    apply bind_Ok_inv in He as (cs & _ & He).
    apply bind_Ok_inv in He as (lx & _ & He).
    apply bind_Ok_inv in He as (_ & _ & He).
    apply bind_Ok_inv in He as (_ & _ & He).
    apply bind_Ok_inv in He as (ncl & _ & He).
    apply bind_Ok_inv in He as (classes_tmp & _ & He).
    apply bind_Ok_inv in He as (ds & _ & He).
    cbn [negb] in He.
    apply bind_Ok_inv in He as (xs' & Hxs' & He).
    apply Hitems in Hxs' as ->.
    apply bind_Ok_inv in He as (no_classes & _ & He).
    apply bind_Ok_inv in He as (W & _ & He).
    apply bind_Ok_inv in He as (els & _ & He).
    injection He as <-.
    rewrite eval_SCase. cbn [case_go].
    by rewrite (null_check_true xs x).
  - unfold EnsembleSql.classifier_sql in He.
    apply bind_Ok_inv in He as (conds & _ & He).
    rewrite HX, bind_Ok in He.
    apply bind_Ok_inv in He as (W & _ & He).
    apply bind_Ok_inv in He as (c0 & _ & He).
    injection He as <-.
    rewrite eval_SCase. cbn [case_go].
    by rewrite (null_check_true xs x).
Qed.
End null_guard.

Lemma null_input_gives_null_witness :
  (ClustersSql.sql_from_clusters_tree (H := example_runtime)
     (PList [PStr "x"]) two_centroids false false (PList []) 2 ≫=
   λ t, Ok match t with
           | inr e => eval null_row e
           | inl _ => None
           end) = Ok (Some VNull).
Proof.
  destruct (ClustersSql.sql_from_clusters_tree (H := example_runtime)
              (PList [PStr "x"]) two_centroids false false (PList []) 2)
    as [[l|e]|err] eqn:He; [vm_compute in He; discriminate | |
                            vm_compute in He; discriminate].
  cbn. f_equal.
  apply (proj1 (null_input_gives_null (H := example_runtime) null_row
                  (PList [PStr "x"]) two_centroids (PList []) 2 PNone 0
                  [PStr "x"] (PStr "x") eq_refl
                  ltac:(repeat constructor; by eexists)
                  ltac:(apply elem_of_cons; by left) eq_refl) e He).
Defined.

(** ** The class that [predict_sql] selects *)

Lemma traverse_seq {B} (f : Z → res B) (r : list B) (k : nat) :
  (∀ i y, r !! i = Some y → f (Z.of_nat (k + i)) = Ok y) →
  traverse f (Z.of_nat <$> seq k (length r)) = Ok r.
Proof.
  revert k. induction r as [|y r IH]; intros k Hf; [done|].
  cbn. rewrite <- (Nat.add_0_r k) at 1. rewrite (Hf 0%nat y) by done. cbn.
  rewrite (IH (S k)); [done|].
  intros i y' Hi. replace (S k + i)%nat with (k + S i)%nat by lia.
  by apply Hf.
Qed.

Lemma traverse_py_range {B} (f : Z → res B) (r : list B) (n : Z) :
  n = Z.of_nat (length r) →
  (∀ i y, r !! i = Some y → f (Z.of_nat i) = Ok y) →
  traverse f (py_range n) = Ok r.
Proof.
  intros -> Hf. unfold py_range. rewrite Nat2Z.id.
  by apply (traverse_seq f r 0).
Qed.

Section ensemble_winner.
Context `{Runtime}.
Variable env : string → option sqlval.

Lemma getitem_items (v : pyval) (l : list pyval) (i : nat) (x : pyval) :
  items v = Ok l → l !! i = Some x → getitem v (PInt (Z.of_nat i)) = Ok x.
Proof.
  intros Hl Hi. unfold getitem. rewrite Hl. cbn.
  by apply py_index_lookup.
Qed.

Lemma conditions_tournament (result_proba : pyval) (ps : list pyval) :
  items result_proba = Ok ps →
  EnsembleSql.conditions result_proba (Z.of_nat (length ps)) =
    Ok (ClustersSql.tournament (SVal <$> ps)).
Proof.
  intros Hps. unfold EnsembleSql.conditions.
  apply traverse_py_range.
  { unfold ClustersSql.tournament. by rewrite length_imap, length_fmap. }
  intros i c Hc.
  unfold ClustersSql.tournament in Hc. rewrite list_lookup_imap in Hc.
  rewrite list_lookup_fmap in Hc.
  destruct (ps !! i) as [pi|] eqn:Epi; [|done]. cbn in Hc.
  injection Hc as <-.
  assert (Hi : (i ≤ length ps)%nat)
    by (apply lookup_lt_Some in Epi; lia).
  rewrite (traverse_py_range _
             (map (λ dj, SLe (SVal pi) dj) (take i (SVal <$> ps))));
    [done | by rewrite length_map, length_take, length_fmap; lia |].
  intros j c Hc. rewrite list_lookup_fmap in Hc.
  destruct (take i (SVal <$> ps) !! j) as [dj|] eqn:Edj; [|done].
  injection Hc as <-.
  apply lookup_take_Some in Edj as [Edj Hji]. rewrite list_lookup_fmap in Edj.
  destruct (ps !! j) as [pj|] eqn:Epj; [|done]. injection Edj as <-.
  by rewrite (getitem_items _ ps i pi), bind_Ok,
             (getitem_items _ ps j pj), bind_Ok.
Qed.

Section generic.
Variables (ds : list sql) (vs : list R) (W : list (sql * sql)).
Variable label : nat → sql.
Variable els : sql.
Hypothesis Hvals : Forall2 (λ d v, eval env d = Some (VNum v)) ds vs.
Hypothesis HlenW : length W = (length ds - 1)%nat.
Hypothesis Hentry :
  ∀ i w, W !! i = Some w →
    ∃ dj, let j := (length ds - 1 - i)%nat in
          ds !! j = Some dj ∧
          w = (SAnd (map (λ dm, SLe dj dm) (take j ds)), label j).

Lemma case_last_minimum (j : nat) (vj : R) :
  vs !! j = Some vj →
  (∀ m vm, vs !! m = Some vm → (vj <= vm)%R) →
  (∀ m vm, vs !! m = Some vm → (j < m)%nat → (vj < vm)%R) →
  case_go env els W =
    if decide (j = 0%nat) then eval env els else eval env (label j).
Proof.
  intros Hj Hmin Hlast.
  assert (Hlen : length vs = length ds) by (symmetry; by eapply Forall2_length).
  assert (Hjlt : (j < length ds)%nat)
    by (apply lookup_lt_Some in Hj; lia).
  set (i0 := (length ds - 1 - j)%nat).
  rewrite <- (take_drop i0 W).
  rewrite case_go_skip.
  - destruct (decide (j = 0%nat)) as [->|Hj0].
    + rewrite drop_ge by lia. done.
    + destruct (lookup_lt_is_Some_2 W i0) as [w Hw]; [lia|].
      rewrite (drop_S _ _ _ Hw).
      destruct (Hentry i0 w Hw) as (dj & Hdj & ->). cbn zeta in Hdj.
      replace (length ds - 1 - i0)%nat with j in * by lia.
      cbn [case_go].
      rewrite (eval_cond env ds vs Hvals j dj vj) by (done || lia).
      rewrite forallb_true_intro.
      * done.
      * intros vm Hvm. apply list_elem_of_lookup in Hvm as [m Hm].
        apply lookup_take_Some in Hm as [Hm _].
        unfold Rleb. destruct (Rle_dec vj vm) as [|Hn]; [done|].
        exfalso. apply Hn. by eapply Hmin.
  - apply Forall_forall. intros w Hw.
    apply list_elem_of_lookup in Hw as [i Hi].
    apply lookup_take_Some in Hi as [Hi Hlt].
    destruct (Hentry i w Hi) as (dj' & Hdj' & ->). cbn zeta in Hdj'.
    cbn [fst].
    assert (Hi' : (i < length ds - 1)%nat)
      by (apply lookup_lt_Some in Hi; lia).
    destruct (lookup_lt_is_Some_2 vs (length ds - 1 - i)) as [vj' Hvj'];
      [lia|].
    rewrite (eval_cond env ds vs Hvals _ dj' vj') by (done || lia).
    rewrite (forallb_false_intro _ _ vj); [done| |].
    + apply list_elem_of_lookup. exists j.
      apply lookup_take_Some. split; [done | lia].
    + unfold Rleb. destruct (Rle_dec vj' vj) as [Hle|]; [|done].
      exfalso. assert (vj < vj')%R by (eapply Hlast; [done | lia]). lra.
Qed.
End generic.

(** X17. The class that [predict_sql] selects for a classifier ensemble
    with other than two classes.  On inputs that are not NULL, when the
    probability expressions evaluate to the numbers [vs], the generated
    CASE evaluates to the literal of the class at the index [j] of the
    last minimum of [vs]: the least probable class, not the most probable
    one. *)
Theorem least_probable_class_wins (X classes result_proba : pyval)
  (e : sql) (xs ps cs : list pyval) (vs : list R) (j : nat) (vj : R) :
  EnsembleSql.classifier_sql X classes result_proba
    (Z.of_nat (length cs)) = Ok e →
  py_iter X = Ok xs → xs ≠ [] →
  Forall (λ x, ∃ r, eval env (SVal x) = Some (VNum r)) xs →
  items classes = Ok cs →
  items result_proba = Ok ps → length ps = length cs →
  Forall2 (λ p v, eval env (SVal p) = Some (VNum v)) ps vs →
  vs !! j = Some vj →
  (∀ m vm, vs !! m = Some vm → (vj <= vm)%R) →
  (∀ m vm, vs !! m = Some vm → (j < m)%nat → (vj < vm)%R) →
  ∃ cj, cs !! j = Some cj ∧
        eval env e = eval env (EnsembleSql.class_literal cj).
Proof.
  intros He HX Hne Hxs Hcs Hps Hlen Hvals Hj Hmin Hlast.
  unfold EnsembleSql.classifier_sql in He.
  rewrite <- Hlen, (conditions_tournament _ ps Hps), bind_Ok in He.
  rewrite HX, bind_Ok in He.
  apply bind_Ok_inv in He as (W & HW & He).
  apply bind_Ok_inv in He as (c0 & Hc0 & [= <-]).
  set (ds := SVal <$> ps) in *.
  assert (Hlends : length ds = length cs)
    by (unfold ds; by rewrite length_fmap).
  assert (Hjlt : (j < length cs)%nat).
  { apply lookup_lt_Some in Hj. apply Forall2_length in Hvals. lia. }
  destruct (lookup_lt_is_Some_2 cs j Hjlt) as [cj Hcj].
  exists cj. split; [done|].
  rewrite eval_SCase. cbn [case_go].
  rewrite null_check_false by done. cbn [mbind option_bind].
  set (label := λ j, EnsembleSql.class_literal (default PNone (cs !! j))).
  assert (Hvals' : Forall2 (λ d v, eval env d = Some (VNum v)) ds vs)
    by (by apply Forall2_fmap_l).
  assert (HlenW : length W = (length ds - 1)%nat).
  { apply traverse_length in HW. rewrite py_range_length in HW. lia. }
  assert (Hentry : ∀ i w, W !! i = Some w →
            ∃ dj, let j := (length ds - 1 - i)%nat in
                  ds !! j = Some dj ∧
                  w = (SAnd (map (λ dm, SLe dj dm) (take j ds)), label j)).
  { intros i w Hw.
    destruct (traverse_lookup_inv _ _ _ _ _ HW Hw) as (x & Hx & Hf).
    apply py_range_lookup in Hx as [-> Hlt].
    apply bind_Ok_inv in Hf as (class_i & Hci & Hf).
    apply bind_Ok_inv in Hf as (cond & Hcond & [= <-]).
    apply py_index_nat in Hcond.
    assert (Hlent : length (tail (ClustersSql.tournament ds)) =
                    (length ds - 1)%nat).
    { assert (length (ClustersSql.tournament ds) = length ds)
        by apply length_imap.
      destruct (ClustersSql.tournament ds); cbn in *; lia. }
    rewrite reverse_lookup in Hcond by lia.
    rewrite Hlent, lookup_tail in Hcond.
    set (j' := (length ds - 1 - i)%nat).
    replace (S (length ds - 1 - S i)) with j' in Hcond by lia.
    destruct (lookup_lt_is_Some_2 ds j') as [dj Hdj]; [lia|].
    rewrite (tournament_lookup ds j' dj Hdj) in Hcond.
    injection Hcond as <-. exists dj. cbn zeta. fold j'.
    split; [done|]. f_equal.
    replace (Z.of_nat (length ps) - Z.of_nat i - 1) with (Z.of_nat j') in Hci
      by (unfold j'; lia).
    unfold getitem in Hci. rewrite Hcs in Hci. cbn in Hci.
    apply py_index_nat in Hci. unfold label. by rewrite Hci. }
  rewrite (case_last_minimum ds vs W label (EnsembleSql.class_literal c0)
             Hvals' HlenW Hentry j vj Hj Hmin Hlast).
  destruct (decide (j = 0%nat)) as [->|_].
  - assert (Some c0 = Some cj) by
      (rewrite <- Hcj; symmetry; apply py_index_nat;
       unfold getitem in Hc0; by rewrite Hcs in Hc0).
    by simplify_eq.
  - unfold label. by rewrite Hcj.
Qed.
End ensemble_winner.

Lemma least_probable_class_wins_witness :
  ∃ cj, [PStr "a"; PStr "b"; PStr "c"] !! 2%nat = Some cj ∧
        (EnsembleSql.classifier_sql (H := example_runtime) (PList [PStr "x"])
           (PList [PStr "a"; PStr "b"; PStr "c"])
           (PList [PStr "p0"; PStr "p1"; PStr "p2"]) 3 ≫=
         λ e, Ok (eval three_probabilities e)) =
        Ok (eval three_probabilities
              (EnsembleSql.class_literal (H := example_runtime) cj)).
Proof.
  destruct (EnsembleSql.classifier_sql (H := example_runtime)
              (PList [PStr "x"]) (PList [PStr "a"; PStr "b"; PStr "c"])
              (PList [PStr "p0"; PStr "p1"; PStr "p2"]) 3)
    as [e|err] eqn:He; [|vm_compute in He; discriminate].
  destruct (least_probable_class_wins (H := example_runtime)
              three_probabilities (PList [PStr "x"])
              (PList [PStr "a"; PStr "b"; PStr "c"])
              (PList [PStr "p0"; PStr "p1"; PStr "p2"]) e
              [PStr "x"] [PStr "p0"; PStr "p1"; PStr "p2"]
              [PStr "a"; PStr "b"; PStr "c"] [2; 7; 1]%R 2 1%R)
    as (cj & Hcj & Heval).
  - exact He.
  - reflexivity.
  - discriminate.
  - repeat constructor. by exists 1%R.
  - reflexivity.
  - reflexivity.
  - reflexivity.
  - repeat constructor.
  - reflexivity.
  - intros [|[|[|m]]] vm; cbn; intros; simplify_eq; lra.
  - intros [|[|[|m]]] vm; cbn; intros; simplify_eq; lia.
  - exists cj. split; [exact Hcj|]. cbn. by rewrite Heval.
Defined.

Lemma rejected_after_check `{Runtime} {A} (l : list type_check)
  (m : res A) :
  m = Raise AssertionError → rejected (_ ← check l; m).
Proof.
  intros ->. unfold check, rejected. destruct (check_types l); auto.
Qed.

Lemma assert_lengths_fail (cs : list pyval) (lx : res Z) (x : Z) (c : pyval)
  (lc : Z) :
  lx = Ok x →
  Forall (λ c, ∃ lc, py_len c = Ok lc) cs →
  c ∈ cs → py_len c = Ok lc → x ≠ lc →
  traverse (λ c, lx ← lx; lc ← py_len c; py_assert (lx =? lc)) cs =
    Raise AssertionError.
Proof.
  intros -> Hlens Hin Hc Hne.
  apply (traverse_first_error _ cs AssertionError c); [|done|].
  - intros y e' Hy. eapply Forall_forall in Hlens as [ly Hly]; [|exact Hy].
    cbn. rewrite Hly. cbn. unfold py_assert. by case_match; intros [= <-].
  - cbn. rewrite Hc. cbn. by destruct (Z.eqb_spec x lc).
Qed.

(** X18. The SQL generators of the transformations check the number of
    columns.  When the length of [X] differs from the length of [mean]
    (PCA), of [values] (SVD, normalizer) or of [categories] (one-hot
    encoder), the generator is refused: by [check_types] or by a failed
    assertion. *)
Theorem sql_transformations_check_widths `{Runtime} (X : pyval) (lx : Z) :
  py_len X = Ok lx →
  (∀ principal_components mean lm,
     py_len mean = Ok lm → lx ≠ lm →
     rejected (sql_from_pca X principal_components mean)) ∧
  (∀ vectors values lv,
     py_len values = Ok lv → lx ≠ lv →
     rejected (sql_from_svd X vectors values)) ∧
  (∀ values method lv,
     py_len values = Ok lv → lx ≠ lv →
     rejected (sql_from_normalizer X values method)) ∧
  (∀ categories drop_first column_naming lc,
     py_len categories = Ok lc → lx ≠ lc →
     rejected (sql_from_one_hot_encoder X categories drop_first
                                        column_naming)).
Proof.
  intros HX. split; [|split; [|split]].
  - intros pcs mean lm Hm Hne. unfold sql_from_pca.
    apply rejected_after_check. rewrite HX, Hm. cbn.
    by destruct (Z.eqb_spec lx lm).
  - intros vectors values lv Hv Hne. unfold sql_from_svd.
    apply rejected_after_check. rewrite HX, Hv. cbn.
    by destruct (Z.eqb_spec lx lv).
  - intros values method lv Hv Hne. unfold sql_from_normalizer.
    apply rejected_after_check. rewrite HX, Hv. cbn.
    by destruct (Z.eqb_spec lx lv).
  - intros categories drop_first column_naming lc Hc Hne.
    unfold sql_from_one_hot_encoder.
    apply rejected_after_check. rewrite HX, Hc. cbn.
    by destruct (Z.eqb_spec lx lc).
Qed.

Lemma sql_transformations_check_widths_witness :
  rejected (sql_from_pca (H := example_runtime) (PList [PStr "x"; PStr "y"])
              (PList [PList [PInt 1; PInt 0]; PList [PInt 0; PInt 1]])
              (PList [PInt 0])) ∧
  rejected (sql_from_one_hot_encoder (H := example_runtime)
              (PList [PStr "x"; PStr "y"]) (PList [PList [PStr "a"]])
              false PNone).
Proof.
  pose proof (sql_transformations_check_widths (H := example_runtime)
                (PList [PStr "x"; PStr "y"]) 2 eq_refl)
    as (Hpca & _ & _ & Hooe).
  split.
  - apply (Hpca _ (PList [PInt 0]) 1); [reflexivity | lia].
  - apply (Hooe (PList [PList [PStr "a"]]) _ _ 1); [reflexivity | lia].
Defined.

(** X19. The SQL generators of the cluster models check the number of
    columns.  When the length of [X] differs from the length of some
    cluster centre, [sql_from_clusters] and [sql_from_bisecting_kmeans]
    are refused, whatever the other arguments: by [check_types] or by a
    failed assertion. *)
Theorem sql_clusters_check_widths `{Runtime} (X clusters : pyval) (lx : Z)
  (cs : list pyval) (c : pyval) (lc : Z) :
  py_len X = Ok lx →
  items clusters = Ok cs →
  Forall (λ c, ∃ lc, py_len c = Ok lc) cs →
  c ∈ cs → py_len c = Ok lc → lx ≠ lc →
  (∀ return_distance_clusters return_proba classes p,
     rejected (ClustersSql.sql_from_clusters X clusters
                 return_distance_clusters return_proba classes p)) ∧
  (∀ left_child right_child return_distance_clusters p,
     rejected (BisectingSql.sql_from_bisecting_kmeans X clusters
                 left_child right_child return_distance_clusters p)).
Proof.
  intros HX Hcs Hlens Hin Hc Hne. split.
  - intros rd rp classes p.
    unfold ClustersSql.sql_from_clusters,
      ClustersSql.sql_from_clusters_tree.
    unfold rejected, check. destruct (check_types _); [|by left].
    right. cbn. rewrite Hcs, HX. cbn.
    pose proof (assert_lengths_fail cs (Ok lx) lx c lc eq_refl Hlens Hin
                  Hc Hne) as Hfail.
    cbn in Hfail. by rewrite Hfail.
  - intros left_child right_child rd p.
    unfold BisectingSql.sql_from_bisecting_kmeans, BisectingSql.distances.
    apply rejected_after_check. rewrite Hcs. cbn.
    by rewrite (assert_lengths_fail cs (py_len X) lx c lc HX Hlens Hin Hc
                  Hne).
Qed.

Lemma sql_clusters_check_widths_witness :
  rejected (ClustersSql.sql_from_clusters (H := example_runtime)
              (PList [PStr "x"; PStr "y"]) (PList [PList [PInt 0]])
              false false (PList []) 2) ∧
  rejected (BisectingSql.sql_from_bisecting_kmeans (H := example_runtime)
              (PList [PStr "x"; PStr "y"]) (PList [PList [PInt 0]])
              (PList [PNone]) (PList [PNone]) false 2).
Proof.
  destruct (sql_clusters_check_widths (H := example_runtime)
              (PList [PStr "x"; PStr "y"]) (PList [PList [PInt 0]]) 2
              [PList [PInt 0]] (PList [PInt 0]) 1) as [Hflat Hbis].
  - reflexivity.
  - reflexivity.
  - repeat constructor. by eexists.
  - apply elem_of_cons. by left.
  - reflexivity.
  - lia.
  - split; [apply Hflat | apply Hbis].
Defined.

(** ** Rotation of a PCA model *)

Section rotate_facts.
Context `{Runtime}.
Variable matrix_rotation : pyval → pyval → pyval → pyval → res pyval.

Lemma rotate_outcome (gamma q tol : pyval) (self : memModel) :
  model_type_ self = "PCA" →
  rotate matrix_rotation gamma q tol self =
    match lookup_key (attributes_ self) "principal_components" with
    | Ok pc =>
        match matrix_rotation pc gamma q tol with
        | Ok pc' =>
            set_attributes (<["principal_components" := pc']> ∅) self
        | Raise e => (Raise e, self)
        end
    | Raise e => (Raise e, self)
    end.
Proof.
  intros Hmt. unfold rotate. rewrite Hmt.
  change (one_of "PCA" ["PCA"]) with true. cbn beta iota.
  unfold mbind, method_bind, get_attributes, locally.
  destruct (lookup_key _ _) as [pc|]; [|done].
  by destruct (matrix_rotation pc gamma q tol).
Qed.

(** X20. What [rotate] does to a constructed PCA model, for any
    [matrix_rotation].  When the call succeeds, the model is still a PCA
    model, its [mean] has the same cells, and [principal_components] is a
    copy of the result of [matrix_rotation] on the stored components;
    when the call fails, the model is unchanged. *)
Theorem rotate_replaces_components (gamma q tol : pyval)
  (attributes : gmap string pyval) (self : memModel) :
  new_memModel "PCA" attributes = Ok self →
  match rotate matrix_rotation gamma q tol self with
  | (Ok _, rotated) =>
      model_type_ rotated = "PCA" ∧
      same_content (attributes_ rotated !! "mean")
                   (attributes_ self !! "mean") ∧
      ∃ pc pc', attributes_ self !! "principal_components" = Some pc ∧
                matrix_rotation pc gamma q tol = Ok pc' ∧
                attributes_ rotated !! "principal_components" =
                  Some (np_copy pc')
  | (Raise _, unchanged) => unchanged = self
  end.
Proof.
  intros Hnew.
  assert (Hmt : model_type_ self = "PCA").
  { unfold new_memModel in Hnew. rewrite init_outcome in Hnew.
    destruct (Init.init_locals _ _); [|done]. by injection Hnew as <-. }
  rewrite rotate_outcome by done.
  unfold lookup_key.
  destruct (attributes_ self !! "principal_components") as [pc|] eqn:Epc;
    [|done].
  destruct (matrix_rotation pc gamma q tol) as [pc'|] eqn:Erot; [|done].
  unfold set_attributes. rewrite init_outcome, Hmt.
  unfold new_memModel in Hnew. rewrite init_outcome in Hnew.
  destruct (Init.init_locals "PCA" attributes) as [[old r0]|] eqn:H0;
    [|done].
  injection Hnew as <-. cbn [attributes_ model_type_] in *.
  destruct (Init.init_locals "PCA"
              (<["principal_components" := pc']> ∅ ∪ old))
    as [[new r1]|] eqn:H1; [|done].
  cbn [fst snd attributes_ model_type_].
  split; [done|]. split.
  - apply kept_same_content.
    eapply (init_locals_update "PCA" attributes
              (<["principal_components" := pc']> ∅) "mean"); [done|done|done].
  - exists pc, pc'. repeat split; [done..|].
    unfold Init.init_locals in H1.
    apply bind_Ok_inv in H1 as (_ & _ & H1).
    change (Init.pca "PCA" (<["principal_components" := pc']> ∅ ∪ old) =
            Ok (new, r1)) in H1.
    unfold Init.pca in H1. res_inv.
    rewrite lookup_insert_ne by done. rewrite lookup_insert.
    rewrite decide_True by done.
    erewrite lookup_union_Some_l in E0 by (by rewrite lookup_insert, decide_True).
    by simplify_eq.
Qed.
End rotate_facts.

Lemma rotate_replaces_components_witness :
  match rotate (H := example_runtime) exchange_components
          (PInt 1) (PInt 20) (PInt 0) pca_model with
  | (Ok _, rotated) =>
      model_type_ rotated = "PCA" ∧
      same_content (attributes_ rotated !! "mean")
                   (attributes_ pca_model !! "mean") ∧
      ∃ pc pc', attributes_ pca_model !! "principal_components" = Some pc ∧
                exchange_components pc (PInt 1) (PInt 20) (PInt 0) = Ok pc' ∧
                attributes_ rotated !! "principal_components" =
                  Some (np_copy pc')
  | (Raise _, unchanged) => unchanged = pca_model
  end.
Proof.
  apply (rotate_replaces_components (H := example_runtime)
           exchange_components (PInt 1) (PInt 20) (PInt 0) pca_attributes
           pca_model).
  vm_compute. reflexivity.
Defined.

(** The rotation of the example does take place. *)
Lemma rotate_example :
  (rotate (H := example_runtime) exchange_components
     (PInt 1) (PInt 20) (PInt 0) pca_model).1 = Ok tt.
Proof. vm_compute. reflexivity. Qed.

(** ** The formulas of the normalizer *)

Lemma traverse_as_num_floats (xs : list R) :
  traverse as_num (PFloat <$> xs) = Ok xs.
Proof. induction xs as [|x xs IH]; [done|]. cbn. by rewrite IH. Qed.

Lemma np_array2_float_rows (rows : list (list R)) (n : nat) :
  rows ≠ [] → Forall (λ xs, length xs = n) rows →
  np_array2 (float_rows rows) = Ok rows.
Proof.
  intros Hne Hlen. unfold np_array2, np_rows, float_rows. cbn [items].
  rewrite bind_Ok.
  rewrite (traverse_fmap_fmap items _ (λ xs : list R, PFloat <$> xs))
    by (by apply Forall_forall).
  rewrite bind_Ok.
  assert (Hcells : traverse (traverse as_num)
                     ((λ xs : list R, PFloat <$> xs) <$> rows) = Ok rows).
  { rewrite (traverse_fmap_fmap (traverse as_num) _ (λ xs : list R, xs)).
    - by rewrite list_fmap_id.
    - apply Forall_forall. intros xs _. apply traverse_as_num_floats. }
  destruct rows as [|r rows]; [done|].
  apply Forall_cons in Hlen as [Hr Hlen].
  cbn [fmap list_fmap] in *.
  rewrite forallb_true_intro.
  - by rewrite bind_Ok.
  - intros r' Hr'. apply list_elem_of_fmap in Hr' as (xs & -> & Hxs).
    eapply Forall_forall in Hlen; [|exact Hxs].
    rewrite !length_fmap. apply Nat.eqb_eq. congruence.
Qed.

Lemma broadcast_equal_widths (f : R → R → R) (rows : list (list R))
  (v : list R) :
  Forall (λ xs, length xs = length v) rows →
  broadcast f rows v = Ok ((λ xs, zip_with f xs v) <$> rows).
Proof.
  intros Hlen. unfold broadcast. apply traverse_fmap.
  eapply Forall_impl; [exact Hlen|]. intros xs Hxs. cbn in *.
  unfold broadcast_row. by rewrite Hxs, Nat.eqb_refl.
Qed.

Lemma divide_equal_widths (xs b : list R) :
  length xs = length b → Forall (λ y, y ≠ 0%R) b →
  divide_row xs b = Ok (zip_with Rdiv xs b).
Proof.
  intros Hlen Hb. unfold divide_row. rewrite Hlen, Nat.eqb_refl.
  clear Hlen. revert xs. induction Hb as [|y b Hy _ IH]; intros [|x xs];
    try done.
  change (zip (x :: xs) (y :: b)) with ((x, y) :: zip xs b).
  cbn [traverse fst snd zip_with].
  assert (np_div x y = Ok (x / y)%R) as ->
    by (unfold np_div, Reqb; by destruct (Req_dec_T y 0)).
  cbn [mbind res_bind]. by rewrite IH.
Qed.

(** X21. The formulas of [transform_from_normalizer] on a matrix of
    floats whose rows are as wide as [values]: with ["minmax"] each cell
    [x] of column [j] becomes [(x - a) / (b - a)] for the pair [(a, b)] of
    the column, provided no [b - a] is 0; with any other method it becomes
    [(x - a) / b], provided no [b] is 0. *)
Theorem normalizer_formulas `{Runtime} (rows : list (list R))
  (params : list (R * R)) (method : string) :
  rows ≠ [] →
  Forall (λ xs, length xs = length params) rows →
  check [OfType "X" (float_rows rows) [Tlist];
         OfType "values" (float_pairs params) [Tlist];
         OneOf "method" (PStr method) normalizer_methods] = Ok tt →
  (method = "minmax" → Forall (λ ab, ab.2 - ab.1 ≠ 0)%R params →
   transform_from_normalizer (float_rows rows) (float_pairs params)
     (PStr method) =
   Ok (matrix_val
         ((λ xs, zip_with (λ x ab, (x - ab.1) / (ab.2 - ab.1))%R xs params)
          <$> rows))) ∧
  (method ≠ "minmax" → Forall (λ ab, ab.2 ≠ 0)%R params →
   transform_from_normalizer (float_rows rows) (float_pairs params)
     (PStr method) =
   Ok (matrix_val
         ((λ xs, zip_with (λ x ab, (x - ab.1) / ab.2)%R xs params)
          <$> rows))).
Proof.
  intros Hne Hlen Hcheck.
  assert (Ha : traverse (λ elem, e ← getitem elem (PInt 0); as_num e)
                 ((λ ab : R * R, PList [PFloat ab.1; PFloat ab.2]) <$> params)
               = Ok (fst <$> params))
    by (apply traverse_fmap_fmap; by apply Forall_forall).
  assert (Hb : traverse (λ elem, e ← getitem elem (PInt 1); as_num e)
                 ((λ ab : R * R, PList [PFloat ab.1; PFloat ab.2]) <$> params)
               = Ok (snd <$> params))
    by (apply traverse_fmap_fmap; by apply Forall_forall).
  assert (Hstart : ∀ b' : list R,
    length b' = length params → Forall (λ y, y ≠ 0%R) b' →
    (M ← np_array2 (float_rows rows);
     D ← broadcast (λ x aj, x - aj)%R M (fst <$> params);
     out ← traverse (λ row, divide_row row b') D;
     Ok (matrix_val out)) =
    Ok (matrix_val ((λ xs, zip_with Rdiv
                             (zip_with Rminus xs (fst <$> params)) b')
                    <$> rows))).
  { intros b' Hb' Hnz.
    rewrite (np_array2_float_rows rows (length params)) by done.
    rewrite bind_Ok, broadcast_equal_widths
      by (by rewrite length_fmap).
    rewrite bind_Ok, (traverse_fmap_fmap _ _
      (λ xs, zip_with Rdiv (zip_with Rminus xs (fst <$> params)) b')).
    - done.
    - eapply Forall_impl; [exact Hlen|]. intros xs Hxs. cbn in *.
      apply divide_equal_widths; [|done].
      rewrite length_zip_with, length_fmap. lia. }
  assert (Hcells : ∀ (g : R * R → R) (xs : list R),
    zip_with Rdiv (zip_with Rminus xs (fst <$> params)) (g <$> params) =
    zip_with (λ x ab, (x - ab.1) / g ab)%R xs params).
  { intros g xs. clear. revert xs.
    induction params as [|ab ps IH]; intros [|x xs]; cbn; try done.
    by rewrite IH. }
  split; intros Hm Hnz; unfold transform_from_normalizer.
  all: rewrite Hcheck, bind_Ok; unfold float_pairs at 1; cbn [items].
  all: rewrite bind_Ok, Ha, bind_Ok, Hb, bind_Ok.
  - subst method. change (py_eq (PStr "minmax") (PStr "minmax")) with true.
    cbn iota.
    replace (zip_with Rminus (snd <$> params) (fst <$> params))
      with ((λ ab : R * R, ab.2 - ab.1)%R <$> params)
      by (clear; induction params as [|ab ps IH]; cbn; [done | by rewrite IH]).
    rewrite Hstart; [| by rewrite length_fmap | by apply Forall_fmap].
    do 2 f_equal. apply list_fmap_ext. intros _ xs _. apply Hcells.
  - assert (py_eq (PStr method) (PStr "minmax") = false) as ->
      by (cbn; by apply bool_decide_eq_false_2).
    rewrite Hstart; [| by rewrite length_fmap | by apply Forall_fmap].
    do 2 f_equal. apply list_fmap_ext. intros _ xs _. apply Hcells.
Qed.

Lemma normalizer_formulas_witness :
  transform_from_normalizer (H := example_runtime)
    (float_rows [[2; 10]; [4; 30]]%R) (float_pairs [(2, 4); (10, 30)]%R)
    (PStr "minmax") =
  Ok (matrix_val
        ((λ xs, zip_with (λ x ab, (x - ab.1) / (ab.2 - ab.1))%R xs
                         [(2, 4); (10, 30)]%R)
         <$> [[2; 10]; [4; 30]]%R)).
Proof.
  apply (normalizer_formulas (H := example_runtime)
           [[2; 10]; [4; 30]]%R [(2, 4); (10, 30)]%R "minmax").
  - discriminate.
  - repeat constructor.
  - reflexivity.
  - reflexivity.
  - repeat constructor; cbn; lra.
Defined.

(** ** Members whose SQL is not text *)

Lemma traverse_total {A B} (f : A → res B) (l : list A) :
  Forall (λ x, ∃ y, f x = Ok y) l →
  ∃ r, traverse f l = Ok r ∧ Forall2 (λ x y, f x = Ok y) l r.
Proof.
  induction 1 as [|x l [y Hy] _ (r & Hr & Hall)].
  - exists []. split; [done | constructor].
  - exists (y :: r). split.
    + cbn. by rewrite Hy, bind_Ok, Hr.
    + by constructor.
Qed.

Lemma py_join_needs_text (sep : string) (l : list pyval) (v : pyval) :
  v ∈ l → (∀ s, v ≠ PStr s) → py_join sep l = Raise TypeError.
Proof.
  intros Hin Hv. unfold py_join.
  rewrite (traverse_first_error _ l TypeError v); [done | | done |].
  - intros y e' _. destruct y; by intros [= <-].
  - destruct v; try done. by destruct (Hv s).
Qed.

(** X22. [predict_sql] of a regressor ensemble joins the SQL of its
    members as text: when every member has an SQL value and one of them
    is not text (a single-leaf tree gives its number), the call fails with
    a [TypeError]. *)
Theorem ensemble_sql_needs_text_members `{Runtime} (d : nat)
  (self : memModel) (X : pyval) (trees : list memModel) (tree : memModel)
  (v : pyval) :
  model_type_ self ∈ ["RandomForestRegressor"; "XGBoostRegressor"] →
  members self = Ok trees →
  Forall (λ t, ∃ sql, predict_sql_at d t X = Ok sql) trees →
  tree ∈ trees →
  predict_sql_at d tree X = Ok v →
  (∀ s, v ≠ PStr s) →
  predict_sql_at (S d) self X = Raise TypeError.
Proof.
  intros Hmt Htrees Hall Hin Hv Hnum.
  destruct (traverse_total _ _ Hall) as (result & Hresult & Hpairs).
  assert (Hjoin : py_join " + " result = Raise TypeError).
  { apply (py_join_needs_text _ _ v); [|done].
    apply list_elem_of_lookup in Hin as [i Hi].
    destruct (Forall2_lookup_l _ _ _ _ _ Hpairs Hi) as (y & Hy & Hfy).
    apply list_elem_of_lookup. exists i. congruence. }
  destruct self as [a mt rep]. cbn in Hmt.
  repeat (apply elem_of_cons in Hmt as [-> | Hmt]);
    [| | by apply elem_of_nil in Hmt].
  all: cbn -[members py_join attr].
  all: by rewrite Htrees, bind_Ok, Hresult, bind_Ok, Hjoin.
Qed.

Lemma ensemble_sql_needs_text_members_witness :
  predict_sql_at (H := example_runtime) 1 regressor_pair (PList [PStr "x"]) =
  Raise TypeError.
Proof.
  apply (ensemble_sql_needs_text_members (H := example_runtime) 0
           regressor_pair (PList [PStr "x"])
           [leaf_regressor (PInt 4); leaf_regressor (PInt 8)]
           (leaf_regressor (PInt 4)) (PInt 4)).
  - apply elem_of_cons. by left.
  - reflexivity.
  - repeat constructor; eexists; reflexivity.
  - apply elem_of_cons. by left.
  - reflexivity.
  - discriminate.
Defined.

(** ** PCA and SVD as matrix products *)

Lemma stack_columns (rows : list (list R)) (g : list R → nat → R) (n : nat) :
  (0 < n)%nat →
  column_stack ((λ k, (λ xs, g xs k) <$> rows) <$> seq 0 n) =
    Ok ((λ xs, (λ k, g xs k) <$> seq 0 n) <$> rows).
Proof.
  intros Hn.
  rewrite (column_stack_cells _ (length rows)).
  - f_equal. apply list_eq. intros i. rewrite !list_lookup_fmap.
    destruct (rows !! i) as [xs|] eqn:Ei; cbn.
    + rewrite lookup_seq_lt by (by eapply lookup_lt_Some). cbn. f_equal.
      unfold cells_at. rewrite <- list_fmap_compose.
      apply list_fmap_ext. intros _ k _. cbn.
      by rewrite list_lookup_fmap, Ei.
    + rewrite lookup_seq_ge by (by apply lookup_ge_None). done.
  - destruct n; [lia|]. done.
  - apply Forall_fmap, Forall_forall. intros k _. cbn.
    by rewrite length_fmap.
Qed.

Lemma column_cells (M : list (list R)) (n k : nat) :
  Forall (λ r, length r = n) M → (k < n)%nat →
  column M (Z.of_nat k) = Ok (cells_at M k).
Proof.
  intros Hlen Hk. unfold column, cells_at. apply traverse_fmap.
  eapply Forall_impl; [exact Hlen|]. intros r Hr. cbn in *.
  destruct (lookup_lt_is_Some_2 r k) as [y Hy]; [lia|].
  rewrite Hy. by apply py_index_lookup.
Qed.

Lemma np_array1_float_list (xs : list R) : np_array1 (float_list xs) = Ok xs.
Proof. unfold np_array1, float_list. cbn. apply traverse_as_num_floats. Qed.

Lemma Rsum_scaled (l : list R) (d : R) :
  Rsum ((λ x, x / d)%R <$> l) = (Rsum l / d)%R.
Proof. apply Rsum_div. Qed.

Section projections.
Context `{Runtime}.
Variables (rows pcs : list (list R)) (m n : nat).
Hypothesis Hrows : rows ≠ [].
Hypothesis Hwidth : Forall (λ xs, length xs = m) rows.
Hypothesis Hpcs : length pcs = m.
Hypothesis Hm : (0 < m)%nat.
Hypothesis Hn : (0 < n)%nat.
Hypothesis Hcomponents : Forall (λ r, length r = n) pcs.

Lemma first_component_width :
  ∃ pc0, getitem (float_rows pcs) (PInt 0) = Ok (float_list pc0) ∧
         py_index pcs 0 = Ok pc0 ∧ length pc0 = n.
Proof.
  destruct pcs as [|pc0 pcs']; [cbn in Hpcs; lia|].
  exists pc0. repeat split. by apply Forall_cons in Hcomponents as [? _].
Qed.

(** X23. PCA and SVD as matrix products.  On a matrix of floats with rows
    of width [m] and a matrix of [m] component rows of width [n], once the
    argument check passes, [transform_from_pca] sends each row [xs] to the
    scalar products of [xs - mean] with the [n] columns of the components,
    and [transform_from_svd] to the scalar products of [xs] with the
    columns, each divided by the singular value of its column (none of
    which is 0). *)
Theorem projections_are_matrix_products :
  (∀ mean : list R,
     length mean = m →
     check [OfType "X" (float_rows rows) [Tlist; Tndarray];
            OfType "principal_components" (float_rows pcs) [Tlist; Tndarray];
            OfType "mean" (float_list mean) [Tlist; Tndarray]] = Ok tt →
     transform_from_pca (float_rows rows) (float_rows pcs) (float_list mean) =
       Ok (matrix_val
             ((λ xs, (λ k, dot (zip_with Rminus xs mean) (cells_at pcs k))
                     <$> seq 0 n) <$> rows))) ∧
  (∀ values : list R,
     length values = n → Forall (λ s, s ≠ 0%R) values →
     check [OfType "X" (float_rows rows) [Tlist];
            OfType "vectors" (float_rows pcs) [Tlist];
            OfType "values" (float_list values) [Tlist]] = Ok tt →
     transform_from_svd (float_rows rows) (float_rows pcs) (float_list values)
       = Ok (matrix_val
               ((λ xs, (λ k, dot xs (cells_at pcs k) /
                             default 1%R (values !! k))%R
                       <$> seq 0 n) <$> rows))).
Proof.
  assert (Hpcs' : pcs ≠ []) by (intros E; rewrite E in Hpcs; cbn in Hpcs; lia).
  destruct first_component_width as (pc0 & Hpc0 & Hidx0 & Hlen0).
  split.
  - intros mean Hmean Hcheck. unfold transform_from_pca.
    rewrite Hcheck, bind_Ok.
    rewrite (np_array2_float_rows pcs n) by done.
    rewrite bind_Ok, np_array1_float_list, bind_Ok.
    rewrite (np_array2_float_rows rows m) by done.
    rewrite bind_Ok, broadcast_equal_widths
      by (eapply Forall_impl; [exact Hwidth|]; cbn; congruence).
    rewrite bind_Ok, Hpc0, bind_Ok.
    unfold float_list at 1. cbn [py_len]. rewrite bind_Ok, length_fmap, Hlen0.
    rewrite (traverse_py_range _
      ((λ k, (λ xs, dot (zip_with Rminus xs mean) (cells_at pcs k)) <$> rows)
       <$> seq 0 n)).
    + rewrite bind_Ok.
      by rewrite (stack_columns rows
                    (λ xs k, dot (zip_with Rminus xs mean) (cells_at pcs k))).
    + by rewrite length_fmap, length_seq.
    + intros k col Hk. rewrite list_lookup_fmap in Hk.
      destruct (seq 0 n !! k) as [k'|] eqn:Ek; [|done].
      apply lookup_seq in Ek as [-> Hkn]. cbn in Hk. injection Hk as <-.
      rewrite (column_cells pcs n) by done.
      rewrite bind_Ok, broadcast_equal_widths.
      * rewrite bind_Ok. f_equal. rewrite map_map.
        by rewrite <- list_fmap_compose.
      * apply Forall_fmap. eapply Forall_impl; [exact Hwidth|].
        intros xs Hxs. cbn in *. unfold cells_at.
        rewrite length_zip_with, !length_fmap. lia.
  - intros values Hvalues Hnz Hcheck. unfold transform_from_svd.
    rewrite Hcheck, bind_Ok.
    rewrite (np_array2_float_rows pcs n) by done.
    rewrite bind_Ok, Hidx0, bind_Ok, Hlen0.
    rewrite (traverse_py_range _
      ((λ k, (λ xs, (dot xs (cells_at pcs k) /
                     default 1 (values !! k))%R) <$> rows)
       <$> seq 0 n)).
    + rewrite bind_Ok.
      by rewrite (stack_columns rows
                    (λ xs k, (dot xs (cells_at pcs k) /
                              default 1 (values !! k))%R)).
    + by rewrite length_fmap, length_seq.
    + intros k col Hk. rewrite list_lookup_fmap in Hk.
      destruct (seq 0 n !! k) as [k'|] eqn:Ek; [|done].
      apply lookup_seq in Ek as [-> Hkn]. cbn in Hk. injection Hk as <-.
      rewrite (column_cells pcs n) by done.
      rewrite bind_Ok, (np_array2_float_rows rows m) by done.
      rewrite bind_Ok, broadcast_equal_widths.
      2:{ eapply Forall_impl; [exact Hwidth|]. intros xs Hxs. cbn in *.
          unfold cells_at. rewrite length_fmap. lia. }
      rewrite bind_Ok.
      destruct (lookup_lt_is_Some_2 values k) as [s Hs]; [lia|].
      assert (Hs0 : s ≠ 0%R) by (by eapply Forall_lookup_1 in Hnz).
      unfold float_list, getitem. cbn [items as_index mbind res_bind].
      rewrite (py_index_lookup _ k (PFloat s))
        by (by rewrite list_lookup_fmap, Hs).
      cbn [as_num mbind res_bind].
      rewrite (traverse_fmap_fmap _ _
                 (λ xs, (λ x, x / s)%R <$> zip_with Rmult xs (cells_at pcs k))).
      * cbn [mbind res_bind]. f_equal. rewrite map_map.
        apply list_fmap_ext. intros _ xs _. cbn [compose].
        rewrite Hs. cbn [default]. unfold dot. apply Rsum_scaled.
      * apply Forall_forall. intros xs _. apply traverse_fmap.
        apply Forall_forall. intros x _. unfold np_div, Reqb.
        by destruct (Req_dec_T s 0).
Qed.
End projections.

Lemma projections_are_matrix_products_witness :
  transform_from_pca (H := example_runtime) (float_rows [[3; 5]]%R)
    (float_rows [[0; 1]; [1; 0]]%R) (float_list [3; 5]%R) =
  Ok (matrix_val
        ((λ xs, (λ k, dot (zip_with Rminus xs [3; 5]%R)
                          (cells_at [[0; 1]; [1; 0]]%R k))
                <$> seq 0 2) <$> [[3; 5]]%R)).
Proof.
  pose proof (projections_are_matrix_products (H := example_runtime)
           [[3; 5]]%R [[0; 1]; [1; 0]]%R 2 2) as P.
  refine (proj1 (P _ _ _ _ _ _) [3; 5]%R _ _).
  - discriminate.
  - repeat constructor.
  - reflexivity.
  - lia.
  - lia.
  - repeat constructor.
  - reflexivity.
  - reflexivity.
Defined.
